(** * Validators of the HTML / CSS / JavaScript reference datasets

    A shallow embedding of the consistency validators
    ([Javascript/scripts/validate-data.js], [CSS/scripts/validate-data.js])
    and of the query classes ([JavaScriptValidator], [CSSValidator],
    [HTMLValidator]) together with the properties their specification
    states about them.

    The programs are JavaScript.  Their data is whatever [JSON.parse]
    returned, so the embedding works on an explicit type of JavaScript
    values, with the language's own rules for property reads, truthiness,
    [Object.keys] and string conversion written out. *)

From Stdlib Require Import List String Ascii ZArith Lia Bool Arith PeanoNat.
From Stdlib Require Import DecimalString Sorted Permutation.
Import ListNotations.

Open Scope string_scope.
Open Scope nat_scope.
Open Scope list_scope.

Set Warnings "-register-all".

Infix "+++" := String.append (at level 60, right associativity).

(* ================================================================== *)
(** * JavaScript values and the built-ins the validators use *)
(* ================================================================== *)

Module JS.

(** A value as the validators see it.  [VObj] lists the own enumerable
    properties of an object in the order [Object.keys] reports them.
    [VBuiltin k] is what a read of [k] finds on [Object.prototype] when the
    object has no own property [k] (a built-in function, or the prototype
    object itself for [__proto__]).  Numbers are the integer-valued ones;
    strings are ASCII. *)
Inductive value : Type :=
| VUndef
| VNull
| VBool (b : bool)
| VNum (n : Z)
| VStr (s : string)
| VArr (items : list value)
| VObj (props : list (string * value))
| VBuiltin (k : string).

Inductive exn : Type :=
| TypeError
| Error (msg : string).

(** The result of running a piece of code: a value, a thrown exception, or
    [Unmodelled] when the run leaves the fragment of the language that is
    written out here (a read on a built-in, a string-to-number coercion). *)
Inductive outcome (A : Type) : Type :=
| Ok (a : A)
| Throw (e : exn)
| Unmodelled.

Arguments Ok {A} a.
Arguments Throw {A} e.
Arguments Unmodelled {A}.

Definition obind {A B : Type} (m : outcome A) (f : A -> outcome B) : outcome B :=
  match m with
  | Ok a => f a
  | Throw e => Throw e
  | Unmodelled => Unmodelled
  end.

Fixpoint omap {A B : Type} (f : A -> outcome B) (l : list A) : outcome (list B) :=
  match l with
  | [] => Ok []
  | x :: l' => obind (f x) (fun y => obind (omap f l') (fun ys => Ok (y :: ys)))
  end.

(** ** Strings *)

Definition lower_ascii (c : ascii) : ascii :=
  let n := nat_of_ascii c in
  if (65 <=? n) && (n <=? 90) then ascii_of_nat (n + 32) else c.

Fixpoint toLowerCase (s : string) : string :=
  match s with
  | EmptyString => EmptyString
  | String c s' => String (lower_ascii c) (toLowerCase s')
  end.

Definition is_upper (c : ascii) : bool :=
  let n := nat_of_ascii c in (65 <=? n) && (n <=? 90).


(** [s.includes(t)] *)
Fixpoint includes (s t : string) : bool :=
  String.prefix t s ||
  match s with
  | EmptyString => false
  | String _ s' => includes s' t
  end.

(** [Array.prototype.join] on strings. *)
Definition join (sep : string) (l : list string) : string := String.concat sep l.

Definition string_of_nat (n : nat) : string :=
  NilZero.string_of_uint (Nat.to_uint n).

Definition string_of_Z (z : Z) : string :=
  match z with
  | Z0 => "0"
  | Zpos p => string_of_nat (Pos.to_nat p)
  | Zneg p => "-" +++ string_of_nat (Pos.to_nat p)
  end.

(** ** Own properties *)

Fixpoint assoc {A : Type} (k : string) (l : list (string * A)) : option A :=
  match l with
  | [] => None
  | (k', v) :: l' => if String.eqb k k' then Some v else assoc k l'
  end.

Fixpoint indexed {A : Type} (i : nat) (l : list A) : list (string * A) :=
  match l with
  | [] => []
  | x :: l' => (string_of_nat i, x) :: indexed (S i) l'
  end.

Fixpoint chars (s : string) : list value :=
  match s with
  | EmptyString => []
  | String c s' => VStr (String c EmptyString) :: chars s'
  end.

(** The own enumerable string-keyed properties, in enumeration order. *)
Definition own_entries (v : value) : list (string * value) :=
  match v with
  | VObj props => props
  | VArr items => indexed 0 items
  | VStr s => indexed 0 (chars s)
  | _ => []
  end.

Definition nullish (v : value) : bool :=
  match v with
  | VUndef | VNull => true
  | _ => false
  end.

Definition Object_entries (v : value) : outcome (list (string * value)) :=
  if nullish v then Throw TypeError else Ok (own_entries v).

Definition Object_keys (v : value) : outcome (list string) :=
  if nullish v then Throw TypeError else Ok (map fst (own_entries v)).

Definition Object_values (v : value) : outcome (list value) :=
  if nullish v then Throw TypeError else Ok (map snd (own_entries v)).

(** ** Property reads *)

(** The properties every ordinary object inherits from [Object.prototype]. *)
Definition object_prototype_names : list string :=
  [ "constructor"; "__defineGetter__"; "__defineSetter__"; "hasOwnProperty";
    "__lookupGetter__"; "__lookupSetter__"; "isPrototypeOf";
    "propertyIsEnumerable"; "toString"; "valueOf"; "__proto__";
    "toLocaleString" ].

(** The field names the validators read by name.  No built-in prototype
    defines any of them, so such a read on a value without that own
    property is [undefined]. *)
Definition data_field_names : list string :=
  [ "categories"; "objects"; "keywords"; "metadata"; "subcategories";
    "description"; "methods"; "staticMethods"; "properties"; "category";
    "attributes"; "static"; "version"; "lastUpdated"; "totalCategories";
    "totalObjects"; "totalKeywords"; "totalMethods"; "statistics"; "syntax";
    "definition"; "totalProperties"; "totalTypes"; "totalSelectors";
    "totalFunctions"; "totalAtRules"; "types"; "selectors"; "functions";
    "atRules"; "elements"; "isVendorPrefix"; "isCustomProperty";
    "parameters" ].

Definition mem (k : string) (l : list string) : bool :=
  existsb (String.eqb k) l.

Definition inherited (v : value) (k : string) : outcome value :=
  match v with
  | VUndef | VNull => Throw TypeError
  | VObj _ =>
      if mem k object_prototype_names then Ok (VBuiltin k) else Ok VUndef
  | VArr items =>
      if String.eqb k "length" then Ok (VNum (Z.of_nat (List.length items)))
      else if String.eqb k "name" || mem k data_field_names then Ok VUndef
      else Unmodelled
  | VStr s =>
      if String.eqb k "length" then Ok (VNum (Z.of_nat (String.length s)))
      else if String.eqb k "name" || mem k data_field_names then Ok VUndef
      else Unmodelled
  | VBool _ | VNum _ =>
      if String.eqb k "length" || String.eqb k "name" || mem k data_field_names
      then Ok VUndef
      else Unmodelled
  | VBuiltin _ =>
      if mem k data_field_names then Ok VUndef else Unmodelled
  end.

(** [v[k]], also written [v.k]. *)
Definition get (v : value) (k : string) : outcome value :=
  if nullish v then Throw TypeError
  else match assoc k (own_entries v) with
       | Some x => Ok x
       | None => inherited v k
       end.

(** [v?.k] *)
Definition get_opt (v : value) (k : string) : outcome value :=
  if nullish v then Ok VUndef else get v k.

(** ** Coercions and operators *)

Definition truthy (v : value) : bool :=
  match v with
  | VUndef | VNull => false
  | VBool b => b
  | VNum n => negb (n =? 0)%Z
  | VStr s => negb (String.eqb s "")
  | VArr _ | VObj _ | VBuiltin _ => true
  end.

(** [a || b] on values. *)
Definition or_else (a b : value) : value := if truthy a then a else b.

Definition is_undefined (v : value) : bool :=
  match v with
  | VUndef => true
  | _ => false
  end.

Definition typeof (v : value) : string :=
  match v with
  | VUndef => "undefined"
  | VNull | VArr _ | VObj _ => "object"
  | VBool _ => "boolean"
  | VNum _ => "number"
  | VStr _ => "string"
  | VBuiltin k => if String.eqb k "__proto__" then "object" else "function"
  end.

(** [v === s] for a string [s], and [v === n] for a number [n]. *)
Definition strict_eq_str (v : value) (s : string) : bool :=
  match v with
  | VStr s' => String.eqb s' s
  | _ => false
  end.

Definition strict_eq_num (v : value) (n : Z) : bool :=
  match v with
  | VNum m => (m =? n)%Z
  | _ => false
  end.

(** [v < n] for a number [n]: the operand is converted to a number first;
    [undefined] and plain objects convert to [NaN], which is below
    nothing; an object whose own [toString] is data cannot be converted. *)
Definition less_than (v : value) (n : Z) : outcome bool :=
  match v with
  | VNum m => Ok (m <? n)%Z
  | VUndef => Ok false
  | VNull => Ok (0 <? n)%Z
  | VBool b => Ok ((if b then 1 else 0) <? n)%Z
  | VStr _ | VArr _ | VBuiltin _ => Unmodelled
  | VObj props =>
      match assoc "toString" props with
      | Some _ => Throw TypeError
      | None => Ok false
      end
  end.

(** [String(v)], the conversion a template literal applies.  An object
    whose own [toString] is data cannot be converted. *)
Fixpoint toStr (v : value) : outcome string :=
  match v with
  | VUndef => Ok "undefined"
  | VNull => Ok "null"
  | VBool true => Ok "true"
  | VBool false => Ok "false"
  | VNum n => Ok (string_of_Z n)
  | VStr s => Ok s
  | VArr items =>
      obind
        ((fix elems (l : list value) : outcome (list string) :=
            match l with
            | [] => Ok []
            | x :: l' =>
                obind (if nullish x then Ok "" else toStr x) (fun s =>
                obind (elems l') (fun ss => Ok (s :: ss)))
            end) items)
        (fun ss => Ok (join "," ss))
  | VObj props =>
      match assoc "toString" props with
      | Some _ => Throw TypeError
      | None => Ok "[object Object]"
      end
  | VBuiltin k =>
      if String.eqb k "__proto__" then Ok "[object Object]"
      else if String.eqb k "constructor"
           then Ok "function Object() { [native code] }"
           else Ok ("function " +++ k +++ "() { [native code] }")
  end.

End JS.

(* ================================================================== *)
(** * Checks that collect findings *)
(* ================================================================== *)

Module Run.
Import JS.

(** What a data validator works on: the parsed document and the two lists
    of findings (the fields of [JavaScriptDataValidator]; the locals
    [data], [errors] and [warnings] of [validateCSSData]). *)
Record validator : Type := mkValidator
  { data : value;
    errors : list string;
    warnings : list string }.

(** A check: it may push findings and may throw; the findings pushed
    before a throw stay where they are. *)
Definition M (A : Type) : Type := validator -> outcome A * validator.

Definition ret {A : Type} (a : A) : M A := fun st => (Ok a, st).

Definition bind {A B : Type} (m : M A) (f : A -> M B) : M B :=
  fun st =>
    match m st with
    | (Ok a, st') => f a st'
    | (Throw e, st') => (Throw e, st')
    | (Unmodelled, st') => (Unmodelled, st')
    end.

Notation "x <- c1 ;; c2" := (bind c1 (fun x => c2))
  (at level 61, c1 at next level, right associativity).
Notation "e1 ;; e2" := (bind e1 (fun _ => e2))
  (at level 61, right associativity).

Definition lift {A : Type} (o : outcome A) : M A := fun st => (o, st).

Definition this_data : M value := fun st => (Ok (data st), st).

Definition push_error (msg : string) : M unit :=
  fun st => (Ok tt, mkValidator (data st) (errors st ++ [msg]) (warnings st)).

Definition push_warning (msg : string) : M unit :=
  fun st => (Ok tt, mkValidator (data st) (errors st) (warnings st ++ [msg])).

Definition when (b : bool) (m : M unit) : M unit := if b then m else ret tt.

Fixpoint forEach {A : Type} (f : A -> M unit) (l : list A) : M unit :=
  match l with
  | [] => ret tt
  | x :: l' => f x ;; forEach f l'
  end.

(** A loop that updates one local variable. *)
Fixpoint foldM {A S : Type} (f : S -> A -> M S) (s : S) (l : list A) : M S :=
  match l with
  | [] => ret s
  | x :: l' => s' <- f s x ;; foldM f s' l'
  end.

End Run.

(* ================================================================== *)
(** * Javascript/scripts/validate-data.js *)
(* ================================================================== *)

Module JSData.
Import JS Run.

(** [v[k]] where the key is itself a value. *)
Definition get_at (v key : value) : outcome value :=
  obind (toStr key) (fun k => get v k).

(** ** The patterns *)

(** [/^[A-Z]/.test(s)] and [/[A-Z]/.test(s)] *)
Definition starts_upper (s : string) : bool :=
  match s with
  | String c _ => is_upper c
  | EmptyString => false
  end.

Definition has_upper (s : string) : bool :=
  existsb is_upper (list_ascii_of_string s).

Definition backslash : ascii := ascii_of_nat 92.

Definition lit (c : ascii) (l : list ascii) : option (list ascii) :=
  match l with
  | x :: l' => if Ascii.eqb x c then Some l' else None
  | [] => None
  end.

Fixpoint skip_d (l : list ascii) : list ascii :=
  match l with
  | x :: l' => if Ascii.eqb x "d"%char then skip_d l' else l
  | [] => []
  end.

Definition d_plus (l : list ascii) : option (list ascii) :=
  match l with
  | x :: l' => if Ascii.eqb x "d"%char then Some (skip_d l') else None
  | [] => None
  end.

Definition any_char (l : list ascii) : option (list ascii) :=
  match l with
  | x :: l' =>
      if Ascii.eqb x (ascii_of_nat 10) || Ascii.eqb x (ascii_of_nat 13)
      then None else Some l'
  | [] => None
  end.

Definition andThen {A B : Type} (o : option A) (f : A -> option B) : option B :=
  match o with
  | Some a => f a
  | None => None
  end.

(** The version pattern as the file has it: every backslash of the
    literal is doubled, so it asks for a backslash, one or more letters
    [d], a backslash and any character, three times over (the last time
    without the trailing pair). *)
Definition version_pattern_test (s : string) : bool :=
  let step l := andThen (andThen (lit backslash l) d_plus)
                  (fun l => andThen (lit backslash l) any_char) in
  match andThen (andThen (step (list_ascii_of_string s)) step)
          (fun l => andThen (lit backslash l) d_plus) with
  | Some _ => true
  | None => false
  end.

(** [allMethods.indexOf(m)] and the filter that keeps every name whose
    first occurrence is at another index. *)
Fixpoint indexOf (l : list string) (m : string) : option nat :=
  match l with
  | [] => None
  | x :: l' =>
      if String.eqb x m then Some 0
      else match indexOf l' m with
           | Some i => Some (S i)
           | None => None
           end
  end.

Fixpoint filter_index {A : Type} (p : A -> nat -> bool) (i : nat) (l : list A) : list A :=
  match l with
  | [] => []
  | x :: l' => if p x i then x :: filter_index p (S i) l' else filter_index p (S i) l'
  end.

Definition index_differs (o : option nat) (i : nat) : bool :=
  match o with
  | Some j => negb (j =? i)
  | None => true
  end.

Definition duplicates_of (allMethods : list string) : list string :=
  filter_index (fun method index => index_differs (indexOf allMethods method) index)
    0 allMethods.

(** How the run ends: [reportResults] returns, or leaves through
    [process.exit(1)]. *)
Inductive status : Type :=
| Completed
| Exited (code : nat).

Definition succeeded (s : status) : bool :=
  match s with
  | Completed => true
  | Exited _ => false
  end.

Section Checks.

(** [isNaN(Date.parse(s))]: which strings the host accepts as dates is
    left to the implementation by the language. *)
Variable Date_parse_isNaN : string -> bool.

Definition validateStructure : M unit :=
  d <- this_data ;;
  forEach (fun field =>
      v <- lift (get d field) ;;
      when (negb (truthy v)) (push_error ("Missing required field: " +++ field)))
    ["categories"; "objects"; "keywords"; "metadata"] ;;
  c <- lift (get d "categories") ;;
  when (negb (String.eqb (typeof c) "object"))
    (push_error "categories should be an object") ;;
  o <- lift (get d "objects") ;;
  when (negb (String.eqb (typeof o) "object"))
    (push_error "objects should be an object") ;;
  k <- lift (get d "keywords") ;;
  when (negb (String.eqb (typeof k) "object"))
    (push_error "keywords should be an object") ;;
  m <- lift (get d "metadata") ;;
  when (negb (String.eqb (typeof m) "object"))
    (push_error "metadata should be an object").

Definition validateCategories : M unit :=
  d <- this_data ;;
  cats <- lift (get d "categories") ;;
  entries <- lift (Object_entries cats) ;;
  forEach (fun '(categoryName, category) =>
      name <- lift (get category "name") ;;
      when (negb (truthy name))
        (push_error ("Category " +++ categoryName +++ " missing name")) ;;
      name <- lift (get category "name") ;;
      when (negb (strict_eq_str name categoryName))
        (shown <- lift (toStr name) ;;
         push_error ("Category name mismatch: " +++ categoryName +++ " vs " +++ shown)) ;;
      forEach (fun field =>
          v <- lift (get category field) ;;
          when (negb (truthy v))
            (push_error ("Category " +++ categoryName +++ " missing " +++ field)))
        ["subcategories"; "objects"; "keywords"])
    entries.

(** The check shared by methods, static methods and properties: both
    fields present, and the name equal to the key. *)
Definition check_member (objectName kind mismatch : string)
    (methodName : string) (method : value) : M unit :=
  name <- lift (get method "name") ;;
  missing <- (if negb (truthy name) then ret true
              else description <- lift (get method "description") ;;
                   ret (negb (truthy description))) ;;
  when missing
    (push_error ("Object " +++ objectName +++ " " +++ kind +++ " " +++ methodName
                 +++ " missing required fields")) ;;
  name <- lift (get method "name") ;;
  when (negb (strict_eq_str name methodName))
    (shown <- lift (toStr name) ;;
     push_error (mismatch +++ " name mismatch in " +++ objectName +++ ": "
                 +++ methodName +++ " vs " +++ shown)).

(** [!x.description || x.description.length < 10] *)
Definition short_description (x : value) : M bool :=
  description <- lift (get x "description") ;;
  if negb (truthy description) then ret true
  else description <- lift (get x "description") ;;
       len <- lift (get description "length") ;;
       lift (less_than len 10).

(** [x.category && !this.data.categories[x.category]] *)
Definition dangling_category (d x : value) : M bool :=
  category <- lift (get x "category") ;;
  if negb (truthy category) then ret false
  else cats <- lift (get d "categories") ;;
       category <- lift (get x "category") ;;
       found <- lift (get_at cats category) ;;
       ret (negb (truthy found)).

Definition validateObjects : M unit :=
  d <- this_data ;;
  objs <- lift (get d "objects") ;;
  entries <- lift (Object_entries objs) ;;
  forEach (fun '(objectName, object) =>
      forEach (fun field =>
          v <- lift (get object field) ;;
          when (is_undefined v)
            (push_error ("Object " +++ objectName +++ " missing " +++ field)))
        ["name"; "description"; "methods"; "staticMethods"; "properties"] ;;
      name <- lift (get object "name") ;;
      when (negb (strict_eq_str name objectName))
        (shown <- lift (toStr name) ;;
         push_error ("Object name mismatch: " +++ objectName +++ " vs " +++ shown)) ;;
      when (negb (String.eqb objectName "e") && negb (starts_upper objectName))
        (push_warning ("Object " +++ objectName +++ " should start with uppercase letter")) ;;
      short <- short_description object ;;
      when short
        (push_warning ("Object " +++ objectName +++ " has short or missing description")) ;;
      methods <- lift (get object "methods") ;;
      when (truthy methods)
        (methods <- lift (get object "methods") ;;
         ms <- lift (Object_entries methods) ;;
         forEach (fun '(methodName, method) =>
             check_member objectName "method" "Method" methodName method) ms) ;;
      staticMethods <- lift (get object "staticMethods") ;;
      when (truthy staticMethods)
        (staticMethods <- lift (get object "staticMethods") ;;
         ms <- lift (Object_entries staticMethods) ;;
         forEach (fun '(methodName, method) =>
             check_member objectName "static method" "Static method" methodName method ;;
             flag <- lift (get method "static") ;;
             when (negb (truthy flag))
               (push_warning ("Static method " +++ objectName +++ "." +++ methodName
                              +++ " should have static: true"))) ms) ;;
      properties <- lift (get object "properties") ;;
      when (truthy properties)
        (properties <- lift (get object "properties") ;;
         ps <- lift (Object_entries properties) ;;
         forEach (fun '(propName, property) =>
             check_member objectName "property" "Property" propName property) ps) ;;
      dangling <- dangling_category d object ;;
      when dangling
        (category <- lift (get object "category") ;;
         shown <- lift (toStr category) ;;
         push_error ("Object " +++ objectName +++ " references non-existent category: "
                     +++ shown)))
    entries.

Definition validateKeywords : M unit :=
  d <- this_data ;;
  kws <- lift (get d "keywords") ;;
  entries <- lift (Object_entries kws) ;;
  forEach (fun '(keywordName, keyword) =>
      forEach (fun field =>
          v <- lift (get keyword field) ;;
          when (is_undefined v)
            (push_error ("Keyword " +++ keywordName +++ " missing " +++ field)))
        ["name"; "description"; "attributes"] ;;
      name <- lift (get keyword "name") ;;
      when (negb (strict_eq_str name keywordName))
        (shown <- lift (toStr name) ;;
         push_error ("Keyword name mismatch: " +++ keywordName +++ " vs " +++ shown)) ;;
      when (has_upper keywordName)
        (push_warning ("Keyword " +++ keywordName +++ " contains uppercase letters")) ;;
      short <- short_description keyword ;;
      when short
        (push_warning ("Keyword " +++ keywordName +++ " has short or missing description")) ;;
      attributes <- lift (get keyword "attributes") ;;
      when (truthy attributes)
        (attributes <- lift (get keyword "attributes") ;;
         attrs <- lift (Object_entries attributes) ;;
         forEach (fun '(attrName, attribute) =>
             name <- lift (get attribute "name") ;;
             when (negb (truthy name))
               (push_error ("Keyword " +++ keywordName +++ " attribute " +++ attrName
                            +++ " missing name")) ;;
             name <- lift (get attribute "name") ;;
             when (negb (strict_eq_str name attrName))
               (shown <- lift (toStr name) ;;
                push_error ("Attribute name mismatch in " +++ keywordName +++ ": "
                            +++ attrName +++ " vs " +++ shown))) attrs) ;;
      dangling <- dangling_category d keyword ;;
      when dangling
        (category <- lift (get keyword "category") ;;
         shown <- lift (toStr category) ;;
         push_error ("Keyword " +++ keywordName +++ " references non-existent category: "
                     +++ shown)))
    entries.

(** [Object.keys(x.field || {}).length] *)
Definition count_keys (x : value) (field : string) : outcome nat :=
  obind (get x field) (fun v =>
  obind (Object_keys (or_else v (VObj []))) (fun ks => Ok (List.length ks))).

(** One stored total against the recomputed one. *)
Definition check_total (metadata : value) (field label : string) (actual : nat) : M unit :=
  stored <- lift (get metadata field) ;;
  when (negb (strict_eq_num stored (Z.of_nat actual)))
    (stored <- lift (get metadata field) ;;
     shown <- lift (toStr stored) ;;
     push_error ("Metadata " +++ label +++ " count mismatch: " +++ shown +++ " vs "
                 +++ string_of_nat actual)).

(** The loop that recomputes the method total. *)
Definition count_methods (objs : value) : M nat :=
  objects <- lift (Object_values objs) ;;
  foldM (fun actualMethods object =>
      n <- lift (count_keys object "methods") ;;
      s <- lift (count_keys object "staticMethods") ;;
      ret (actualMethods + n + s))
    0 objects.

Definition validateMetadata : M unit :=
  d <- this_data ;;
  metadata <- lift (get d "metadata") ;;
  forEach (fun field =>
      v <- lift (get metadata field) ;;
      when (is_undefined v) (push_error ("Metadata missing " +++ field)))
    ["version"; "lastUpdated"; "totalCategories"; "totalObjects"; "totalKeywords";
     "totalMethods"] ;;
  cats <- lift (get d "categories") ;;
  catKeys <- lift (Object_keys cats) ;;
  let actualCategories := List.length catKeys in
  objs <- lift (get d "objects") ;;
  objKeys <- lift (Object_keys objs) ;;
  let actualObjects := List.length objKeys in
  kws <- lift (get d "keywords") ;;
  kwKeys <- lift (Object_keys kws) ;;
  let actualKeywords := List.length kwKeys in
  check_total metadata "totalCategories" "category" actualCategories ;;
  check_total metadata "totalObjects" "object" actualObjects ;;
  check_total metadata "totalKeywords" "keyword" actualKeywords ;;
  objs <- lift (get d "objects") ;;
  actualMethods <- count_methods objs ;;
  check_total metadata "totalMethods" "method" actualMethods ;;
  version <- lift (get metadata "version") ;;
  shownVersion <- lift (toStr version) ;;
  when (negb (version_pattern_test shownVersion))
    (shown <- lift (toStr version) ;;
     push_warning ("Version should follow semantic versioning: " +++ shown)) ;;
  lastUpdated <- lift (get metadata "lastUpdated") ;;
  shownDate <- lift (toStr lastUpdated) ;;
  when (Date_parse_isNaN shownDate)
    (shown <- lift (toStr lastUpdated) ;;
     push_error ("Invalid lastUpdated date format: " +++ shown)).

(** The first loop of [validateConsistency], for one member map of one
    category: an error for every name the collection does not hold. *)
Definition check_references (d : value) (categoryName : string) (category : value)
    (field what : string) : M unit :=
  members <- lift (get category field) ;;
  names <- lift (Object_keys (or_else members (VObj []))) ;;
  forEach (fun name =>
      collection <- lift (get d field) ;;
      found <- lift (get collection name) ;;
      when (negb (truthy found))
        (push_error ("Category " +++ categoryName +++ " references non-existent "
                     +++ what +++ ": " +++ name)))
    names.

(** The second loop, for one object. *)
Definition check_duplicates (objectName : string) (object : value) : M unit :=
  methods <- lift (get object "methods") ;;
  instanceNames <- lift (Object_keys (or_else methods (VObj []))) ;;
  staticMethods <- lift (get object "staticMethods") ;;
  staticNames <- lift (Object_keys (or_else staticMethods (VObj []))) ;;
  let allMethods := instanceNames ++ staticNames in
  let duplicates := duplicates_of allMethods in
  when (0 <? List.length duplicates)
    (push_error ("Object " +++ objectName +++ " has duplicate methods: "
                 +++ join ", " duplicates)).

(** The third loop, for one object. *)
Definition check_empty (objectName : string) (object : value) : M unit :=
  methodCount <- lift (count_keys object "methods") ;;
  staticMethodCount <- lift (count_keys object "staticMethods") ;;
  propertyCount <- lift (count_keys object "properties") ;;
  when ((methodCount =? 0) && (staticMethodCount =? 0) && (propertyCount =? 0))
    (push_warning ("Object " +++ objectName +++ " has no methods or properties")).

Definition validateConsistency : M unit :=
  d <- this_data ;;
  cats <- lift (get d "categories") ;;
  categories <- lift (Object_entries cats) ;;
  forEach (fun '(categoryName, category) =>
      check_references d categoryName category "objects" "object" ;;
      check_references d categoryName category "keywords" "keyword")
    categories ;;
  objs <- lift (get d "objects") ;;
  objects <- lift (Object_entries objs) ;;
  forEach (fun '(objectName, object) => check_duplicates objectName object) objects ;;
  objs <- lift (get d "objects") ;;
  objects <- lift (Object_entries objs) ;;
  forEach (fun '(objectName, object) => check_empty objectName object) objects.

(** [reportResults] without the console: the expressions of the summary
    are still evaluated, since they can throw; the end of the method is
    the test on the error list. *)
Definition reportResults : M status :=
  d <- this_data ;;
  cats <- lift (get d "categories") ;;
  _ <- lift (Object_keys cats) ;;
  objs <- lift (get d "objects") ;;
  _ <- lift (Object_keys objs) ;;
  kws <- lift (get d "keywords") ;;
  _ <- lift (Object_keys kws) ;;
  objs <- lift (get d "objects") ;;
  objects <- lift (Object_values objs) ;;
  _ <- foldM (fun totals object =>
      n <- lift (count_keys object "methods") ;;
      s <- lift (count_keys object "staticMethods") ;;
      p <- lift (count_keys object "properties") ;;
      ret (fst totals + n + s, snd totals + p))
    (0, 0) objects ;;
  fun st =>
    if 0 <? List.length (errors st) then (Ok (Exited 1), st) else (Ok Completed, st).

(** [validate], once the file has been read and parsed into [d]. *)
Definition validate (d : value) : outcome status * validator :=
  (validateStructure ;;
   validateCategories ;;
   validateObjects ;;
   validateKeywords ;;
   validateMetadata ;;
   validateConsistency ;;
   reportResults) (mkValidator d [] []).

End Checks.

End JSData.

(* ================================================================== *)
(** * CSS/scripts/validate-data.js *)
(* ================================================================== *)

Module CSSData.
Import JS Run.

(** The two loops over [data.categories.properties] and
    [data.categories.types]: every item of every group is counted and
    must carry its two fields.  [second] is [syntax] for properties and
    [definition] for types; only properties have their name compared with
    the key. *)
Definition check_items (groups : value) (label second : string) (compareName : bool)
  : M nat :=
  categories <- lift (Object_keys groups) ;;
  foldM (fun count category =>
      props <- lift (get groups category) ;;
      names <- lift (Object_keys props) ;;
      foldM (fun count propName =>
          prop <- lift (get props propName) ;;
          name <- lift (get prop "name") ;;
          missing <- (if negb (truthy name) then ret true
                      else s <- lift (get prop second) ;; ret (negb (truthy s))) ;;
          when missing
            (push_error (label +++ " " +++ propName +++ " missing required fields")) ;;
          when compareName
            (name <- lift (get prop "name") ;;
             when (negb (strict_eq_str name propName))
               (shown <- lift (toStr name) ;;
                push_warning (label +++ " name mismatch: " +++ propName +++ " vs "
                              +++ shown))) ;;
          ret (S count))
        count names)
    0 categories.

(** [data.statistics?.total !== count], and the warning when they differ. *)
Definition check_count (d : value) (field label : string) (count : nat) : M unit :=
  statistics <- lift (get d "statistics") ;;
  stored <- lift (get_opt statistics field) ;;
  when (negb (strict_eq_num stored (Z.of_nat count)))
    (statistics <- lift (get d "statistics") ;;
     stored <- lift (get statistics field) ;;
     shown <- lift (toStr stored) ;;
     push_warning (label +++ " count mismatch: " +++ shown +++ " vs "
                   +++ string_of_nat count)).

(** The body of the [try] block, from the parsed document to the value
    returned at its end. *)
Definition checks : M bool :=
  d <- this_data ;;
  forEach (fun section =>
      v <- lift (get d section) ;;
      when (negb (truthy v)) (push_error ("Missing required section: " +++ section)))
    ["metadata"; "categories"; "statistics"] ;;
  categories <- lift (get d "categories") ;;
  when (truthy categories)
    (forEach (fun category =>
         categories <- lift (get d "categories") ;;
         v <- lift (get categories category) ;;
         when (negb (truthy v))
           (push_error ("Missing required category: " +++ category)))
       ["properties"; "types"; "selectors"; "functions"; "atRules"] ;;
     categories <- lift (get d "categories") ;;
     properties <- lift (get categories "properties") ;;
     when (truthy properties)
       (propertyCount <- check_items properties "Property" "syntax" true ;;
        check_count d "totalProperties" "Property" propertyCount) ;;
     categories <- lift (get d "categories") ;;
     types <- lift (get categories "types") ;;
     when (truthy types)
       (typeCount <- check_items types "Type" "definition" false ;;
        check_count d "totalTypes" "Type" typeCount)) ;;
  statistics <- lift (get d "statistics") ;;
  when (truthy statistics)
    (forEach (fun stat =>
         v <- lift (get statistics stat) ;;
         when (negb (String.eqb (typeof v) "number"))
           (push_error ("Invalid statistic: " +++ stat +++ " should be a number")))
       ["totalProperties"; "totalTypes"; "totalSelectors"; "totalFunctions";
        "totalAtRules"]) ;;
  (* the report: what it prints is left out, what it evaluates is not *)
  statistics <- lift (get d "statistics") ;;
  when (truthy statistics)
    (forEach (fun stat =>
         statistics <- lift (get d "statistics") ;;
         v <- lift (get statistics stat) ;;
         _ <- lift (toStr v) ;;
         ret tt)
       ["totalProperties"; "totalTypes"; "totalFunctions"; "totalSelectors";
        "totalAtRules"]) ;;
  categories <- lift (get d "categories") ;;
  properties <- lift (get_opt categories "properties") ;;
  when (truthy properties)
    (categories <- lift (get d "categories") ;;
     properties <- lift (get categories "properties") ;;
     names <- lift (Object_keys properties) ;;
     forEach (fun category =>
         group <- lift (get properties category) ;;
         _ <- lift (Object_keys group) ;;
         ret tt)
       names) ;;
  fun st => (Ok (List.length (errors st) =? 0), st).

(** [validateCSSData], once the file has been read and parsed into [d]:
    whatever the [try] block throws is caught and answered with [false]. *)
Definition validateCSSData (d : value) : outcome bool :=
  match fst (checks (mkValidator d [] [])) with
  | Ok result => Ok result
  | Throw _ => Ok false
  | Unmodelled => Unmodelled
  end.

End CSSData.

(* ================================================================== *)
(** * Arrays that grow by assignment, and counted loops *)
(* ================================================================== *)

Module JSArray.
Import JS.

(** An array whose slots may be empty: [None] is a hole, which reads as
    [undefined]. *)
Definition arr_get {A : Type} (l : list (option A)) (i : nat) : option A :=
  match nth_error l i with
  | Some (Some x) => Some x
  | _ => None
  end.

(** [l[i] = x]: replaces the slot, or extends the array up to it. *)
Definition arr_set {A : Type} (l : list (option A)) (i : nat) (x : option A)
  : list (option A) :=
  if i <? List.length l
  then firstn i l ++ x :: skipn (S i) l
  else l ++ repeat None (i - List.length l) ++ [x].

(** A number cell: [None] stands for [undefined] or [NaN]. *)
Definition cell : Type := option nat.
Definition row : Type := list cell.
Definition matrix : Type := list (option row).

(** [m[i][j]]: reading a row that is not there throws. *)
Definition mat_get (m : matrix) (i j : nat) : outcome cell :=
  match arr_get m i with
  | Some r => Ok (arr_get r j)
  | None => Throw TypeError
  end.

(** [m[i][j] = v] *)
Definition mat_set (m : matrix) (i j : nat) (v : cell) : outcome matrix :=
  match arr_get m i with
  | Some r => Ok (arr_set m i (Some (arr_set r j v)))
  | None => Throw TypeError
  end.

(** [x + 1] and [Math.min(a, b, c)] on cells. *)
Definition succ_cell (x : cell) : cell :=
  match x with
  | Some n => Some (S n)
  | None => None
  end.

Definition min3 (a b c : cell) : cell :=
  match a, b, c with
  | Some x, Some y, Some z => Some (Nat.min x (Nat.min y z))
  | _, _, _ => None
  end.

(** [for (let i = lo; i <= hi; i++) body], on the state the body updates:
    [count] is the number of rounds. *)
Fixpoint for_loop {S : Type} (lo count : nat) (body : nat -> S -> outcome S) (s : S)
  : outcome S :=
  match count with
  | 0 => Ok s
  | Datatypes.S count' => obind (body lo s) (for_loop (Datatypes.S lo) count' body)
  end.

(** [s.charAt(i) === t.charAt(j)]; outside the string [charAt] is the
    empty string. *)
Definition same_char (s : string) (i : nat) (t : string) (j : nat) : bool :=
  match String.get i s, String.get j t with
  | Some a, Some b => Ascii.eqb a b
  | None, None => true
  | _, _ => false
  end.

End JSArray.

(* ================================================================== *)
(** * CSS/src/CSSValidator-new.js (class CSSValidator) *)
(* ================================================================== *)

Module CSSValidator.
Import JS JSArray.

Definition levenshteinDistance (str1 str2 : string) : outcome cell :=
  let matrix : matrix := [] in
  obind (for_loop 0 (S (String.length str2))
           (fun i matrix => Ok (arr_set matrix i (Some [Some i]))) matrix)
    (fun matrix =>
  obind (for_loop 0 (S (String.length str1))
           (fun j matrix => mat_set matrix 0 j (Some j)) matrix)
    (fun matrix =>
  obind (for_loop 1 (String.length str2)
           (fun i matrix =>
              for_loop 1 (String.length str1)
                (fun j matrix =>
                   if same_char str2 (i - 1) str1 (j - 1)
                   then obind (mat_get matrix (i - 1) (j - 1)) (fun d =>
                        mat_set matrix i j d)
                   else obind (mat_get matrix (i - 1) (j - 1)) (fun d =>
                        obind (mat_get matrix i (j - 1)) (fun l =>
                        obind (mat_get matrix (i - 1) j) (fun u =>
                        mat_set matrix i j
                          (min3 (succ_cell d) (succ_cell l) (succ_cell u))))))
                matrix)
           matrix)
    (fun matrix =>
  mat_get matrix (String.length str2) (String.length str1)))).

(** One candidate of [findSimilarProperties]. *)
Record candidate : Type := mkCandidate
  { property : string;
    distance : nat;
    category : string }.

(** [array.sort((a, b) => a.distance - b.distance)]: the sort keeps
    candidates of equal distance in the order they were pushed. *)
Fixpoint insert_by_distance (x : candidate) (l : list candidate) : list candidate :=
  match l with
  | [] => [x]
  | y :: l' =>
      if distance x <=? distance y then x :: y :: l'
      else y :: insert_by_distance x l'
  end.

Fixpoint sort_by_distance (l : list candidate) : list candidate :=
  match l with
  | [] => []
  | x :: l' => insert_by_distance x (sort_by_distance l')
  end.

(** The candidates one group of properties contributes: the names at
    distance at most 3 (a cell that is not a number passes no test). *)
Fixpoint candidates_of_group (queryLower category : string) (names : list string)
  : outcome (list candidate) :=
  match names with
  | [] => Ok []
  | propName :: names' =>
      obind (levenshteinDistance queryLower (toLowerCase propName)) (fun d =>
      obind (candidates_of_group queryLower category names') (fun rest =>
      Ok (match d with
          | Some distance =>
              if distance <=? 3 then mkCandidate propName distance category :: rest
              else rest
          | None => rest
          end)))
  end.

Fixpoint candidates_of_groups (queryLower : string) (groups : value)
    (categories : list string) : outcome (list candidate) :=
  match categories with
  | [] => Ok []
  | category :: categories' =>
      obind (get groups category) (fun properties =>
      obind (Object_keys properties) (fun names =>
      obind (candidates_of_group queryLower category names) (fun here =>
      obind (candidates_of_groups queryLower groups categories') (fun rest =>
      Ok (here ++ rest)))))
  end.

Definition findSimilarProperties (data : value) (propertyName : string)
  : outcome (list string) :=
  let queryLower := toLowerCase propertyName in
  obind (get data "categories") (fun categories =>
  obind (get categories "properties") (fun groups =>
  obind (Object_keys groups) (fun names =>
  obind (candidates_of_groups queryLower groups names) (fun suggestions =>
  Ok (map property (firstn 5 (sort_by_distance suggestions))))))).

Fixpoint matching_functions (queryLower : string) (groups : value)
    (categories : list string) : outcome (list string) :=
  match categories with
  | [] => Ok []
  | category :: categories' =>
      obind (get groups category) (fun functions =>
      obind (Object_keys functions) (fun names =>
      obind (matching_functions queryLower groups categories') (fun rest =>
      Ok (filter (fun funcName => includes (toLowerCase funcName) queryLower) names
          ++ rest))))
  end.

Definition findSimilarFunctions (data : value) (functionName : string)
  : outcome (list string) :=
  let queryLower := toLowerCase functionName in
  obind (get data "categories") (fun categories =>
  obind (get categories "functions") (fun groups =>
  obind (Object_keys groups) (fun names =>
  obind (matching_functions queryLower groups names) (fun suggestions =>
  Ok (firstn 3 suggestions))))).

Definition not_initialized : exn :=
  Error "Validator not initialized. Call initialize() first.".

(** The loops of [validateProperty] and [validateFunction]: the first
    group that holds the name, with what is stored under it. *)
Fixpoint first_group (groups : value) (categories : list string) (name : string)
  : outcome (option (string * value)) :=
  match categories with
  | [] => Ok None
  | category :: categories' =>
      obind (get groups category) (fun members =>
      obind (get members name) (fun found =>
      if truthy found then Ok (Some (category, found))
      else first_group groups categories' name))
  end.

Record property_result : Type := mkPropertyResult
  { p_valid : bool;
    p_property : string;
    p_category : value;
    p_syntax : value;
    p_isVendorPrefix : value;
    p_isCustomProperty : value;
    p_suggestions : list string }.

(** [data] is the field [this.data], [null] until [initialize] has run. *)
Definition validateProperty (data : value) (propertyName : string)
  : outcome property_result :=
  if negb (truthy data) then Throw not_initialized
  else
    obind (get data "categories") (fun categories =>
    obind (get categories "properties") (fun groups =>
    obind (Object_keys groups) (fun names =>
    obind (first_group groups names propertyName) (fun hit =>
    match hit with
    | Some (category, found) =>
        obind (get found "syntax") (fun syntax =>
        obind (get found "isVendorPrefix") (fun isVendorPrefix =>
        obind (get found "isCustomProperty") (fun isCustomProperty =>
        Ok (mkPropertyResult true propertyName (VStr category) syntax
              isVendorPrefix isCustomProperty []))))
    | None =>
        obind (findSimilarProperties data propertyName) (fun suggestions =>
        Ok (mkPropertyResult false propertyName VNull VNull (VBool false)
              (VBool false) suggestions))
    end)))).

Record function_result : Type := mkFunctionResult
  { f_valid : bool;
    f_function : string;
    f_category : value;
    f_syntax : value;
    f_parameters : value;
    f_suggestions : list string }.

Definition validateFunction (data : value) (functionName : string)
  : outcome function_result :=
  obind (get data "categories") (fun categories =>
  obind (get categories "functions") (fun groups =>
  obind (Object_keys groups) (fun names =>
  obind (first_group groups names functionName) (fun hit =>
  match hit with
  | Some (category, found) =>
      obind (get found "syntax") (fun syntax =>
      obind (get found "parameters") (fun parameters =>
      Ok (mkFunctionResult true functionName (VStr category) syntax
            (or_else parameters (VArr [])) [])))
  | None =>
      obind (findSimilarFunctions data functionName) (fun suggestions =>
      Ok (mkFunctionResult false functionName VNull VNull (VArr []) suggestions))
  end)))).

(** ** Selectors *)

(** [s.trim()] *)
Definition is_space (c : ascii) : bool :=
  let n := nat_of_ascii c in
  ((9 <=? n) && (n <=? 13)) || (n =? 32).

Fixpoint drop_spaces (l : list ascii) : list ascii :=
  match l with
  | c :: l' => if is_space c then drop_spaces l' else l
  | [] => []
  end.

Definition trim (l : list ascii) : list ascii :=
  rev (drop_spaces (rev (drop_spaces l))).

(** The character classes of the patterns. *)
Definition is_alpha (c : ascii) : bool :=
  let n := nat_of_ascii c in
  ((65 <=? n) && (n <=? 90)) || ((97 <=? n) && (n <=? 122)).

Definition is_digit (c : ascii) : bool :=
  let n := nat_of_ascii c in (48 <=? n) && (n <=? 57).

Definition is_alnum (c : ascii) : bool := is_alpha c || is_digit c.

Definition is_name_start (c : ascii) : bool :=
  is_alpha c || Ascii.eqb c "_"%char || Ascii.eqb c "-"%char.

Definition is_name_char (c : ascii) : bool :=
  is_alnum c || Ascii.eqb c "_"%char || Ascii.eqb c "-"%char.

Definition is_pseudo_char (c : ascii) : bool := is_alpha c || Ascii.eqb c "-"%char.

(** What [.] does not match. *)
Definition is_line_end (c : ascii) : bool :=
  Ascii.eqb c (ascii_of_nat 10) || Ascii.eqb c (ascii_of_nat 13).

Fixpoint skip_while (p : ascii -> bool) (l : list ascii) : list ascii :=
  match l with
  | c :: l' => if p c then skip_while p l' else l
  | [] => []
  end.

Fixpoint after_prefix (p l : list ascii) : option (list ascii) :=
  match p, l with
  | [], _ => Some l
  | a :: p', b :: l' => if Ascii.eqb a b then after_prefix p' l' else None
  | _ :: _, [] => None
  end.

(** [/^.+SEP.+$/]: the separator somewhere inside, at least one character
    on each side, and no line end anywhere. *)
Fixpoint separator_inside (sep l : list ascii) : bool :=
  match l with
  | [] => false
  | _ :: l' =>
      match after_prefix sep l' with
      | Some (_ :: _) => true
      | _ => false
      end || separator_inside sep l'
  end.

Definition joined_by (sep : string) (l : list ascii) : bool :=
  negb (existsb is_line_end l) && separator_inside (list_ascii_of_string sep) l.

(** [/^[a-zA-Z][a-zA-Z0-9]*$/] *)
Definition element_pattern (l : list ascii) : bool :=
  match l with
  | c :: l' => is_alpha c && forallb is_alnum l'
  | [] => false
  end.

(** [/^\.[a-zA-Z_-][a-zA-Z0-9_-]*$/] and [/^#[a-zA-Z_-][a-zA-Z0-9_-]*$/] *)
Definition name_pattern (mark : ascii) (l : list ascii) : bool :=
  match l with
  | m :: c :: l' => Ascii.eqb m mark && is_name_start c && forallb is_name_char l'
  | _ => false
  end.

(** [/^\*$/] *)
Definition universal_pattern (l : list ascii) : bool :=
  match l with
  | [c] => Ascii.eqb c "*"%char
  | _ => false
  end.

(** [/^:[a-zA-Z-]+(?:\([^)]*\))?$/] *)
Definition pseudo_class_pattern (l : list ascii) : bool :=
  match l with
  | m :: c :: l' =>
      Ascii.eqb m ":"%char && is_pseudo_char c &&
      match skip_while is_pseudo_char l' with
      | [] => true
      | open :: body =>
          Ascii.eqb open "("%char &&
          match skip_while (fun x => negb (Ascii.eqb x ")"%char)) body with
          | [close] => Ascii.eqb close ")"%char
          | _ => false
          end
      end
  | _ => false
  end.

(** [/^::[a-zA-Z-]+$/] *)
Definition pseudo_element_pattern (l : list ascii) : bool :=
  match l with
  | m1 :: m2 :: c :: l' =>
      Ascii.eqb m1 ":"%char && Ascii.eqb m2 ":"%char && is_pseudo_char c
      && forallb is_pseudo_char l'
  | _ => false
  end.

(** [/^\[[^\]]+\]$/] *)
Definition attribute_pattern (l : list ascii) : bool :=
  match l with
  | open :: c :: l' =>
      Ascii.eqb open "["%char && negb (Ascii.eqb c "]"%char) &&
      match skip_while (fun x => negb (Ascii.eqb x "]"%char)) l' with
      | [close] => Ascii.eqb close "]"%char
      | _ => false
      end
  | _ => false
  end.

(** [selectorPatterns], in the order of the literal. *)
Definition selectorPatterns : list (string * (list ascii -> bool)) :=
  [ ("element", element_pattern);
    ("class", name_pattern "."%char);
    ("id", name_pattern "#"%char);
    ("universal", universal_pattern);
    ("pseudo-class", pseudo_class_pattern);
    ("pseudo-element", pseudo_element_pattern);
    ("attribute", attribute_pattern);
    ("descendant", joined_by " ");
    ("child", joined_by " > ");
    ("adjacent-sibling", joined_by " + ");
    ("general-sibling", joined_by " ~ ") ].

(** The type of the first pattern that the trimmed selector passes. *)
Fixpoint first_pattern (patterns : list (string * (list ascii -> bool)))
    (trimmed : list ascii) : option string :=
  match patterns with
  | [] => None
  | (type, pattern) :: patterns' =>
      if pattern trimmed then Some type else first_pattern patterns' trimmed
  end.

Definition findSimilarSelectors (selector : string) : list string :=
  let common := [".class"; "#id"; "element"; ":hover"; ":focus"; "::before"; "::after"] in
  firstn 3 (filter (fun s => negb (String.eqb s selector)) common).

(** The inner loop over one group of selectors: the description of the
    first selector whose name is the type or whose syntax is the
    selector. *)
Fixpoint described_in (selectors : value) (names : list string) (type selector : string)
  : outcome (option value) :=
  match names with
  | [] => Ok None
  | selectorName :: names' =>
      obind (get selectors selectorName) (fun entry =>
      obind (get entry "name") (fun name =>
      obind (if strict_eq_str name type then Ok true
             else obind (get selectors selectorName) (fun entry =>
                  obind (get entry "syntax") (fun syntax =>
                  Ok (strict_eq_str syntax selector)))) (fun hit =>
      if hit
      then obind (get selectors selectorName) (fun entry =>
           obind (get entry "description") (fun description => Ok (Some description)))
      else described_in selectors names' type selector)))
  end.

(** The outer loop: every group is visited, a later hit replaces an
    earlier one. *)
Fixpoint described (groups : value) (categories : list string) (type selector : string)
    (found : value * value) : outcome (value * value) :=
  match categories with
  | [] => Ok found
  | category :: categories' =>
      obind (get groups category) (fun selectors =>
      obind (Object_keys selectors) (fun names =>
      obind (described_in selectors names type selector) (fun hit =>
      described groups categories' type selector
        match hit with
        | Some description => (VStr category, description)
        | None => found
        end)))
  end.

Record selector_result : Type := mkSelectorResult
  { s_valid : bool;
    s_selector : string;
    s_type : value;
    s_category : value;
    s_description : value;
    s_suggestions : list string }.

Definition validateSelector (data : value) (selector : string)
  : outcome selector_result :=
  match first_pattern selectorPatterns (trim (list_ascii_of_string selector)) with
  | Some type =>
      obind (get data "categories") (fun categories =>
      obind (get categories "selectors") (fun groups =>
      obind (Object_keys groups) (fun names =>
      obind (described groups names type selector (VNull, VNull)) (fun found =>
      Ok (mkSelectorResult true selector (VStr type) (fst found) (snd found) [])))))
  | None =>
      Ok (mkSelectorResult false selector VNull VNull VNull
            (findSimilarSelectors selector))
  end.

End CSSValidator.

(* ================================================================== *)
(** * Javascript/src/JavaScriptValidator.js (class JavaScriptValidator) *)
(* ================================================================== *)

Module JSValidator.
Import JS.

(** A quotient of two lengths, kept exact. *)
Record ratio : Type := mkRatio
  { num : Z;
    den : Z }.

(** [r > p / q] for a positive denominator. *)
Definition exceeds (r : ratio) (p q : Z) : bool := (p * den r <? q * num r)%Z.

(** The number of positions, below the shorter length, where the two
    strings agree. *)
Fixpoint matches (str1 str2 : string) : nat :=
  match str1, str2 with
  | String a s1, String b s2 => (if Ascii.eqb a b then 1 else 0) + matches s1 s2
  | _, _ => 0
  end.

Definition calculateSimilarity (str1 str2 : string) : ratio :=
  let maxLength := Nat.max (String.length str1) (String.length str2) in
  if maxLength =? 0 then mkRatio 1 1
  else mkRatio (Z.of_nat (matches str1 str2)) (Z.of_nat maxLength).

(** [names.filter(similar to the query, above 0.5).slice(0, 3)] *)
Definition similar_names (query : string) (names : list string) : list string :=
  firstn 3
    (filter (fun name =>
         exceeds (calculateSimilarity (toLowerCase query) (toLowerCase name)) 1 2)
       names).

Definition findSimilarObjects (data : value) (objectName : string)
  : outcome (list string) :=
  if negb (truthy data) then Ok []
  else obind (get data "objects") (fun collection =>
       obind (Object_keys collection) (fun objects =>
       Ok (similar_names objectName objects))).

Definition findSimilarMethods (object : value) (methodName : string)
  : outcome (list string) :=
  obind (get object "methods") (fun methods =>
  obind (Object_keys methods) (fun instanceNames =>
  obind (get object "staticMethods") (fun staticMethods =>
  obind (Object_keys staticMethods) (fun staticNames =>
  Ok (similar_names methodName (instanceNames ++ staticNames)))))).

Definition findSimilarKeywords (data : value) (keyword : string)
  : outcome (list string) :=
  if negb (truthy data) then Ok []
  else obind (get data "keywords") (fun collection =>
       obind (Object_keys collection) (fun keywords =>
       Ok (similar_names keyword keywords))).

Definition not_initialized : exn :=
  Error "Validator not initialized. Call initialize() first.".

(** The object literal [{ exists, object, suggestion }]; [suggestion] is
    [null] when the object exists. *)
Record object_result : Type := mkObjectResult
  { o_exists : bool;
    o_object : value;
    o_suggestion : option (list string) }.

(** [data] is the field [this.data], [null] until [initialize] has run. *)
Definition validateObject (data : value) (objectName : string)
  : outcome object_result :=
  if negb (truthy data) then Throw not_initialized
  else
    obind (get data "objects") (fun collection =>
    obind (get collection objectName) (fun object =>
    obind (if truthy object then Ok None
           else obind (findSimilarObjects data objectName) (fun l => Ok (Some l)))
      (fun suggestion =>
    Ok (mkObjectResult (truthy object) (or_else object VNull) suggestion)))).

(** What [validateMethod] returns: the literal with the [error] field when
    the object is unknown, the literal with [method] and [isStatic]
    otherwise. *)
Inductive method_result : Type :=
| ObjectNotFound (error : string) (suggestion : list string)
| MethodResult (exists_ : bool) (method : value) (isStatic : bool)
    (suggestion : option (list string)).

Definition m_exists (r : method_result) : bool :=
  match r with
  | ObjectNotFound _ _ => false
  | MethodResult e _ _ _ => e
  end.

(** [object.methods[methodName] || object.staticMethods[methodName]] *)
Definition lookup_method (object : value) (methodName : string) : outcome value :=
  obind (get object "methods") (fun methods =>
  obind (get methods methodName) (fun instance =>
  if truthy instance then Ok instance
  else obind (get object "staticMethods") (fun staticMethods =>
       get staticMethods methodName))).

Definition validateMethod (data : value) (objectName methodName : string)
  : outcome method_result :=
  if negb (truthy data) then Throw not_initialized
  else
    obind (get data "objects") (fun collection =>
    obind (get collection objectName) (fun object =>
    if negb (truthy object)
    then obind (findSimilarObjects data objectName) (fun suggestion =>
         Ok (ObjectNotFound ("Object '" +++ objectName +++ "' not found") suggestion))
    else
      obind (lookup_method object methodName) (fun method =>
      obind (get object "staticMethods") (fun staticMethods =>
      obind (get staticMethods methodName) (fun static =>
      obind (if truthy method then Ok None
             else obind (findSimilarMethods object methodName) (fun l => Ok (Some l)))
        (fun suggestion =>
      Ok (MethodResult (truthy method) (or_else method VNull) (truthy static)
            suggestion))))))).

Record keyword_result : Type := mkKeywordResult
  { k_exists : bool;
    k_keyword : value;
    k_suggestion : option (list string) }.

Definition validateKeyword (data : value) (keyword : string)
  : outcome keyword_result :=
  if negb (truthy data) then Throw not_initialized
  else
    obind (get data "keywords") (fun collection =>
    obind (get collection keyword) (fun keywordData =>
    obind (if truthy keywordData then Ok None
           else obind (findSimilarKeywords data keyword) (fun l => Ok (Some l)))
      (fun suggestion =>
    Ok (mkKeywordResult (truthy keywordData) (or_else keywordData VNull) suggestion)))).

Definition getStats (data : value) : outcome value :=
  if negb (truthy data) then Throw not_initialized
  else get data "metadata".

End JSValidator.

(* ================================================================== *)
(** * HTML/src/HTMLValidator.js (class HTMLValidator) *)
(* ================================================================== *)

Module HTMLValidator.
Import JS JSArray.

(** ** [Map] *)

(** Keys are compared as [Map] does.  Two objects or arrays of a parsed
    document are never the same reference, so such keys never match. *)
Definition same_key (a b : value) : bool :=
  match a, b with
  | VUndef, VUndef => true
  | VNull, VNull => true
  | VBool x, VBool y => Bool.eqb x y
  | VNum x, VNum y => (x =? y)%Z
  | VStr x, VStr y => String.eqb x y
  | _, _ => false
  end.

Fixpoint Map_get {V : Type} (m : list (value * V)) (k : value) : option V :=
  match m with
  | [] => None
  | (k', v) :: m' => if same_key k' k then Some v else Map_get m' k
  end.

Definition Map_has {V : Type} (m : list (value * V)) (k : value) : bool :=
  match Map_get m k with
  | Some _ => true
  | None => false
  end.

(** [m.set(k, v)]: an existing key keeps its place. *)
Fixpoint Map_set {V : Type} (m : list (value * V)) (k : value) (v : V)
  : list (value * V) :=
  match m with
  | [] => [(k, v)]
  | (k', v') :: m' =>
      if same_key k' k then (k', v) :: m' else (k', v') :: Map_set m' k v
  end.

Definition Map_keys {V : Type} (m : list (value * V)) : list value := map fst m.

(** ** The class *)

Record validator : Type := mkValidator
  { htmlData : value;
    elements : list (value * value);
    attributes : list (value * list value) }.

(** The receiver of [forEach], [some] and [find] has to be an array:
    nothing else in a parsed document has these methods. *)
Definition array_items (v : value) : outcome (list value) :=
  match v with
  | VArr items => Ok items
  | _ => Throw TypeError
  end.

Fixpoint forEach {A S : Type} (f : S -> A -> outcome S) (s : S) (l : list A) : outcome S :=
  match l with
  | [] => Ok s
  | x :: l' => obind (f s x) (fun s' => forEach f s' l')
  end.

Definition _initializeData (this : validator) : outcome validator :=
  obind (if truthy (htmlData this) then get (htmlData this) "elements"
         else Ok (htmlData this)) (fun guard =>
  if truthy guard then
    obind (get (htmlData this) "elements") (fun list =>
    obind (array_items list) (fun items =>
    forEach (fun this element =>
        obind (get element "name") (fun name =>
        let this := mkValidator (htmlData this) (Map_set (elements this) name element)
                      (attributes this) in
        obind (get element "attributes") (fun attrs =>
        if truthy attrs then
          obind (array_items attrs) (fun attrItems =>
          forEach (fun this attr =>
              obind (get attr "name") (fun attrName =>
              (* has / set / get / push: the list kept under the name, created
                 empty when the name is new, receives the element's name *)
              let users :=
                if negb (Map_has (attributes this) attrName) then []
                else match Map_get (attributes this) attrName with
                     | Some l => l
                     | None => []
                     end in
              obind (get element "name") (fun elementName =>
              Ok (mkValidator (htmlData this) (elements this)
                    (Map_set (attributes this) attrName (users ++ [elementName]))))))
            this attrItems)
        else Ok this)))
      this items))
  else Ok this).

(** [new HTMLValidator(htmlData)] *)
Definition new (htmlData : value) : outcome validator :=
  _initializeData (mkValidator htmlData [] []).

Definition _levenshteinDistance (str1 str2 : string) : outcome cell :=
  let matrix : matrix := [] in
  obind (for_loop 0 (S (String.length str2))
           (fun i matrix => Ok (arr_set matrix i (Some [Some i]))) matrix)
    (fun matrix =>
  obind (for_loop 0 (S (String.length str1))
           (fun j matrix => mat_set matrix 0 j (Some j)) matrix)
    (fun matrix =>
  obind (for_loop 1 (String.length str2)
           (fun i matrix =>
              for_loop 1 (String.length str1)
                (fun j matrix =>
                   if same_char str2 (i - 1) str1 (j - 1)
                   then obind (mat_get matrix (i - 1) (j - 1)) (fun d =>
                        mat_set matrix i j d)
                   else obind (mat_get matrix (i - 1) (j - 1)) (fun d =>
                        obind (mat_get matrix i (j - 1)) (fun l =>
                        obind (mat_get matrix (i - 1) j) (fun u =>
                        mat_set matrix i j
                          (min3 (succ_cell d) (succ_cell l) (succ_cell u))))))
                matrix)
           matrix)
    (fun matrix =>
  mat_get matrix (String.length str2) (String.length str1)))).

(** A quotient of a difference of lengths by a length; [None] when the
    distance is not a number. *)
Record ratio : Type := mkRatio
  { num : Z;
    den : Z }.

(** [r > p / q] for a positive denominator; nothing compares with [NaN]. *)
Definition exceeds (r : option ratio) (p q : Z) : bool :=
  match r with
  | Some r => (p * den r <? q * num r)%Z
  | None => false
  end.

Definition _calculateSimilarity (str1 str2 : string) : outcome (option ratio) :=
  let longer := if String.length str2 <? String.length str1 then str1 else str2 in
  let shorter := if String.length str2 <? String.length str1 then str2 else str1 in
  if String.length longer =? 0 then Ok (Some (mkRatio 1 1))
  else
    obind (_levenshteinDistance longer shorter) (fun editDistance =>
    Ok (match editDistance with
        | Some d =>
            Some (mkRatio (Z.of_nat (String.length longer) - Z.of_nat d)
                    (Z.of_nat (String.length longer)))
        | None => None
        end)).

(** The loop shared by the two suggestion methods: the names, in order,
    whose similarity to the query is above 0.6.  A name that is
    [undefined] or [null] has no [length]; other names that are not
    strings are not followed. *)
Fixpoint similar_names (query : string) (names : list value) : outcome (list string) :=
  match names with
  | [] => Ok []
  | name :: names' =>
      obind (match name with
             | VStr s => obind (_calculateSimilarity query s) (fun r =>
                         Ok (if exceeds r 3 5 then [s] else []))
             | VUndef | VNull => Throw TypeError
             | _ => Unmodelled
             end) (fun here =>
      obind (similar_names query names') (fun rest => Ok (here ++ rest)))
  end.

Definition _getSuggestions (this : validator) (elementName : string)
  : outcome (list string) :=
  let elementNames := Map_keys (elements this) in
  obind (similar_names elementName elementNames) (fun suggestions =>
  Ok (firstn 5 suggestions)).




Record element_result : Type := mkElementResult
  { isValid : bool;
    element : value;
    suggestions : list string }.

Definition validateElement (this : validator) (elementName : string)
  : outcome element_result :=
  let normalizedName := toLowerCase elementName in
  let element := match Map_get (elements this) (VStr normalizedName) with
                 | Some e => e
                 | None => VUndef
                 end in
  obind (if truthy element then Ok [] else _getSuggestions this normalizedName)
    (fun suggestions =>
  Ok (mkElementResult (truthy element) (or_else element VNull) suggestions)).




End HTMLValidator.

(* ================================================================== *)
(** * The classic edit distance *)
(* ================================================================== *)

Module EditDistance.

(** The distance as it is usually defined: the least number of
    single-character insertions, deletions and substitutions that turn one
    string into the other.  [edit s t n]: there is a way of rewriting [s]
    into [t], left to right, that uses [n] of these operations. *)
Inductive edit : list ascii -> list ascii -> nat -> Prop :=
| edit_done : edit [] [] 0
| edit_keep a s t n : edit s t n -> edit (a :: s) (a :: t) n
| edit_substitute a b s t n : edit s t n -> edit (a :: s) (b :: t) (S n)
| edit_delete a s t n : edit s t n -> edit (a :: s) t (S n)
| edit_insert b s t n : edit s t n -> edit s (b :: t) (S n).

Definition edit_distance (s t : list ascii) (n : nat) : Prop :=
  edit s t n /\ forall m, edit s t m -> n <= m.

(** The recurrence of the textbooks, which computes it. *)
Fixpoint dist (s t : list ascii) {struct s} : nat :=
  match s with
  | [] => List.length t
  | a :: s' =>
      (fix dist_row (t : list ascii) : nat :=
         match t with
         | [] => List.length s
         | b :: t' =>
             Nat.min (dist s' t' + (if Ascii.eqb a b then 0 else 1))
               (Nat.min (S (dist s' t)) (S (dist_row t')))
         end) t
  end.

End EditDistance.

(* ================================================================== *)
(** * What the matrix of the Levenshtein routines holds *)
(* ================================================================== *)

Module Matrix.
Import JS JSArray EditDistance.

Section Cells.

Variables str1 str2 : string.

(** The distance between the first [i] characters of [str2] and the first
    [j] of [str1]: what cell [(i, j)] is meant to hold. *)
Definition D (i j : nat) : nat :=
  dist (firstn i (list_ascii_of_string str2)) (firstn j (list_ascii_of_string str1)).

Definition full_row (i : nat) : row :=
  map (fun j => Some (D i j)) (seq 0 (S (String.length str1))).

Definition part_row (i j : nat) : row := map (fun j' => Some (D i j')) (seq 0 j).

Definition init_row (k : nat) : row := [Some k].

(** The matrix while row 0 is being numbered and holds [j] cells. *)
Definition numbering (j : nat) : matrix :=
  map (fun k => Some (if k =? 0 then map Some (seq 0 j) else init_row k))
    (seq 0 (S (String.length str2))).

(** The matrix while row [i] is being filled and holds [j] cells. *)
Definition filling (i j : nat) : matrix :=
  map (fun k => Some (if k <? i then full_row k
                      else if k =? i then part_row i j else init_row k))
    (seq 0 (S (String.length str2))).

(** The matrix between two rounds of the outer loop. *)
Definition filled (i : nat) : matrix :=
  map (fun k => Some (if k <? i then full_row k else init_row k))
    (seq 0 (S (String.length str2))).

(** The body of the inner loop. *)
Definition inner_body (i j : nat) (matrix : JSArray.matrix) : outcome JSArray.matrix :=
  if same_char str2 (i - 1) str1 (j - 1)
  then obind (mat_get matrix (i - 1) (j - 1)) (fun d => mat_set matrix i j d)
  else obind (mat_get matrix (i - 1) (j - 1)) (fun d =>
       obind (mat_get matrix i (j - 1)) (fun l =>
       obind (mat_get matrix (i - 1) j) (fun u =>
       mat_set matrix i j (min3 (succ_cell d) (succ_cell l) (succ_cell u))))).

End Cells.

End Matrix.

(* ================================================================== *)
(** * Vocabulary of the properties *)
(* ================================================================== *)

Module HTMLIndex.
Import JS HTMLValidator.




End HTMLIndex.

Module Suggestions.
Import JS.

(** Whether a known name scores above 0.5 against the query, the way the
    JavaScript validator scores. *)
Definition js_qualifies (query name : string) : bool :=
  JSValidator.exceeds
    (JSValidator.calculateSimilarity (toLowerCase query) (toLowerCase name)) 1 2.

(** Whether a known name scores above 0.6 against the query, the way the
    HTML validator scores. *)
Definition html_qualifies (query name : string) : bool :=
  match HTMLValidator._calculateSimilarity query name with
  | Ok r => HTMLValidator.exceeds r 3 5
  | _ => false
  end.

Definition by_distance (a b : CSSValidator.candidate) : Prop :=
  CSSValidator.distance a <= CSSValidator.distance b.

(** [l] is the first [n] items of [all], or all of them when there are
    fewer. *)
Definition first_of {A : Type} (n : nat) (all l : list A) : Prop :=
  List.length l <= n /\
  exists rest, all = l ++ rest /\ (rest <> [] -> List.length l = n).

End Suggestions.

Module Growth.
Import JS Run.

(** From [st] to [st'] the document is the same and the error list has
    grown by [added]. *)
Definition grows (st st' : validator) (added : list string) : Prop :=
  data st' = data st /\ errors st' = errors st ++ added.

(** A check whose added errors all fail the test [p]. *)
Definition quiet {A : Type} (p : string -> bool) (m : M A) : Prop :=
  forall st a st', m st = (Ok a, st') ->
    exists added, grows st st' added /\ filter p added = [].

End Growth.

Module Totals.
Import JS.

(** The children of an entry under [field]: none when the field is absent
    or holds nothing. *)
Definition children (entry : value) (field : string) : list (string * value) :=
  match get entry field with
  | Ok v => own_entries v
  | _ => []
  end.

(** The sum, over the entries, of the number of children plus the number
    of static children. *)
Definition method_total (entries : list value) : nat :=
  list_sum (map (fun entry => List.length (children entry "methods")
                              + List.length (children entry "staticMethods")) entries).


End Totals.

Module Consistency.
Import JS Totals.

Definition child_names (entry : value) (field : string) : list string :=
  map fst (children entry field).




(** The names already met, while a list is walked from [seen] on. *)
Fixpoint met_before (seen l : list string) : list string :=
  match l with
  | [] => []
  | x :: l' =>
      if mem x seen then x :: met_before (seen ++ [x]) l'
      else met_before (seen ++ [x]) l'
  end.


End Consistency.

Module Scenario.
Import JS.

(** A loaded dataset whose object [Array] has the children [methods] and
    the static children [statics]. *)
Definition holds_array (data : value) (methods statics : list (string * value)) : Prop :=
  truthy data = true /\
  exists collection array,
    get data "objects" = Ok collection /\
    get collection "Array" = Ok array /\
    truthy array = true /\
    get array "methods" = Ok (VObj methods) /\
    get array "staticMethods" = Ok (VObj statics).

Definition has_child (children : list (string * value)) (name : string) : Prop :=
  exists record, assoc name children = Some record /\ truthy record = true.

(** The names a mistyped method is compared with: the children, then the
    static children. *)
Definition known_children (methods statics : list (string * value)) : list string :=
  map fst methods ++ map fst statics.

End Scenario.

(* ================================================================== *)
(** * Sample datasets *)
(* ================================================================== *)

Module Examples.
Import JS.

Definition method_record (name : string) : value :=
  VObj [("name", VStr name); ("description", VStr "A method of the object")].

Definition static_record (name : string) : value :=
  VObj [("name", VStr name); ("description", VStr "A static method of the object");
        ("static", VBool true)].

Definition array_with (methods statics : list (string * value)) : value :=
  VObj [("name", VStr "Array"); ("description", VStr "The Array object");
        ("methods", VObj methods);
        ("staticMethods", VObj statics);
        ("properties", VObj [])].

(** A JavaScript dataset with one category, which lists [members], and
    the given objects; the metadata claims [total] methods. *)
Definition js_with (members objects : list (string * value)) (total : Z) : value :=
  VObj [("categories",
         VObj [("Core", VObj [("name", VStr "Core"); ("subcategories", VObj []);
                              ("objects", VObj members); ("keywords", VObj [])])]);
        ("objects", VObj objects);
        ("keywords", VObj []);
        ("metadata", VObj [("version", VStr "1.0.0"); ("lastUpdated", VStr "2024-01-01");
                           ("totalCategories", VNum 1);
                           ("totalObjects", VNum (Z.of_nat (List.length objects)));
                           ("totalKeywords", VNum 0); ("totalMethods", VNum total)])].

(** [Array] with [map] and [isArray] only. *)
Definition js_scenario : value :=
  js_with [("Array", VObj [])]
    [("Array", array_with [("map", method_record "map")]
                 [("isArray", static_record "isArray")])] 2.

(** The same with [flat] and [flatMap] among the children. *)
Definition js_scenario_flat : value :=
  js_with [("Array", VObj [])]
    [("Array", array_with [("map", method_record "map"); ("flat", method_record "flat");
                           ("flatMap", method_record "flatMap")]
                 [("isArray", static_record "isArray")])] 4.



(** The category lists an object the collection does not hold. *)
Definition js_dangling (name : string) : value :=
  js_with [(name, VObj [])] [] 0.

(** Two objects whose names resemble [Arrai], the closer one second. *)
Definition js_two_objects : value :=
  js_with []
    [("Xrray", array_with [] []); ("Array", array_with [] [])] 0.

(** Which strings the sample host takes for dates: all of them. *)
Definition every_date_parses (s : string) : bool := false.

Definition css_record (name : string) : value :=
  VObj [("name", VStr name); ("syntax", VStr "auto")].

(** A CSS dataset with one group of properties, [layout]. *)
Definition css_with_group (group : value) : value :=
  VObj [("metadata", VObj [("version", VStr "1.0.0")]);
        ("categories",
         VObj [("properties", VObj [("layout", group)]);
               ("types", VObj []); ("selectors", VObj []);
               ("functions", VObj []); ("atRules", VObj [])]);
        ("statistics",
         VObj [("totalProperties", VNum 1); ("totalTypes", VNum 0);
               ("totalSelectors", VNum 0); ("totalFunctions", VNum 0);
               ("totalAtRules", VNum 0)])].

(** The same with two properties at the same distance from [zc]. *)
Definition css_two_properties : value :=
  css_with_group (VObj [("zb", css_record "zb"); ("za", css_record "za")]).

(** An HTML dataset whose one element is stored as [name]. *)
Definition html_element (name : string) : value :=
  VObj [("name", VStr name); ("category", VStr "Sections");
        ("attributes", VArr [VObj [("name", VStr "align")]])].

Definition html_with (name : string) : value :=
  VObj [("elements", VArr [html_element name])].



End Examples.

(* ================================================================== *)
(** * JavaScriptValidator: syntax check, information and search *)
(* ================================================================== *)

Module JSQueries.
Import JS JSValidator.

(** ** [validateSyntax] *)

(** [\s] and the classes of an identifier. *)
Definition is_white (c : ascii) : bool := CSSValidator.is_space c.

Definition is_ident_start (c : ascii) : bool :=
  CSSValidator.is_alpha c || Ascii.eqb c "_"%char || Ascii.eqb c "$"%char.

(** One of the keywords, then what has to follow it. *)
Definition keyword_then (keywords : list string) (tail : list ascii -> bool)
    (l : list ascii) : bool :=
  existsb (fun keyword =>
      match CSSValidator.after_prefix (list_ascii_of_string keyword) l with
      | Some rest => tail rest
      | None => false
      end)
    keywords.

(** [(?:^|\s)] followed by [p], anywhere in the text: [p] at the very
    start, or right after a white character. *)
Fixpoint after_white (p : list ascii -> bool) (l : list ascii) : bool :=
  match l with
  | [] => false
  | c :: l' => (is_white c && p l') || after_white p l'
  end.

Definition found (p : list ascii -> bool) (l : list ascii) : bool :=
  p l || after_white p l.

(** [\s+] and the first character of a name, [[a-zA-Z_$]] *)
Definition white_then_name (l : list ascii) : bool :=
  match l with
  | c :: l' =>
      is_white c &&
      match CSSValidator.skip_while is_white l' with
      | d :: _ => is_ident_start d
      | [] => false
      end
  | [] => false
  end.

(** [\s*\(] *)
Definition paren_next (l : list ascii) : bool :=
  match CSSValidator.skip_while is_white l with
  | c :: _ => Ascii.eqb c "("%char
  | [] => false
  end.

(** [\s] *)
Definition white_next (l : list ascii) : bool :=
  match l with
  | c :: _ => is_white c
  | [] => false
  end.

(** [syntaxChecks]: whether [code.match(pattern)] finds anything, and the
    feature it stands for. *)
Definition syntaxChecks : list ((list ascii -> bool) * string) :=
  [ (found (keyword_then ["const"; "let"; "var"] white_then_name),
     "variable declaration");
    (found (keyword_then ["function"] white_then_name), "function declaration");
    (found (keyword_then ["class"] white_then_name), "class declaration");
    (found (keyword_then ["if"; "for"; "while"; "switch"; "try"; "catch"; "finally"]
              paren_next),
     "control structure");
    (found (keyword_then ["import"; "export"] white_next), "module syntax");
    (found (keyword_then ["async"; "await"] white_next), "async/await") ].

(** [brackets[char]] and [Object.values(brackets).includes(char)] *)
Definition closing_of (char : ascii) : option ascii :=
  if Ascii.eqb char "("%char then Some ")"%char
  else if Ascii.eqb char "["%char then Some "]"%char
  else if Ascii.eqb char "{"%char then Some "}"%char
  else None.

Definition is_closing (char : ascii) : bool :=
  Ascii.eqb char ")"%char || Ascii.eqb char "]"%char || Ascii.eqb char "}"%char.

Record syntax_result : Type := mkSyntaxResult
  { sx_valid : bool;
    sx_errors : list string;
    sx_warnings : list string;
    sx_usedFeatures : list string }.

(** The loop over the characters, from position [i] on.  [stack] holds
    the closing brackets that are awaited, the last one pushed first. *)
Fixpoint scan (i : nat) (code : list ascii) (stack : list ascii) (valid : bool)
    (errors : list string) : list ascii * bool * list string :=
  match code with
  | [] => (stack, valid, errors)
  | char :: code' =>
      match closing_of char with
      | Some close => scan (S i) code' (close :: stack) valid errors
      | None =>
          if is_closing char then
            match stack with
            | [] =>
                scan (S i) code' [] false
                  (errors ++ ["Mismatched bracket at position " +++ string_of_nat i])
            | top :: stack' =>
                if Ascii.eqb top char then scan (S i) code' stack' valid errors
                else scan (S i) code' stack' false
                       (errors ++ ["Mismatched bracket at position " +++ string_of_nat i])
            end
          else scan (S i) code' stack valid errors
      end
  end.

(** Nothing in the [try] block throws on a string, so the [catch] is never
    entered. *)
Definition validateSyntax (code : string) : syntax_result :=
  let text := list_ascii_of_string code in
  let usedFeatures :=
    map snd (filter (fun check => fst check text) syntaxChecks) in
  match scan 0 text [] true [] with
  | (stack, valid, errors) =>
      if 0 <? List.length stack
      then mkSyntaxResult false
             (errors ++ ["Unclosed brackets: "
                         +++ join ", " (map (fun c => String c EmptyString) (rev stack))])
             [] usedFeatures
      else mkSyntaxResult valid errors [] usedFeatures
  end.

(** ** [getObjectInfo], [getMethodInfo], [getCategories] *)

Definition keys_count (v : value) : outcome value :=
  obind (Object_keys v) (fun ks => Ok (VNum (Z.of_nat (List.length ks)))).

Definition values_array (v : value) : outcome value :=
  obind (Object_values v) (fun vs => Ok (VArr vs)).

Definition keys_array (v : value) : outcome value :=
  obind (Object_keys v) (fun ks => Ok (VArr (map VStr ks))).

(** The object literal that is returned, field by field, or [null]. *)
Definition getObjectInfo (data : value) (objectName : string) : outcome value :=
  if negb (truthy data) then Throw not_initialized
  else
    obind (get data "objects") (fun collection =>
    obind (get collection objectName) (fun object =>
    if negb (truthy object) then Ok VNull
    else
      obind (get object "name") (fun name =>
      obind (get object "description") (fun description =>
      obind (get object "category") (fun category =>
      obind (get object "subcategory") (fun subcategory =>
      obind (obind (get object "methods") keys_count) (fun methodCount =>
      obind (obind (get object "staticMethods") keys_count) (fun staticMethodCount =>
      obind (obind (get object "properties") keys_count) (fun propertyCount =>
      obind (obind (get object "methods") values_array) (fun methods =>
      obind (obind (get object "staticMethods") values_array) (fun staticMethods =>
      obind (obind (get object "properties") values_array) (fun properties =>
      Ok (VObj [("name", name); ("description", description); ("category", category);
                ("subcategory", subcategory); ("methodCount", methodCount);
                ("staticMethodCount", staticMethodCount);
                ("propertyCount", propertyCount); ("methods", methods);
                ("staticMethods", staticMethods); ("properties", properties)]))))))))))))).

Definition getMethodInfo (data : value) (objectName methodName : string)
  : outcome value :=
  if negb (truthy data) then Throw not_initialized
  else
    obind (get data "objects") (fun collection =>
    obind (get collection objectName) (fun object =>
    if negb (truthy object) then Ok VNull
    else
      obind (lookup_method object methodName) (fun method =>
      if negb (truthy method) then Ok VNull
      else
        obind (get method "name") (fun name =>
        obind (get method "description") (fun description =>
        obind (get method "static") (fun static =>
        obind (get method "type") (fun type =>
        Ok (VObj [("name", name); ("description", description);
                  ("objectName", VStr objectName);
                  ("isStatic", or_else static (VBool false)); ("type", type)])))))))).

Definition getCategories (data : value) : outcome (list value) :=
  if negb (truthy data) then Throw not_initialized
  else
    obind (get data "categories") (fun categories =>
    obind (Object_values categories) (fun cats =>
    omap (fun category =>
        obind (get category "name") (fun name =>
        obind (obind (get category "objects") keys_count) (fun objectCount =>
        obind (obind (get category "keywords") keys_count) (fun keywordCount =>
        obind (obind (get category "subcategories") keys_count) (fun subcategoryCount =>
        obind (obind (get category "subcategories") keys_array) (fun subcategories =>
        Ok (VObj [("name", name); ("objectCount", objectCount);
                  ("keywordCount", keywordCount);
                  ("subcategoryCount", subcategoryCount);
                  ("subcategories", subcategories)])))))))
      cats)).

(** ** [search] *)

(** [v.toLowerCase()]: only a string has the method. *)
Definition lower_of (v : value) : outcome string :=
  match v with
  | VStr s => Ok (toLowerCase s)
  | _ => Throw TypeError
  end.

(** [x.name.toLowerCase().includes(term) ||
     x.description.toLowerCase().includes(term)] *)
Definition mentions (x : value) (searchTerm : string) : outcome bool :=
  obind (get x "name") (fun name =>
  obind (lower_of name) (fun lowered =>
  if includes lowered searchTerm then Ok true
  else obind (get x "description") (fun description =>
       obind (lower_of description) (fun lowered =>
       Ok (includes lowered searchTerm))))).

(** The items of [l] that mention the term, each turned into the literal
    that is pushed. *)
Fixpoint hits (l : list value) (searchTerm : string) (literal : value -> outcome value)
  : outcome (list value) :=
  match l with
  | [] => Ok []
  | x :: l' =>
      obind (mentions x searchTerm) (fun hit =>
      obind (if hit then obind (literal x) (fun v => Ok [v]) else Ok []) (fun here =>
      obind (hits l' searchTerm literal) (fun rest => Ok (here ++ rest))))
  end.

Record search_results : Type := mkSearchResults
  { r_objects : list value;
    r_methods : list value;
    r_keywords : list value;
    r_properties : list value }.

(** The loop over the objects: what one object adds to the three lists. *)
Fixpoint search_objects (objects : list value) (searchTerm : string)
  : outcome (list value * list value * list value) :=
  match objects with
  | [] => Ok ([], [], [])
  | object :: objects' =>
      obind (hits [object] searchTerm (fun object =>
               obind (get object "name") (fun name =>
               obind (get object "description") (fun description =>
               obind (get object "category") (fun category =>
               Ok (VObj [("name", name); ("description", description);
                         ("category", category)])))))) (fun os =>
      obind (obind (get object "methods") Object_values) (fun methods =>
      obind (obind (get object "staticMethods") Object_values) (fun staticMethods =>
      obind (hits (methods ++ staticMethods) searchTerm (fun method =>
               obind (get method "name") (fun name =>
               obind (get method "description") (fun description =>
               obind (get object "name") (fun objectName =>
               obind (get method "static") (fun static =>
               Ok (VObj [("name", name); ("description", description);
                         ("objectName", objectName);
                         ("isStatic", or_else static (VBool false))]))))))) (fun ms =>
      obind (obind (get object "properties") Object_values) (fun properties =>
      obind (hits properties searchTerm (fun property =>
               obind (get property "name") (fun name =>
               obind (get property "description") (fun description =>
               obind (get object "name") (fun objectName =>
               Ok (VObj [("name", name); ("description", description);
                         ("objectName", objectName)])))))) (fun ps =>
      obind (search_objects objects' searchTerm) (fun rest =>
      match rest with
      | (os', ms', ps') => Ok (os ++ os', ms ++ ms', ps ++ ps')
      end)))))))
  end.

Definition search (data : value) (query : string) : outcome search_results :=
  if negb (truthy data) then Throw not_initialized
  else
    let searchTerm := toLowerCase query in
    obind (obind (get data "objects") Object_values) (fun objects =>
    obind (search_objects objects searchTerm) (fun found =>
    obind (obind (get data "keywords") Object_values) (fun keywords =>
    obind (hits keywords searchTerm (fun keyword =>
             obind (get keyword "name") (fun name =>
             obind (get keyword "description") (fun description =>
             obind (get keyword "category") (fun category =>
             Ok (VObj [("name", name); ("description", description);
                       ("category", category)])))))) (fun ks =>
    match found with
    | (os, ms, ps) => Ok (mkSearchResults os ms ks ps)
    end)))).

End JSQueries.

(* ================================================================== *)
(** * HTMLValidator: information and content models *)
(* ================================================================== *)

Module HTMLQueries.
Import JS HTMLValidator.

(** [this.elements.get(name)], [undefined] when the name is not a key. *)
Definition elements_get (this : validator) (name : string) : value :=
  match Map_get (elements this) (VStr name) with
  | Some e => e
  | None => VUndef
  end.

Definition getElementInfo (this : validator) (elementName : string) : value :=
  let normalizedName := toLowerCase elementName in
  or_else (elements_get this normalizedName) VNull.











End HTMLQueries.

(* ================================================================== *)
(** * CSSValidator: rules and documents *)
(* ================================================================== *)

Module CSSRules.
Import JS CSSValidator.

(** ** The string methods the parser uses, on lists of characters *)

Definition text : Type := list ascii.

Definition to_string (l : text) : string := string_of_list_ascii l.

(** [s.split(c)] for a one-character separator: the pieces between the
    separators, of which there is always at least one. *)
Fixpoint split (c : ascii) (l : text) : list text :=
  match l with
  | [] => [[]]
  | x :: l' =>
      if Ascii.eqb x c then [] :: split c l'
      else match split c l' with
           | piece :: pieces => (x :: piece) :: pieces
           | [] => [[x]]
           end
  end.

(** [s.replace(c, '')]: the first occurrence goes. *)
Fixpoint remove_first (c : ascii) (l : text) : text :=
  match l with
  | [] => []
  | x :: l' => if Ascii.eqb x c then l' else x :: remove_first c l'
  end.

(** [s.indexOf(c)], as what stands before and after the first occurrence:
    [s.substring(0, index)] and [s.substring(index + 1)]. *)
Fixpoint cut (c : ascii) (l : text) : option (text * text) :=
  match l with
  | [] => None
  | x :: l' =>
      if Ascii.eqb x c then Some ([], l')
      else match cut c l' with
           | Some (before, after) => Some (x :: before, after)
           | None => None
           end
  end.

(** ** [extractCSSRules] *)

(** Whether a comment that has been opened is closed further on. *)
Fixpoint has_close (l : text) : bool :=
  match l with
  | [] => false
  | x :: l' =>
      match l' with
      | y :: _ => (Ascii.eqb x "*"%char && Ascii.eqb y "/"%char) || has_close l'
      | [] => false
      end
  end.

(** [cssContent.replace(/\/\*[\s\S]*?\*\//g, '')]: every comment goes,
    from its opening to the first closing after it; an opening that is
    never closed stays.  [inside] tells that a comment is being
    skipped. *)
Fixpoint strip_comments (inside : bool) (l : text) : text :=
  match l with
  | [] => []
  | x :: l' =>
      if inside then
        match l' with
        | y :: l'' =>
            if Ascii.eqb x "*"%char && Ascii.eqb y "/"%char
            then strip_comments false l''
            else strip_comments true l'
        | [] => []
        end
      else
        match l' with
        | y :: l'' =>
            if Ascii.eqb x "/"%char && Ascii.eqb y "*"%char && has_close l''
            then strip_comments true l''
            else x :: strip_comments false l'
        | [] => [x]
        end
  end.

(** The loop over the characters: the count of open braces, the rule
    being collected and the rules found so far. *)
Fixpoint collect (l : text) (braceCount : Z) (currentRule : text) (rules : list text)
  : list text :=
  match l with
  | [] => rules
  | char :: l' =>
      let currentRule := currentRule ++ [char] in
      if Ascii.eqb char "{"%char then collect l' (braceCount + 1) currentRule rules
      else if Ascii.eqb char "}"%char then
        let braceCount := (braceCount - 1)%Z in
        if (braceCount =? 0)%Z && negb (0 =? List.length (trim currentRule))
        then collect l' braceCount [] (rules ++ [trim currentRule])
        else collect l' braceCount currentRule rules
      else collect l' braceCount currentRule rules
  end.

Definition extractCSSRules (cssContent : text) : list text :=
  let cleaned := strip_comments false cssContent in
  filter (fun rule => 0 <? List.length rule) (collect cleaned 0 [] []).

(** ** [validateRule] *)

(** An entry of an [errors] list: a text of the validator's own, or
    [Parse error: ] followed by the message of the exception that was
    caught. *)
Inductive error_text : Type :=
| Text (s : string)
| ParseError (e : exn).

Record declaration_result : Type := mkDeclarationResult
  { d_property : string;
    d_value : string;
    d_propertyValid : bool;
    d_valueValid : bool;
    d_suggestions : list string }.

Record rule_result : Type := mkRuleResult
  { r_valid : bool;
    r_errors : list error_text;
    r_warnings : list string;
    r_selector : option selector_result;
    r_declarations : list declaration_result }.

(** The loop over the declarations, on the result it updates; what is
    thrown leaves the loop with the result as it stands. *)
Fixpoint each_declaration (data : value) (declarations : list text) (result : rule_result)
  : outcome unit * rule_result :=
  match declarations with
  | [] => (Ok tt, result)
  | declaration :: declarations' =>
      match cut ":"%char declaration with
      | None =>
          each_declaration data declarations'
            (mkRuleResult (r_valid result)
               (r_errors result
                ++ [Text ("Invalid declaration: " +++ to_string declaration)])
               (r_warnings result) (r_selector result) (r_declarations result))
      | Some (before, after) =>
          let property := to_string (trim before) in
          let value := to_string (trim after) in
          match validateProperty data property with
          | Ok propValidation =>
              let declResult :=
                mkDeclarationResult property value (p_valid propValidation) true
                  (p_suggestions propValidation) in
              each_declaration data declarations'
                (mkRuleResult (r_valid result) (r_errors result)
                   (if negb (p_valid propValidation)
                    then r_warnings result ++ ["Unknown property: " +++ property]
                    else r_warnings result)
                   (r_selector result) (r_declarations result ++ [declResult]))
          | Throw e => (Throw e, result)
          | Unmodelled => (Unmodelled, result)
          end
      end
  end.

(** The body of the [try] block, once the rule has its two parts. *)
Definition rule_body (data : value) (selectorPart declarationsPart : text)
    (result : rule_result) : outcome unit * rule_result :=
  match validateSelector data (to_string selectorPart) with
  | Ok selector =>
      let result :=
        mkRuleResult (r_valid result) (r_errors result)
          (if negb (s_valid selector)
           then r_warnings result ++ ["Unknown selector: " +++ to_string selectorPart]
           else r_warnings result)
          (Some selector) (r_declarations result) in
      if 0 <? List.length declarationsPart
      then each_declaration data
             (filter (fun d => 0 <? List.length (trim d)) (split ";"%char declarationsPart))
             result
      else (Ok tt, result)
  | Throw e => (Throw e, result)
  | Unmodelled => (Unmodelled, result)
  end.

Definition validateRule (data : value) (cssRule : text) : outcome rule_result :=
  let result := mkRuleResult true [] [] None [] in
  match split "{"%char (trim cssRule) with
  | [first; second] =>
      let selectorPart := trim first in
      let declarationsPart := trim (remove_first "}"%char second) in
      match rule_body data selectorPart declarationsPart result with
      | (Ok _, result) => Ok result
      | (Throw e, result) =>
          Ok (mkRuleResult false (r_errors result ++ [ParseError e]) (r_warnings result)
                (r_selector result) (r_declarations result))
      | (Unmodelled, _) => Unmodelled
      end
  | _ =>
      Ok (mkRuleResult false [Text "Invalid CSS rule format"] [] None [])
  end.

(** ** [validateCSS] *)

(** [set.add(x)] on a set of strings, kept in insertion order. *)
Definition set_add (x : string) (set : list string) : list string :=
  if mem x set then set else set ++ [x].

Record statistics : Type := mkStatistics
  { totalRules : nat;
    validRules : nat;
    totalProperties : nat;
    validProperties : nat;
    uniqueSelectors : list string;
    uniqueProperties : list string }.

Record css_result : Type := mkCssResult
  { c_valid : bool;
    c_errors : list error_text;
    c_warnings : list string;
    c_rules : list (nat * rule_result);
    c_totalRules : nat;
    c_validRules : nat;
    c_totalProperties : nat;
    c_validProperties : nat;
    c_uniqueSelectors : nat;
    c_uniqueProperties : nat }.

(** What one declaration of a rule adds to the statistics. *)
Definition count_declaration (stats : statistics) (decl : declaration_result) : statistics :=
  mkStatistics (totalRules stats) (validRules stats)
    (S (totalProperties stats))
    (if d_propertyValid decl then S (validProperties stats) else validProperties stats)
    (uniqueSelectors stats)
    (set_add (d_property decl) (uniqueProperties stats)).

(** What one rule adds to the statistics. *)
Definition count_rule (stats : statistics) (ruleResult : rule_result) : statistics :=
  let stats :=
    mkStatistics (S (totalRules stats))
      (if r_valid ruleResult && (List.length (r_errors ruleResult) =? 0)
       then S (validRules stats) else validRules stats)
      (totalProperties stats) (validProperties stats)
      (match r_selector ruleResult with
       | Some selector =>
           if truthy (VStr (s_selector selector))
           then set_add (s_selector selector) (uniqueSelectors stats)
           else uniqueSelectors stats
       | None => uniqueSelectors stats
       end)
      (uniqueProperties stats) in
  fold_left count_declaration (r_declarations ruleResult) stats.

(** The loop over the rules, from index [index] on. *)
Fixpoint each_rule (data : value) (rules : list text) (index : nat)
    (done : list (nat * rule_result)) (stats : statistics)
  : outcome (list (nat * rule_result) * statistics) :=
  match rules with
  | [] => Ok (done, stats)
  | rule :: rules' =>
      obind (validateRule data rule) (fun ruleResult =>
      each_rule data rules' (S index) (done ++ [(index, ruleResult)])
        (count_rule stats ruleResult))
  end.

(** Nothing in the [try] block throws: [validateRule] catches what its
    own block throws. *)
Definition validateCSS (data : value) (cssContent : text) : outcome css_result :=
  let rules := extractCSSRules cssContent in
  obind (each_rule data rules 0 [] (mkStatistics 0 0 0 0 [] [])) (fun '(done, stats) =>
  let errors := flat_map (fun r => r_errors (snd r)) done in
  let warnings := flat_map (fun r => r_warnings (snd r)) done in
  Ok (mkCssResult (List.length errors =? 0) errors warnings done
        (totalRules stats) (validRules stats) (totalProperties stats)
        (validProperties stats) (List.length (uniqueSelectors stats))
        (List.length (uniqueProperties stats)))).

End CSSRules.

(* ================================================================== *)
(** * More vocabulary of the properties *)
(* ================================================================== *)

Module Brackets.
Import JS JSQueries.

(** Texts whose brackets are properly nested: every opening bracket is
    closed by the bracket of its own kind, in the right order. *)
Inductive balanced : list ascii -> Prop :=
| balanced_nil : balanced []
| balanced_other c s :
    closing_of c = None -> is_closing c = false -> balanced s -> balanced (c :: s)
| balanced_pair opening close s t :
    closing_of opening = Some close -> balanced s -> balanced t ->
    balanced (opening :: s ++ close :: t).

(** A text that closes, in order, the brackets awaited by [stack], with
    properly nested text in between and after. *)
Fixpoint closes (stack : list ascii) (code : list ascii) : Prop :=
  match stack with
  | [] => balanced code
  | close :: stack' =>
      exists s t, code = s ++ close :: t /\ balanced s /\ closes stack' t
  end.

End Brackets.

Module Index.
Import JS JSArray HTMLValidator.

(** Whether an element of the dataset is stored under the name [s]. *)
Definition named (s : string) (e : value) : bool :=
  match get e "name" with
  | Ok n => strict_eq_str n s
  | _ => false
  end.

(** The last element of the dataset that is stored under [s]. *)
Definition last_named (s : string) (items : list value) : option value :=
  find (named s) (rev items).

(** No two entries of a map have the same key. *)
Fixpoint distinct_keys {V : Type} (m : list (value * V)) : Prop :=
  match m with
  | [] => True
  | (k, _) :: m' => (forall k' v', In (k', v') m' -> same_key k k' = false) /\ distinct_keys m'
  end.

(** What the loop of the constructor does to the two maps. *)
Definition index_step (this : validator) (element : value) : outcome validator :=
  obind (get element "name") (fun name =>
  let this := mkValidator (htmlData this) (Map_set (elements this) name element)
                (attributes this) in
  obind (get element "attributes") (fun attrs =>
  if truthy attrs then
    obind (array_items attrs) (fun attrItems =>
    forEach (fun this attr =>
        obind (get attr "name") (fun attrName =>
        let users :=
          if negb (Map_has (attributes this) attrName) then []
          else match Map_get (attributes this) attrName with
               | Some l => l
               | None => []
               end in
        obind (get element "name") (fun elementName =>
        Ok (mkValidator (htmlData this) (elements this)
              (Map_set (attributes this) attrName (users ++ [elementName]))))))
      this attrItems)
  else Ok this)).

End Index.

Module Exceptions.
Import JS.

(** A run that throws nothing but [TypeError]s. *)
Definition plain {A} (o : outcome A) : Prop := forall msg, o <> Throw (Error msg).

End Exceptions.

Module RuleShape.
Import JS CSSValidator CSSRules.

(** How often a character occurs in a text. *)
Definition occurrences (c : ascii) (l : text) : nat := count_occ ascii_dec l c.

(** What every extracted rule looks like: not empty, no white space at
    either end, a closing brace as its last character, and as many
    opening as closing braces. *)
Definition well_braced (rule : text) : Prop :=
  rule <> [] /\ trim rule = rule /\
  last rule " "%char = "}"%char /\
  occurrences "{"%char rule = occurrences "}"%char rule.

(** A rule counts as valid when its flag is set and it has no error. *)
Definition counted (r : rule_result) : bool :=
  r_valid r && (List.length (r_errors r) =? 0).

(** What the statistics keep true. *)
Definition sound (stats : statistics) : Prop :=
  validRules stats <= totalRules stats /\
  validProperties stats <= totalProperties stats /\
  List.length (uniqueProperties stats) <= totalProperties stats /\
  List.length (uniqueSelectors stats) <= totalRules stats.

End RuleShape.

(* ================================================================== *)
(** * More sample data *)
(* ================================================================== *)

Module Samples.
Import JS.

(** An HTML dataset with a block element, an inline element and a second
    record stored under the name of the first. *)
Definition html_block : value :=
  VObj [("name", VStr "div"); ("category", VStr "Sections");
        ("contentModel", VArr [VStr "flow"]); ("attributes", VArr [])].

Definition html_inline : value :=
  VObj [("name", VStr "span"); ("category", VStr "Text");
        ("contentModel", VStr "phrasing"); ("attributes", VArr [])].

Definition html_block_again : value :=
  VObj [("name", VStr "div"); ("category", VStr "Grouping");
        ("contentModel", VArr [VStr "flow"]);
        ("attributes", VArr [VObj [("name", VStr "align")]])].

Definition html_page : value :=
  VObj [("elements", VArr [html_block; html_inline; html_block_again])].

(** The validator the constructor builds from it. *)
Definition html_page_validator : HTMLValidator.validator :=
  HTMLValidator.mkValidator html_page
    [(VStr "div", html_block_again); (VStr "span", html_inline)]
    [(VStr "align", [VStr "div"])].

(** A style sheet with a rule, a comment, a rule whose selector and one
    of whose properties are unknown, and a nested block. *)
Definition style_sheet : list ascii :=
  list_ascii_of_string
    "p { zb: 1 } /* note */ ?? { za: 2; q: 1 } @media { a { zb: 3 } }".

End Samples.

(** ** What the data validators establish *)

Module Assurance.
Import JS Run Growth Totals Consistency.

(** What a check that runs to its end without adding an error tells about
    the document: the check only adds to the error list, and if it added
    nothing, [Q] holds of the document and of the value returned. *)
Definition ensures {A : Type} (m : M A) (Q : value -> A -> Prop) : Prop :=
  forall st a st', m st = (Ok a, st') ->
    exists added, grows st st' added /\ (added = [] -> Q (data st) a).

(** Every item of a collection is stored under its own name. *)
Definition keyed (collection : value) : Prop :=
  forall k x, In (k, x) (own_entries collection) -> get x "name" = Ok (VStr k).

(** A stored total that is the number of items of a collection. *)
Definition counts (metadata : value) (field : string) (n : nat) : Prop :=
  get metadata field = Ok (VNum (Z.of_nat n)).

(** No name of an object is both a method and a static method. *)
Definition disjoint_methods (object : value) : Prop :=
  forall n, In n (child_names object "methods") ->
            ~ In n (child_names object "staticMethods").

(** A method, static method or property is stored under its own name and
    has a description. *)
Definition member_ok (k : string) (record : value) : Prop :=
  get record "name" = Ok (VStr k) /\
  exists description, get record "description" = Ok description /\ truthy description = true.

Definition members_ok (object : value) : Prop :=
  forall field, In field ["methods"; "staticMethods"; "properties"] ->
  forall k record, In (k, record) (children object field) -> member_ok k record.

(** The test that no error passes. *)
Definition silent (s : string) : bool := false.

(** What passes for a collection: an object or an array. *)
Definition is_collection (v : value) : Prop :=
  truthy v = true /\ typeof v = "object".

(** What a JavaScript dataset that passes the validation looks like. *)
Definition consistent (d : value) : Prop :=
  exists categories objects keywords metadata,
    get d "categories" = Ok categories /\
    get d "objects" = Ok objects /\
    get d "keywords" = Ok keywords /\
    get d "metadata" = Ok metadata /\
    is_collection categories /\ is_collection objects /\
    is_collection keywords /\ is_collection metadata /\
    keyed categories /\ keyed objects /\ keyed keywords /\
    counts metadata "totalCategories" (List.length (own_entries categories)) /\
    counts metadata "totalObjects" (List.length (own_entries objects)) /\
    counts metadata "totalKeywords" (List.length (own_entries keywords)) /\
    counts metadata "totalMethods" (method_total (map snd (own_entries objects))) /\
    forall k object, In (k, object) (own_entries objects) ->
      members_ok object /\ disjoint_methods object.

(** The items of the groups of a CSS collection: what is reached as
    [groups[category][name]] for a key [category] of the collection and a
    key [name] of the group. *)
Definition grouped (groups item : value) : Prop :=
  exists category group name,
    In category (map fst (own_entries groups)) /\ get groups category = Ok group /\
    In name (map fst (own_entries group)) /\ get group name = Ok item.

Definition present (x : value) (field : string) : Prop :=
  exists v, get x field = Ok v /\ truthy v = true.

(** What a CSS dataset that passes the validation looks like. *)
Definition css_consistent (d : value) : Prop :=
  exists categories statistics properties types,
    present d "metadata" /\
    get d "categories" = Ok categories /\ truthy categories = true /\
    get d "statistics" = Ok statistics /\ truthy statistics = true /\
    get categories "properties" = Ok properties /\ truthy properties = true /\
    get categories "types" = Ok types /\ truthy types = true /\
    present categories "selectors" /\ present categories "functions" /\
    present categories "atRules" /\
    (forall item, grouped properties item ->
       present item "name" /\ present item "syntax") /\
    (forall item, grouped types item ->
       present item "name" /\ present item "definition") /\
    (forall stat,
       In stat ["totalProperties"; "totalTypes"; "totalSelectors"; "totalFunctions";
                "totalAtRules"] ->
       exists n, get statistics stat = Ok (VNum n)).

End Assurance.

(* ================================================================== *)
(** * Properties *)
(* ================================================================== *)

(** ** The edit distance and its recurrence *)

Module EditDistanceFacts.
Import EditDistance.

Lemma dist_nil_r s : dist s [] = List.length s.
Proof. destruct s; reflexivity. Qed.

Lemma dist_cons a b s t :
  dist (a :: s) (b :: t) =
  Nat.min (dist s t + (if Ascii.eqb a b then 0 else 1))
    (Nat.min (S (dist s (b :: t))) (S (dist (a :: s) t))).
Proof. reflexivity. Qed.

Lemma edit_nil_l t : edit [] t (List.length t).
Proof. induction t; simpl; constructor; auto. Qed.

Lemma edit_nil_r s : edit s [] (List.length s).
Proof. induction s; simpl; constructor; auto. Qed.

Lemma dist_edit s : forall t, edit s t (dist s t).
Proof.
  induction s as [|a s IH]; intro t.
  - apply edit_nil_l.
  - induction t as [|b t IHt].
    + rewrite dist_nil_r. apply edit_nil_r.
    + rewrite dist_cons.
      destruct (Nat.min_spec (dist s t + (if Ascii.eqb a b then 0 else 1))
                  (Nat.min (S (dist s (b :: t))) (S (dist (a :: s) t)))) as [[_ ->]|[_ ->]].
      * destruct (Ascii.eqb_spec a b) as [->|_].
        -- rewrite Nat.add_0_r. apply edit_keep, IH.
        -- rewrite Nat.add_1_r. apply edit_substitute, IH.
      * destruct (Nat.min_spec (S (dist s (b :: t))) (S (dist (a :: s) t))) as [[_ ->]|[_ ->]].
        -- apply edit_delete, IH.
        -- apply edit_insert, IHt.
Qed.

Lemma dist_least s t n : edit s t n -> dist s t <= n.
Proof.
  induction 1.
  - reflexivity.
  - rewrite dist_cons, Ascii.eqb_refl. lia.
  - rewrite dist_cons. destruct (Ascii.eqb a b); lia.
  - destruct t as [|b t].
    + rewrite dist_nil_r in *. simpl. lia.
    + rewrite dist_cons. lia.
  - destruct s as [|a s].
    + simpl in *. lia.
    + rewrite dist_cons. lia.
Qed.

Lemma dist_is_edit_distance s t : edit_distance s t (dist s t).
Proof. split; [apply dist_edit | intros m H; apply dist_least, H]. Qed.

Lemma edit_distance_unique s t n m :
  edit_distance s t n -> edit_distance s t m -> n = m.
Proof. intros [H1 H2] [H3 H4]. apply Nat.le_antisymm; auto. Qed.

(** Scripts can be read from the other end. *)
Lemma edit_snoc_keep s t n a : edit s t n -> edit (s ++ [a]) (t ++ [a]) n.
Proof. induction 1; simpl; try (constructor; assumption). apply edit_keep, edit_done. Qed.

Lemma edit_snoc_substitute s t n a b : edit s t n -> edit (s ++ [a]) (t ++ [b]) (S n).
Proof. induction 1; simpl; try (constructor; assumption). apply edit_substitute, edit_done. Qed.

Lemma edit_snoc_delete s t n a : edit s t n -> edit (s ++ [a]) t (S n).
Proof. induction 1; simpl; try (constructor; assumption). apply edit_delete, edit_done. Qed.

Lemma edit_snoc_insert s t n b : edit s t n -> edit s (t ++ [b]) (S n).
Proof. induction 1; simpl; try (constructor; assumption). apply edit_insert, edit_done. Qed.

Lemma edit_rev s t n : edit s t n -> edit (rev s) (rev t) n.
Proof.
  induction 1; simpl.
  - constructor.
  - apply edit_snoc_keep; assumption.
  - apply edit_snoc_substitute; assumption.
  - apply edit_snoc_delete; assumption.
  - apply edit_snoc_insert; assumption.
Qed.

Lemma dist_rev s t : dist (rev s) (rev t) = dist s t.
Proof.
  apply Nat.le_antisymm.
  - apply dist_least, edit_rev, dist_edit.
  - rewrite <- (rev_involutive s), <- (rev_involutive t) at 1.
    apply dist_least, edit_rev, dist_edit.
Qed.

Lemma edit_sym s t n : edit s t n -> edit t s n.
Proof. induction 1; constructor; assumption. Qed.

Lemma dist_sym s t : dist s t = dist t s.
Proof. apply Nat.le_antisymm; apply dist_least, edit_sym, dist_edit. Qed.

(** Dropping the first character of the source costs at most one more. *)
Lemma edit_uncons a s t n : edit (a :: s) t n -> exists m, m <= S n /\ edit s t m.
Proof.
  intro H. remember (a :: s) as u eqn:E. revert a s E.
  induction H; intros a0 s0 E; try discriminate.
  - injection E as -> ->. exists (S n). split; [lia | apply edit_insert; assumption].
  - injection E as -> ->. exists (S n). split; [lia | apply edit_insert; assumption].
  - injection E as -> ->. exists n. split; [lia | assumption].
  - destruct (IHedit a0 s0 E) as (m & Hm & He).
    exists (S m). split; [lia | apply edit_insert; assumption].
Qed.

Lemma dist_uncons_l a s t : dist s t <= S (dist (a :: s) t).
Proof.
  destruct (edit_uncons a s t _ (dist_edit (a :: s) t)) as (m & Hm & He).
  apply dist_least in He. lia.
Qed.

Lemma dist_uncons_r b s t : dist s t <= S (dist s (b :: t)).
Proof. rewrite (dist_sym s t), (dist_sym s (b :: t)). apply dist_uncons_l. Qed.

Lemma dist_cons_same a s t : dist (a :: s) (a :: t) = dist s t.
Proof.
  rewrite dist_cons, Ascii.eqb_refl.
  pose proof (dist_uncons_l a s t). pose proof (dist_uncons_r a s t).
  pose proof (dist_uncons_l a s (a :: t)). pose proof (dist_uncons_r a (a :: s) t).
  lia.
Qed.

Lemma dist_cons_diff a b s t : a <> b ->
  dist (a :: s) (b :: t) = Nat.min (S (dist s t)) (Nat.min (S (dist (a :: s) t)) (S (dist s (b :: t)))).
Proof.
  intro H. rewrite dist_cons. destruct (Ascii.eqb_spec a b); [contradiction | lia].
Qed.

Lemma dist_snoc_same a s t : dist (s ++ [a]) (t ++ [a]) = dist s t.
Proof.
  rewrite <- (dist_rev (s ++ [a])), !rev_unit, dist_cons_same. apply dist_rev.
Qed.

Lemma dist_snoc_diff a b s t : a <> b ->
  dist (s ++ [a]) (t ++ [b]) =
  Nat.min (S (dist s t)) (Nat.min (S (dist (s ++ [a]) t)) (S (dist s (t ++ [b])))).
Proof.
  intro H.
  rewrite <- (dist_rev (s ++ [a]) (t ++ [b])), <- (dist_rev (s ++ [a]) t),
    <- (dist_rev s (t ++ [b])), <- (dist_rev s t), !rev_unit.
  apply dist_cons_diff, H.
Qed.

End EditDistanceFacts.

(** ** The matrix of the Levenshtein routines *)

Module MatrixFacts.
Import JS JSArray EditDistance EditDistanceFacts.

Lemma nth_error_map_seq {A} (f : nat -> A) a n i :
  i < n -> nth_error (map f (seq a n)) i = Some (f (a + i)).
Proof.
  revert a i. induction n as [|n IH]; intros a i H; [lia|].
  destruct i as [|i]; simpl.
  - f_equal. f_equal. lia.
  - rewrite IH by lia. f_equal. f_equal. lia.
Qed.

Lemma arr_get_map_seq {A} (f : nat -> A) n i :
  i < n -> arr_get (map (fun k => Some (f k)) (seq 0 n)) i = Some (f i).
Proof.
  intro H. unfold arr_get. rewrite (nth_error_map_seq (fun k => Some (f k)) 0 n i H).
  reflexivity.
Qed.

Lemma arr_set_end {A} (l : list (option A)) x : arr_set l (List.length l) x = l ++ [x].
Proof.
  unfold arr_set. rewrite Nat.ltb_irrefl, Nat.sub_diag. reflexivity.
Qed.

Lemma nth_error_arr_set {A} (l : list (option A)) i x k :
  i < List.length l ->
  nth_error (arr_set l i x) k = if k =? i then Some x else nth_error l k.
Proof.
  intro H. unfold arr_set.
  destruct (Nat.ltb_spec i (List.length l)) as [_|]; [|lia].
  assert (Hlen : List.length (firstn i l) = i) by (rewrite length_firstn; lia).
  destruct (Nat.eqb_spec k i) as [->|Hne].
  - rewrite nth_error_app2 by lia. rewrite Hlen, Nat.sub_diag. reflexivity.
  - destruct (Nat.lt_ge_cases k i) as [Hlt|Hge].
    + rewrite nth_error_app1 by lia. rewrite nth_error_firstn.
      destruct (Nat.ltb_spec k i); [reflexivity | lia].
    + rewrite nth_error_app2 by lia. rewrite Hlen.
      destruct (k - i) as [|d] eqn:E; [lia|]. cbn [nth_error].
      rewrite nth_error_skipn. f_equal. lia.
Qed.

Lemma arr_set_map_seq {A} (f : nat -> option A) n i x :
  i < n ->
  arr_set (map f (seq 0 n)) i x = map (fun k => if k =? i then x else f k) (seq 0 n).
Proof.
  intro H. apply nth_error_ext. intro k.
  rewrite nth_error_arr_set by (rewrite length_map, length_seq; exact H).
  destruct (Nat.lt_ge_cases k n) as [Hk|Hk].
  - rewrite !nth_error_map_seq by assumption. simpl.
    destruct (k =? i); reflexivity.
  - destruct (Nat.eqb_spec k i); [lia|].
    transitivity (@None (option A)); [|symmetry];
      apply nth_error_None; rewrite length_map, length_seq; assumption.
Qed.

Lemma for_loop_S {S} lo count (body : nat -> S -> outcome S) s :
  for_loop lo (Datatypes.S count) body s = obind (body lo s) (for_loop (Datatypes.S lo) count body).
Proof. reflexivity. Qed.

Lemma get_list_ascii s i : String.get i s = nth_error (list_ascii_of_string s) i.
Proof.
  revert i. induction s as [|c s IH]; intro i; destruct i; simpl; auto.
Qed.

Lemma length_list_ascii s : List.length (list_ascii_of_string s) = String.length s.
Proof. induction s; simpl; auto. Qed.

Lemma firstn_snoc {A} (l : list A) i x :
  nth_error l i = Some x -> firstn (S i) l = firstn i l ++ [x].
Proof.
  revert i. induction l as [|y l IH]; intros i H; destruct i; simpl in *; try discriminate.
  - injection H as ->. reflexivity.
  - f_equal. apply IH, H.
Qed.

Section Matrix.

Variables str1 str2 : string.

Local Abbreviation l1 := (list_ascii_of_string str1).
Local Abbreviation l2 := (list_ascii_of_string str2).
Local Abbreviation n1 := (String.length str1).
Local Abbreviation n2 := (String.length str2).
Local Abbreviation D := (Matrix.D str1 str2).
Local Abbreviation full_row := (Matrix.full_row str1 str2).
Local Abbreviation part_row := (Matrix.part_row str1 str2).
Local Abbreviation init_row := Matrix.init_row.
Local Abbreviation numbering := (Matrix.numbering str2).
Local Abbreviation filling := (Matrix.filling str1 str2).
Local Abbreviation filled := (Matrix.filled str1 str2).
Local Abbreviation inner_body := (Matrix.inner_body str1 str2).

Lemma D_0_l j : j <= n1 -> D 0 j = j.
Proof.
  intro H. unfold D. simpl. rewrite length_firstn.
  unfold l1. rewrite length_list_ascii. fold n1. lia.
Qed.

Lemma D_0_r i : i <= n2 -> D i 0 = i.
Proof.
  intro H. unfold D. simpl. rewrite dist_nil_r, length_firstn.
  unfold l2. rewrite length_list_ascii. fold n2. lia.
Qed.

Lemma D_step i j :
  1 <= i <= n2 -> 1 <= j <= n1 ->
  D i j = if same_char str2 (i - 1) str1 (j - 1)
          then D (i - 1) (j - 1)
          else Nat.min (S (D (i - 1) (j - 1)))
                 (Nat.min (S (D i (j - 1))) (S (D (i - 1) j))).
Proof.
  intros Hi Hj.
  destruct i as [|i]; [lia|]. destruct j as [|j]; [lia|].
  replace (S i - 1) with i by lia. replace (S j - 1) with j by lia.
  unfold same_char. rewrite !get_list_ascii. fold l1 l2.
  destruct (nth_error l2 i) as [a|] eqn:Ea.
  2:{ apply nth_error_None in Ea. unfold l2 in Ea. rewrite length_list_ascii in Ea.
      fold n2 in Ea. lia. }
  destruct (nth_error l1 j) as [b|] eqn:Eb.
  2:{ apply nth_error_None in Eb. unfold l1 in Eb. rewrite length_list_ascii in Eb.
      fold n1 in Eb. lia. }
  unfold D.
  rewrite (firstn_snoc l2 _ a Ea), (firstn_snoc l1 _ b Eb).
  destruct (Ascii.eqb_spec a b) as [->|Hne].
  - apply dist_snoc_same.
  - apply dist_snoc_diff, Hne.
Qed.

(** The three loops. *)

Lemma first_loop cnt lo :
  for_loop lo cnt (fun i (m : matrix) => Ok (arr_set m i (Some [Some i])))
    (map (fun k => Some (init_row k)) (seq 0 lo))
  = Ok (map (fun k => Some (init_row k)) (seq 0 (lo + cnt))).
Proof.
  revert lo. induction cnt as [|cnt IH]; intro lo.
  - rewrite Nat.add_0_r. reflexivity.
  - rewrite for_loop_S. cbn [obind].
    replace (arr_set (map (fun k => Some (init_row k)) (seq 0 lo)) lo (Some [Some lo]))
      with (map (fun k => Some (init_row k)) (seq 0 (S lo))).
    + rewrite IH. do 3 f_equal. lia.
    + rewrite seq_S, map_app. cbn [map]. 
      rewrite <- (arr_set_end (map (fun k => Some (init_row k)) (seq 0 lo))).
      rewrite length_map, length_seq. reflexivity.
Qed.

Lemma mat_get_map_seq (f : nat -> row) n i j :
  i < n -> mat_get (map (fun k => Some (f k)) (seq 0 n)) i j = Ok (arr_get (f i) j).
Proof.
  intro H. unfold mat_get. rewrite arr_get_map_seq by assumption. reflexivity.
Qed.

Lemma mat_set_map_seq (f : nat -> row) n i j v :
  i < n ->
  mat_set (map (fun k => Some (f k)) (seq 0 n)) i j v
  = Ok (map (fun k => Some (if k =? i then arr_set (f i) j v else f k)) (seq 0 n)).
Proof.
  intro H. unfold mat_set. rewrite arr_get_map_seq by assumption.
  rewrite arr_set_map_seq by assumption. f_equal.
  apply map_ext. intro k. destruct (k =? i); reflexivity.
Qed.

Lemma arr_set_snoc {A} (f : nat -> option A) j :
  arr_set (map f (seq 0 j)) j (f j) = map f (seq 0 (S j)).
Proof.
  rewrite seq_S, map_app. cbn [map Nat.add].
  rewrite <- (arr_set_end (map f (seq 0 j))), length_map, length_seq. reflexivity.
Qed.

Lemma second_loop cnt lo :
  1 <= lo ->
  for_loop lo cnt (fun j (m : matrix) => mat_set m 0 j (Some j)) (numbering lo)
  = Ok (numbering (lo + cnt)).
Proof.
  revert lo. induction cnt as [|cnt IH]; intros lo Hlo.
  - rewrite Nat.add_0_r. reflexivity.
  - rewrite for_loop_S. unfold numbering at 1.
    rewrite mat_set_map_seq by lia. cbn [obind].
    replace (map _ (seq 0 (S n2))) with (numbering (S lo)).
    + rewrite IH by lia. do 2 f_equal. lia.
    + unfold numbering. apply map_ext. intro k. cbv beta.
      destruct (Nat.eqb_spec k 0) as [->|Hk]; cbn [Nat.eqb].
      * rewrite arr_set_snoc. reflexivity.
      * destruct k; [contradiction | reflexivity].
Qed.


Lemma filling_above i j k c :
  k < i <= n2 -> c <= n1 -> mat_get (filling i j) k c = Ok (Some (D k c)).
Proof.
  intros Hk Hc. unfold filling. rewrite mat_get_map_seq by lia.
  destruct (Nat.ltb_spec k i); [|lia].
  unfold full_row. rewrite arr_get_map_seq by lia. reflexivity.
Qed.

Lemma filling_current i j c :
  i <= n2 -> c < j -> mat_get (filling i j) i c = Ok (Some (D i c)).
Proof.
  intros Hi Hc. unfold filling. rewrite mat_get_map_seq by lia.
  rewrite Nat.ltb_irrefl, Nat.eqb_refl.
  unfold part_row. rewrite arr_get_map_seq by lia. reflexivity.
Qed.

Lemma filling_set i j :
  i <= n2 -> mat_set (filling i j) i j (Some (D i j)) = Ok (filling i (S j)).
Proof.
  intro Hi. unfold filling. rewrite mat_set_map_seq by lia. apply f_equal.
  apply map_ext. intro k. rewrite Nat.ltb_irrefl, Nat.eqb_refl.
  destruct (Nat.eqb_spec k i) as [->|Hk].
  - rewrite Nat.ltb_irrefl. unfold part_row.
    rewrite (arr_set_snoc (fun j' => Some (D i j'))). reflexivity.
  - reflexivity.
Qed.

Lemma inner_step i j :
  1 <= i <= n2 -> 1 <= j <= n1 -> inner_body i j (filling i j) = Ok (filling i (S j)).
Proof.
  intros Hi Hj. unfold inner_body.
  rewrite (filling_above i j (i - 1) (j - 1)) by lia.
  rewrite (filling_above i j (i - 1) j) by lia.
  rewrite (filling_current i j (j - 1)) by lia.
  pose proof (D_step i j Hi Hj) as HD.
  destruct (same_char str2 (i - 1) str1 (j - 1)); cbn [obind succ_cell min3];
    rewrite <- HD; apply filling_set; lia.
Qed.

Lemma inner_loop i cnt j :
  1 <= i <= n2 -> 1 <= j -> j + cnt = S n1 ->
  for_loop j cnt (inner_body i) (filling i j) = Ok (filling i (S n1)).
Proof.
  intro Hi. revert j. induction cnt as [|cnt IH]; intros j Hj Hsum.
  - replace j with (S n1) by lia. reflexivity.
  - rewrite for_loop_S, inner_step by lia. cbn [obind]. apply IH; lia.
Qed.

Lemma filled_filling i : i <= n2 -> filled i = filling i 1.
Proof.
  intro Hi. unfold filled, filling. apply map_ext_in. intros k Hk.
  destruct (k <? i); [reflexivity|].
  destruct (Nat.eqb_spec k i) as [->|]; [|reflexivity].
  unfold part_row, init_row. cbn [seq map]. rewrite D_0_r by assumption. reflexivity.
Qed.

Lemma filling_filled i : filling i (S n1) = filled (S i).
Proof.
  unfold filled, filling. apply map_ext. intro k.
  destruct (Nat.ltb_spec k i), (Nat.ltb_spec k (S i)), (Nat.eqb_spec k i);
    try lia; subst; reflexivity.
Qed.

Lemma outer_loop cnt i :
  1 <= i -> i + cnt = S n2 ->
  for_loop i cnt (fun i matrix => for_loop 1 n1 (inner_body i) matrix) (filled i)
  = Ok (filled (S n2)).
Proof.
  revert i. induction cnt as [|cnt IH]; intros i Hi Hsum.
  - replace i with (S n2) by lia. reflexivity.
  - rewrite for_loop_S, filled_filling by lia.
    rewrite inner_loop by lia. cbn [obind]. rewrite filling_filled. apply IH; lia.
Qed.

Lemma numbering_filled : numbering (S n1) = filled 1.
Proof.
  unfold numbering, filled. apply map_ext. intro k.
  destruct k as [|k]; cbn [Nat.eqb Nat.ltb Nat.leb]; [|reflexivity].
  unfold full_row. apply f_equal. apply map_ext_in. intros j Hj.
  apply in_seq in Hj. rewrite D_0_l by lia. reflexivity.
Qed.

Lemma init_numbering :
  map (fun k => Some (init_row k)) (seq 0 (S n2)) = numbering 1.
Proof.
  unfold numbering. apply map_ext. intro k. destruct k; reflexivity.
Qed.

Lemma obind_eq {A B} (m : outcome A) (a : A) (f : A -> outcome B) (r : outcome B) :
  m = Ok a -> f a = r -> obind m f = r.
Proof. intros -> <-. reflexivity. Qed.

Lemma second_loop_all :
  for_loop 0 (S n1) (fun j (m : matrix) => mat_set m 0 j (Some j))
    (map (fun k => Some (init_row k)) (seq 0 (S n2)))
  = Ok (filled 1).
Proof.
  rewrite init_numbering, for_loop_S. unfold numbering at 1.
  rewrite mat_set_map_seq by lia.
  apply obind_eq with (a := numbering 1).
  - apply f_equal. unfold numbering. apply map_ext. intro k. destruct k; reflexivity.
  - rewrite (second_loop n1 1) by lia. change (1 + n1) with (S n1).
    rewrite numbering_filled. reflexivity.
Qed.

Lemma result_cell : mat_get (filled (S n2)) n2 n1 = Ok (Some (dist l1 l2)).
Proof.
  unfold filled. rewrite mat_get_map_seq by lia.
  destruct (Nat.ltb_spec n2 (S n2)); [|lia].
  unfold full_row. rewrite arr_get_map_seq by lia.
  unfold D, n1, n2. rewrite <- !length_list_ascii. fold l1 l2.
  rewrite !firstn_all. rewrite dist_sym. reflexivity.
Qed.

Theorem levenshteinDistance_dist :
  CSSValidator.levenshteinDistance str1 str2 = Ok (Some (dist l1 l2)).
Proof.
  unfold CSSValidator.levenshteinDistance.
  eapply obind_eq; [exact (first_loop (S n2) 0)|].
  eapply obind_eq; [exact second_loop_all|].
  eapply obind_eq; [exact (outer_loop n2 1 (le_n 1) eq_refl)|].
  exact result_cell.
Qed.

End Matrix.

End MatrixFacts.

(** ** Running code that may throw *)

Module OutcomeFacts.
Import JS.

Lemma obind_Ok {A B} (m : outcome A) (f : A -> outcome B) b :
  obind m f = Ok b -> exists a, m = Ok a /\ f a = Ok b.
Proof. destruct m; simpl; try discriminate. intro H. eauto. Qed.

End OutcomeFacts.

(** ** The HTML validator *)

Module HTMLFacts.
Import JS JSArray HTMLValidator HTMLIndex OutcomeFacts.

Lemma lower_ascii_idempotent c : lower_ascii (lower_ascii c) = lower_ascii c.
Proof. destruct c as [[] [] [] [] [] [] [] []]; reflexivity. Qed.

Lemma toLowerCase_idempotent s : toLowerCase (toLowerCase s) = toLowerCase s.
Proof.
  induction s as [|c s IH]; simpl; [reflexivity|].
  rewrite lower_ascii_idempotent, IH. reflexivity.
Qed.


Lemma mem_In k l : mem k l = true <-> In k l.
Proof.
  unfold mem. rewrite existsb_exists. split.
  - intros (x & Hx & E). apply String.eqb_eq in E. subst. assumption.
  - intro H. exists k. split; [assumption | apply String.eqb_refl].
Qed.



Lemma same_key_str k s : same_key k (VStr s) = true -> k = VStr s.
Proof.
  destruct k; simpl; try discriminate. intro H. apply String.eqb_eq in H. congruence.
Qed.



Lemma same_key_eq a b : same_key a b = true -> a = b.
Proof.
  destruct a, b; simpl; try discriminate; intro H; try reflexivity.
  - apply Bool.eqb_prop in H. congruence.
  - apply Z.eqb_eq in H. congruence.
  - apply String.eqb_eq in H. congruence.
Qed.

Lemma forEach_invariant {A S} (f : S -> A -> outcome S) (I : S -> Prop) (Q : A -> Prop) :
  (forall s x s', f s x = Ok s' -> I s -> I s' /\ Q x) ->
  forall l s s', forEach f s l = Ok s' -> I s -> I s' /\ Forall Q l.
Proof.
  intros Hf l. induction l as [|x l IH]; simpl; intros s s' H Hs.
  - injection H as <-. auto.
  - apply obind_Ok in H. destruct H as (s1 & H1 & H2).
    destruct (Hf _ _ _ H1 Hs) as [Hs1 Hx].
    destruct (IH _ _ H2 Hs1). auto.
Qed.



Lemma named_truthy e s : get e "name" = Ok (VStr s) -> truthy e = true.
Proof.
  intro H.
  destruct e as [ | | b | n | s' | items | props | k ]; try reflexivity;
    try (compute in H; discriminate).
  destruct s'; [compute in H; discriminate | reflexivity].
Qed.



End HTMLFacts.

(** ** The suggestion engines *)

Module SuggestionFacts.
Import JS JSArray Suggestions OutcomeFacts.

Lemma first_of_firstn {A} n (all : list A) : first_of n all (firstn n all).
Proof.
  unfold first_of. split; [apply firstn_le_length|].
  exists (skipn n all). split; [symmetry; apply firstn_skipn|].
  intro H. rewrite length_firstn. apply Nat.min_l.
  destruct (Nat.le_gt_cases n (List.length all)) as [|Hlt]; [assumption|].
  exfalso. apply H. apply skipn_all2. lia.
Qed.

(** JavaScript validator *)

Lemma similar_names_first query names :
  first_of 3 (filter (js_qualifies query) names) (JSValidator.similar_names query names).
Proof. apply first_of_firstn. Qed.

Lemma findSimilarObjects_first data query l :
  JSValidator.findSimilarObjects data query = Ok l ->
  truthy data = true ->
  exists collection names,
    get data "objects" = Ok collection /\ Object_keys collection = Ok names /\
    first_of 3 (filter (js_qualifies query) names) l.
Proof.
  unfold JSValidator.findSimilarObjects. intros H Ht. rewrite Ht in H. cbn [negb] in H.
  apply obind_Ok in H. destruct H as (collection & Hc & H).
  apply obind_Ok in H. destruct H as (names & Hn & H).
  injection H as <-. exists collection, names. repeat split; try assumption.
  all: apply similar_names_first.
Qed.

(** CSS validator: the sort *)

Import CSSValidator.

Lemma insert_perm x l : Permutation (insert_by_distance x l) (x :: l).
Proof.
  induction l as [|y l IH]; simpl; [reflexivity|].
  destruct (distance x <=? distance y); [reflexivity|].
  rewrite IH. apply perm_swap.
Qed.

Lemma sort_perm l : Permutation (sort_by_distance l) l.
Proof.
  induction l as [|x l IH]; simpl; [reflexivity|].
  rewrite insert_perm. apply perm_skip, IH.
Qed.

Lemma insert_sorted x l :
  StronglySorted by_distance l -> StronglySorted by_distance (insert_by_distance x l).
Proof.
  induction 1 as [|y l Hs IH Hall]; simpl.
  - repeat constructor.
  - destruct (Nat.leb_spec (distance x) (distance y)) as [Hle|Hgt].
    + constructor; [constructor; assumption|].
      constructor; [exact Hle|].
      rewrite Forall_forall in *. intros z Hz. unfold by_distance in *.
      specialize (Hall z Hz). lia.
    + constructor; [exact IH|].
      rewrite Forall_forall in *. intros z Hz.
      apply (Permutation_in _ (insert_perm x l)) in Hz. destruct Hz as [<-|Hz].
      * unfold by_distance. lia.
      * apply Hall, Hz.
Qed.

Lemma sort_sorted l : StronglySorted by_distance (sort_by_distance l).
Proof.
  induction l as [|x l IH]; simpl; [constructor | apply insert_sorted, IH].
Qed.

(** The sort is stable: candidates at one distance keep their order. *)
Lemma insert_stable d x l :
  StronglySorted by_distance l ->
  filter (fun c => distance c =? d) (insert_by_distance x l)
  = filter (fun c => distance c =? d) (x :: l).
Proof.
  induction 1 as [|y l Hs IH Hall]; [reflexivity|].
  cbn [insert_by_distance].
  destruct (Nat.leb_spec (distance x) (distance y)) as [Hle|Hgt]; [reflexivity|].
  cbn [filter] in *. rewrite IH.
  destruct (Nat.eqb_spec (distance x) d), (Nat.eqb_spec (distance y) d);
    try reflexivity. lia.
Qed.

Lemma sort_stable d l :
  filter (fun c => distance c =? d) (sort_by_distance l)
  = filter (fun c => distance c =? d) l.
Proof.
  induction l as [|x l IH]; [reflexivity|].
  cbn [sort_by_distance]. rewrite insert_stable by apply sort_sorted.
  cbn [filter]. rewrite IH. reflexivity.
Qed.

Lemma In_firstn {A} n (l : list A) x : In x (firstn n l) -> In x l.
Proof.
  intro H. rewrite <- (firstn_skipn n l). apply in_or_app. left. exact H.
Qed.

Lemma firstn_sorted {A} (R : A -> A -> Prop) n l :
  StronglySorted R l -> StronglySorted R (firstn n l).
Proof.
  intro H. revert n. induction H as [|x l Hs IH Hall]; intro n.
  - rewrite firstn_nil. constructor.
  - destruct n; simpl; constructor; [apply IH|].
    rewrite Forall_forall in *. intros y Hy. apply Hall.
    apply In_firstn in Hy. exact Hy.
Qed.


Lemma candidates_of_group_sound q cat names cs :
  candidates_of_group q cat names = Ok cs ->
  forall c, In c cs ->
    distance c <= 3 /\
    levenshteinDistance q (toLowerCase (property c)) = Ok (Some (distance c)).
Proof.
  revert cs. induction names as [|n names IH]; simpl; intros cs H c Hc.
  - injection H as <-. contradiction.
  - apply obind_Ok in H. destruct H as (d & Hd & H).
    apply obind_Ok in H. destruct H as (rest & Hrest & H).
    injection H as <-.
    destruct d as [d|]; [|eapply IH; eauto].
    destruct (Nat.leb_spec d 3); [|eapply IH; eauto].
    destruct Hc as [<-|Hc]; [|eapply IH; eauto].
    simpl. auto.
Qed.

Lemma candidates_of_groups_sound q groups cats cs :
  candidates_of_groups q groups cats = Ok cs ->
  forall c, In c cs ->
    distance c <= 3 /\
    levenshteinDistance q (toLowerCase (property c)) = Ok (Some (distance c)).
Proof.
  revert cs. induction cats as [|cat cats IH]; simpl; intros cs H c Hc.
  - injection H as <-. contradiction.
  - apply obind_Ok in H. destruct H as (props & _ & H).
    apply obind_Ok in H. destruct H as (names & _ & H).
    apply obind_Ok in H. destruct H as (here & Hhere & H).
    apply obind_Ok in H. destruct H as (rest & Hrest & H).
    injection H as <-. apply in_app_or in Hc. destruct Hc as [Hc|Hc].
    + eapply candidates_of_group_sound; eauto.
    + eapply IH; eauto.
Qed.

Lemma findSimilarProperties_sorted data query l :
  findSimilarProperties data query = Ok l ->
  List.length l <= 5 /\
  exists all shown,
    l = map property shown /\
    first_of 5 (sort_by_distance all) shown /\
    StronglySorted by_distance shown /\
    (forall d, filter (fun c => distance c =? d) (sort_by_distance all)
               = filter (fun c => distance c =? d) all) /\
    (forall c, In c all ->
       distance c <= 3 /\
       levenshteinDistance (toLowerCase query) (toLowerCase (property c))
       = Ok (Some (distance c))).
Proof.
  unfold findSimilarProperties. intro H.
  apply obind_Ok in H. destruct H as (categories & _ & H).
  apply obind_Ok in H. destruct H as (groups & _ & H).
  apply obind_Ok in H. destruct H as (names & _ & H).
  apply obind_Ok in H. destruct H as (all & Hall & H).
  assert (E : l = map property (firstn 5 (sort_by_distance all)))
    by (injection H; intro E; symmetry; exact E).
  clear H. subst l. split.
  - rewrite length_map. apply firstn_le_length.
  - exists all, (firstn 5 (sort_by_distance all)). repeat split.
    + apply firstn_le_length.
    + apply (first_of_firstn 5 (sort_by_distance all)).
    + apply firstn_sorted, sort_sorted.
    + intro d. apply sort_stable.
    + eapply (candidates_of_groups_sound _ _ _ _ Hall); eauto.
    + eapply (candidates_of_groups_sound _ _ _ _ Hall); eauto.
Qed.

(** HTML validator *)

Lemma html_similar_names query keys all :
  HTMLValidator.similar_names query keys = Ok all ->
  exists names, keys = map VStr names /\ all = filter (html_qualifies query) names.
Proof.
  revert all. induction keys as [|k keys IH]; simpl; intros all H.
  - injection H as <-. exists []. auto.
  - apply obind_Ok in H. destruct H as (here & Hhere & H).
    apply obind_Ok in H. destruct H as (rest & Hrest & H).
    injection H as <-. destruct (IH _ Hrest) as (names & -> & ->).
    destruct k; try discriminate.
    apply obind_Ok in Hhere. destruct Hhere as (r & Hr & Hhere).
    injection Hhere as <-.
    exists (s :: names). split; [reflexivity|].
    cbn [filter]. unfold html_qualifies at 2. rewrite Hr.
    destruct (HTMLValidator.exceeds r 3 5); reflexivity.
Qed.

Lemma getSuggestions_first this query l :
  HTMLValidator._getSuggestions this query = Ok l ->
  exists names,
    HTMLValidator.Map_keys (HTMLValidator.elements this) = map VStr names /\
    first_of 5 (filter (html_qualifies query) names) l.
Proof.
  unfold HTMLValidator._getSuggestions. intro H.
  apply obind_Ok in H. destruct H as (all & Hall & H).
  assert (E : l = firstn 5 all) by (injection H; intro E; symmetry; exact E).
  clear H. subst l.
  destruct (html_similar_names _ _ _ Hall) as (names & Hk & ->).
  exists names. split; [exact Hk | apply first_of_firstn].
Qed.

End SuggestionFacts.

(** ** Checks that collect findings *)

Module RunFacts.
Import JS Run Growth OutcomeFacts.

Lemma bind_Ok {A B} (m : M A) (f : A -> M B) st b st' :
  bind m f st = (Ok b, st') -> exists a st1, m st = (Ok a, st1) /\ f a st1 = (Ok b, st').
Proof.
  unfold bind. destruct (m st) as [[a| |] st1]; try discriminate. eauto.
Qed.

Lemma lift_Ok {A} (o : outcome A) st a st' :
  lift o st = (Ok a, st') -> o = Ok a /\ st' = st.
Proof. unfold lift. intros [= -> ->]. auto. Qed.

Lemma grows_refl st : grows st st [].
Proof. split; [reflexivity | symmetry; apply app_nil_r]. Qed.

Lemma grows_trans st1 st2 st3 l1 l2 :
  grows st1 st2 l1 -> grows st2 st3 l2 -> grows st1 st3 (l1 ++ l2).
Proof.
  intros [D1 E1] [D2 E2]. split; [congruence|].
  rewrite E2, E1, app_assoc. reflexivity.
Qed.

Lemma quiet_ret {A} p (a : A) : quiet p (ret a).
Proof.
  intros st b st' [= <- <-]. exists []. split; [apply grows_refl | reflexivity].
Qed.

Lemma quiet_lift {A} p (o : outcome A) : quiet p (lift o).
Proof.
  intros st a st' H. apply lift_Ok in H. destruct H as [_ ->].
  exists []. split; [apply grows_refl | reflexivity].
Qed.

Lemma quiet_this_data p : quiet p this_data.
Proof.
  intros st a st' [= <- <-]. exists []. split; [apply grows_refl | reflexivity].
Qed.

Lemma quiet_bind {A B} p (m : M A) (f : A -> M B) :
  quiet p m -> (forall a, quiet p (f a)) -> quiet p (bind m f).
Proof.
  intros Hm Hf st b st' H. apply bind_Ok in H. destruct H as (a & st1 & H1 & H2).
  destruct (Hm _ _ _ H1) as (l1 & G1 & F1). destruct (Hf a _ _ _ H2) as (l2 & G2 & F2).
  exists (l1 ++ l2). split; [eapply grows_trans; eauto|].
  rewrite filter_app, F1, F2. reflexivity.
Qed.

Lemma quiet_push_warning p msg : quiet p (push_warning msg).
Proof.
  intros st a st' [= <- <-]. exists []. split; [|reflexivity].
  split; [reflexivity | symmetry; apply app_nil_r].
Qed.

Lemma quiet_push_error p msg : p msg = false -> quiet p (push_error msg).
Proof.
  intros Hp st a st' [= <- <-]. exists [msg]. split; [split; reflexivity|].
  simpl. rewrite Hp. reflexivity.
Qed.

Lemma quiet_when p b (m : M unit) : quiet p m -> quiet p (when b m).
Proof. intro H. destruct b; [exact H | apply quiet_ret]. Qed.

Lemma quiet_if {A} p (b : bool) (m1 m2 : M A) :
  quiet p m1 -> quiet p m2 -> quiet p (if b then m1 else m2).
Proof. destruct b; auto. Qed.

Lemma quiet_forEach {A} p (f : A -> M unit) l :
  (forall x, quiet p (f x)) -> quiet p (forEach f l).
Proof.
  intro Hf. induction l as [|x l IH]; simpl.
  - apply quiet_ret.
  - apply quiet_bind; [apply Hf | intro; exact IH].
Qed.

Lemma quiet_foldM {A S} p (f : S -> A -> M S) l :
  (forall s x, quiet p (f s x)) -> forall s, quiet p (foldM f s l).
Proof.
  intro Hf. induction l as [|x l IH]; simpl; intro s.
  - apply quiet_ret.
  - apply quiet_bind; [apply Hf | intro; apply IH].
Qed.

End RunFacts.

(** ** The totals of the metadata *)

Module MetadataFacts.
Import JS Run Growth Totals OutcomeFacts RunFacts JSData.

Lemma own_entries_or_else v : own_entries (or_else v (VObj [])) = own_entries v.
Proof.
  unfold or_else. destruct (truthy v) eqn:E; [reflexivity|].
  destruct v as [ | | b | n | s | | | ]; try reflexivity; try discriminate.
  destruct s; [reflexivity | discriminate].
Qed.

Lemma count_keys_children x field n :
  count_keys x field = Ok n -> n = List.length (children x field).
Proof.
  unfold count_keys, children. intro H.
  apply obind_Ok in H. destruct H as (v & Hv & H). rewrite Hv.
  apply obind_Ok in H. destruct H as (ks & Hk & H). injection H as <-.
  unfold Object_keys in Hk. destruct (nullish _); [discriminate|].
  injection Hk as <-. rewrite length_map, own_entries_or_else. reflexivity.
Qed.

Ltac bind_inv H :=
  let a := fresh "a" in let st := fresh "st" in let H1 := fresh "H" in
  apply bind_Ok in H; destruct H as (a & st & H1 & H).

Ltac lift_inv H :=
  let E := fresh "E" in
  apply lift_Ok in H; destruct H as [E ->].

Lemma count_methods_loop l : forall acc st n st',
  foldM (fun actualMethods object =>
           bind (lift (count_keys object "methods")) (fun n =>
           bind (lift (count_keys object "staticMethods")) (fun s =>
           ret (actualMethods + n + s)))) acc l st = (Ok n, st') ->
  st' = st /\ n = acc + method_total l.
Proof.
  induction l as [|x l IH]; simpl; intros acc st n st' H.
  - injection H as <- <-. unfold method_total. simpl. auto.
  - bind_inv H. bind_inv H0. lift_inv H1. bind_inv H0. lift_inv H1.
    injection H0 as <- <-.
    apply IH in H. destruct H as [-> ->]. split; [reflexivity|].
    apply count_keys_children in E, E0. subst.
    unfold method_total. simpl. lia.
Qed.

Lemma count_methods_total objs st n st' :
  count_methods objs st = (Ok n, st') ->
  st' = st /\ exists entries, Object_values objs = Ok entries /\ n = method_total entries.
Proof.
  unfold count_methods. intro H. bind_inv H. lift_inv H0.
  apply count_methods_loop in H. destruct H as [-> ->]. eauto.
Qed.




Section Metadata.

Variable Date_parse_isNaN : string -> bool.


End Metadata.

End MetadataFacts.

(** ** Cross references and duplicate names *)

Module ConsistencyFacts.
Import JS Run Growth Totals Consistency OutcomeFacts RunFacts JSData HTMLFacts MetadataFacts.

Lemma indexOf_seen seen rest x :
  mem x seen = true ->
  exists k, indexOf (seen ++ rest) x = Some k /\ k < List.length seen.
Proof.
  induction seen as [|y seen IH]; simpl; [discriminate|].
  rewrite String.eqb_sym. destruct (String.eqb y x) eqn:E.
  - intros _. exists 0. split; [reflexivity | lia].
  - simpl. intro H. destruct (IH H) as (k & -> & Hk). exists (S k). split; [reflexivity | lia].
Qed.

Lemma indexOf_fresh seen rest x :
  mem x seen = false -> indexOf (seen ++ x :: rest) x = Some (List.length seen).
Proof.
  induction seen as [|y seen IH]; simpl.
  - rewrite String.eqb_refl. reflexivity.
  - rewrite String.eqb_sym. destruct (String.eqb y x) eqn:E; simpl; [discriminate|].
    intro H. rewrite (IH H). reflexivity.
Qed.

Lemma filter_index_met_before all : forall seen l,
  all = seen ++ l ->
  filter_index (fun method index => index_differs (indexOf all method) index)
    (List.length seen) l
  = met_before seen l.
Proof.
  intros seen l. revert seen. induction l as [|x l IH]; intros seen E; [reflexivity|].
  cbn [filter_index met_before].
  assert (E' : all = (seen ++ [x]) ++ l) by (rewrite <- app_assoc; exact E).
  specialize (IH _ E'). rewrite length_app, Nat.add_1_r in IH. rewrite IH.
  destruct (mem x seen) eqn:Hm.
  - destruct (indexOf_seen seen (x :: l) x Hm) as (k & Hk & Hlt).
    rewrite E, Hk. cbn [index_differs].
    destruct (Nat.eqb_spec k (List.length seen)); [lia | reflexivity].
  - rewrite E, (indexOf_fresh seen l x Hm). cbn [index_differs].
    rewrite Nat.eqb_refl. reflexivity.
Qed.

Lemma duplicates_of_met_before all : duplicates_of all = met_before [] all.
Proof. apply (filter_index_met_before all [] all eq_refl). Qed.




Lemma met_before_app l1 : forall seen l2,
  met_before seen (l1 ++ l2) = met_before seen l1 ++ met_before (seen ++ l1) l2.
Proof.
  induction l1 as [|x l1 IH]; intros seen l2; cbn [met_before app].
  - rewrite app_nil_r. reflexivity.
  - rewrite IH, <- app_assoc. cbn [app].
    destruct (mem x seen); reflexivity.
Qed.




Lemma keys_child_names x field v ks :
  get x field = Ok v -> Object_keys (or_else v (VObj [])) = Ok ks ->
  ks = child_names x field.
Proof.
  unfold Object_keys, child_names, children. intros -> H.
  destruct (nullish _); [discriminate|]. injection H as <-.
  rewrite own_entries_or_else. reflexivity.
Qed.






(** ** The message lists the names *)











End ConsistencyFacts.

(** ** The result of a validation run *)

Module ResultFacts.
Import JS Run Growth OutcomeFacts RunFacts.

Lemma length_eqb_0 {A} (l : list A) : (List.length l =? 0) = true <-> l = [].
Proof. destruct l; simpl; split; intro H; try reflexivity; discriminate. Qed.

(** The last step of [reportResults] decides. *)
Lemma reportResults_status st r st' :
  JSData.reportResults st = (Ok r, st') ->
  JSData.succeeded r = true <-> errors st' = [].
Proof.
  unfold JSData.reportResults. intro H.
  do 10 (apply bind_Ok in H; destruct H as (? & ? & _ & H)).
  destruct (errors _) as [|e l] eqn:E; simpl in H; injection H as <- <-.
  - rewrite E. simpl. tauto.
  - rewrite E. simpl. split; discriminate.
Qed.

Lemma validate_status f d r st :
  JSData.validate f d = (Ok r, st) ->
  JSData.succeeded r = true <-> errors st = [].
Proof.
  unfold JSData.validate. intro H.
  do 6 (apply bind_Ok in H; destruct H as (_ & ? & _ & H)).
  exact (reportResults_status _ _ _ H).
Qed.

Lemma checks_result st b st' :
  CSSData.checks st = (Ok b, st') -> b = true <-> errors st' = [].
Proof.
  unfold CSSData.checks. intro H.
  do 11 (apply bind_Ok in H; destruct H as (? & ? & _ & H)).
  injection H as <- <-. apply length_eqb_0.
Qed.

(** Claim C1, as amended.  Whenever a validation run reaches its end, its
    result is "valid" exactly when the error list is empty, whatever the
    warning list holds: [validate] of the JavaScript data returns without
    [process.exit(1)] iff [errors] is empty, and [validateCSSData] returns
    [errors.length === 0].  When an exception interrupts the checks of
    [validateCSSData], its [catch] answers [false], whatever was recorded. *)
Theorem validation_result d :
  (forall f r st, JSData.validate f d = (Ok r, st) ->
     (JSData.succeeded r = true <-> errors st = [])) /\
  match CSSData.checks (mkValidator d [] []) with
  | (Ok b, st) => CSSData.validateCSSData d = Ok b /\ (b = true <-> errors st = [])
  | (Throw _, _) => CSSData.validateCSSData d = Ok false
  | (Unmodelled, _) => CSSData.validateCSSData d = Unmodelled
  end.
Proof.
  split.
  - intros f r st. apply validate_status.
  - unfold CSSData.validateCSSData.
    destruct (CSSData.checks (mkValidator d [] [])) as [[b| |] st] eqn:E; cbn [fst].
    + split; [reflexivity | eapply checks_result, E].
    + reflexivity.
    + reflexivity.
Qed.

(** A JavaScript dataset with one warning and no error is reported valid;
    the amended claim applies to it. *)
Lemma validation_result_witness :
  JSData.validate Examples.every_date_parses Examples.js_scenario
  = (Ok JSData.Completed,
     mkValidator Examples.js_scenario []
       ["Version should follow semantic versioning: 1.0.0"]) /\
  (JSData.succeeded JSData.Completed = true <-> @nil string = []).
Proof.
  split; [vm_compute; reflexivity|].
  apply (proj1 (validation_result Examples.js_scenario) Examples.every_date_parses
           JSData.Completed
           (mkValidator Examples.js_scenario []
              ["Version should follow semantic versioning: 1.0.0"])).
  vm_compute. reflexivity.
Defined.

(** Claim C1, as stated, fails: a loaded CSS dataset whose one group of
    properties is [null] makes [Object.keys] throw; no error has been
    recorded, and [validateCSSData] returns [false]. *)
Lemma css_interrupted_run_is_invalid :
  CSSData.checks (mkValidator (Examples.css_with_group VNull) [] [])
  = (Throw TypeError, mkValidator (Examples.css_with_group VNull) [] []) /\
  CSSData.validateCSSData (Examples.css_with_group VNull) = Ok false.
Proof. split; vm_compute; reflexivity. Qed.

End ResultFacts.

(** ** The queries of the JavaScript and CSS validators *)

Module QueryFacts.
Import JS Run OutcomeFacts Scenario Suggestions SuggestionFacts JSValidator.

Lemma get_own props k v : assoc k props = Some v -> get (VObj props) k = Ok v.
Proof. unfold get. simpl. intros ->. reflexivity. Qed.

Lemma get_absent props k :
  assoc k props = None -> mem k object_prototype_names = false ->
  get (VObj props) k = Ok VUndef.
Proof. unfold get. simpl. intros -> ->. reflexivity. Qed.

(** A name the object does not hold, but every object inherits. *)
Lemma get_inherited props k :
  assoc k props = None -> mem k object_prototype_names = true ->
  get (VObj props) k = Ok (VBuiltin k) /\ truthy (VBuiltin k) = true.
Proof. unfold get. simpl. intros -> ->. split; reflexivity. Qed.

Lemma similar_names_reaches query names before after :
  names = before ++ "flatMap" :: after ->
  js_qualifies query "flatMap" = true ->
  List.length (filter (js_qualifies query) before) < 3 ->
  In "flatMap" (similar_names query names).
Proof.
  intros -> Hq Hlen. unfold similar_names. fold (js_qualifies query).
  rewrite filter_app. cbn [filter]. rewrite Hq.
  set (pre := filter (js_qualifies query) before) in *.
  rewrite firstn_app. apply in_or_app. right.
  destruct (3 - List.length pre) as [|k] eqn:E; [lia|]. left. reflexivity.
Qed.

(** Claim C5, as amended.  In a loaded dataset whose object [Array] has the
    child [map] (not also listed as a static child) and the static child
    [isArray], [validateMethod("Array", "map")] exists with
    [isStatic = false] and [validateMethod("Array", "isArray")] exists with
    [isStatic = true]; an object name whose lookup finds nothing gets the
    result that carries the [error] field, not the one with [method]; and
    for the unknown [flatMix] the result does not exist and suggests the
    first three children, in stored order, that agree with [flatmix] on
    more than half of the positions: [flatMap] is among them when it is a
    child and fewer than three such names come before it. *)
Theorem validateMethod_array data methods statics :
  holds_array data methods statics ->
  has_child methods "map" -> assoc "map" statics = None ->
  has_child statics "isArray" ->
  assoc "flatMix" methods = None -> assoc "flatMix" statics = None ->
  (exists m, validateMethod data "Array" "map" = Ok (MethodResult true m false None)) /\
  (exists m, validateMethod data "Array" "isArray" = Ok (MethodResult true m true None)) /\
  validateMethod data "Array" "flatMix"
  = Ok (MethodResult false VNull false
          (Some (similar_names "flatMix" (known_children methods statics)))) /\
  (forall before after,
      known_children methods statics = before ++ "flatMap" :: after ->
      List.length (filter (js_qualifies "flatMix") before) < 3 ->
      In "flatMap" (similar_names "flatMix" (known_children methods statics))) /\
  (forall objectName methodName collection found,
      get data "objects" = Ok collection ->
      get collection objectName = Ok found -> truthy found = false ->
      exists suggestion,
        validateMethod data objectName methodName
        = Ok (ObjectNotFound ("Object '" +++ objectName +++ "' not found") suggestion)).
Proof.
  intros (Hdata & collection & array & Hc & Ha & Hta & Hms & Hss)
         (m & Hm & Htm) Hmap_static (s & Hs & Hts) Hfm Hfs.
  repeat split.
  - exists m. unfold validateMethod, lookup_method.
    rewrite Hdata, Hc. cbn [negb obind]. rewrite Ha. cbn [obind]. rewrite Hta.
    cbn [negb]. rewrite Hms. cbn [obind]. rewrite (get_own _ _ _ Hm). cbn [obind].
    rewrite Htm. cbn [obind]. rewrite Hss. cbn [obind].
    rewrite (get_absent _ _ Hmap_static eq_refl). cbn [obind truthy].
    unfold or_else. rewrite Htm. reflexivity.
  - unfold validateMethod, lookup_method.
    rewrite Hdata, Hc. cbn [negb obind]. rewrite Ha. cbn [obind]. rewrite Hta.
    cbn [negb]. rewrite Hms. cbn [obind].
    destruct (get (VObj methods) "isArray") as [i| |] eqn:Ei.
    2,3: (unfold get in Ei; simpl in Ei;
          destruct (assoc "isArray" methods); discriminate).
    cbn [obind]. destruct (truthy i) eqn:Eti.
    + exists i. cbn [obind]. rewrite Hss. cbn [obind]. rewrite (get_own _ _ _ Hs).
      cbn [obind]. rewrite Eti, Hts. cbn [obind]. unfold or_else. rewrite Eti. reflexivity.
    + exists s. rewrite Hss. cbn [obind]. rewrite (get_own _ _ _ Hs).
      cbn [obind]. rewrite Hts. cbn [obind]. unfold or_else. rewrite Hts. reflexivity.
  - unfold validateMethod, lookup_method, findSimilarMethods.
    rewrite Hdata, Hc. cbn [negb obind]. rewrite Ha. cbn [obind]. rewrite Hta.
    cbn [negb]. rewrite Hms. cbn [obind].
    rewrite (get_absent _ _ Hfm eq_refl). cbn [obind truthy].
    rewrite Hss. cbn [obind]. rewrite (get_absent _ _ Hfs eq_refl). cbn [obind truthy].
    reflexivity.
  - intros before after E Hlen.
    apply (similar_names_reaches _ _ before after E); [reflexivity | exact Hlen].
  - intros objectName methodName collection' found Hc' Hf Htf.
    unfold validateMethod, findSimilarObjects.
    rewrite Hdata, Hc'. cbn [negb obind]. rewrite Hf. cbn [obind]. rewrite Htf.
    cbn [negb obind].
    destruct (Object_keys collection') as [ks| |] eqn:Ek.
    + cbn [obind]. eauto.
    + unfold Object_keys in Ek. unfold get in Hf.
      destruct (nullish collection'); discriminate.
    + unfold Object_keys in Ek. destruct (nullish collection'); discriminate.
Qed.

(** Claim C5, as stated, fails: with [map] and [isArray] as the only
    children of [Array], nothing is suggested for [flatMix]. *)
Lemma scenario_without_flatMap :
  validateMethod Examples.js_scenario "Array" "flatMix"
  = Ok (MethodResult false VNull false (Some [])).
Proof. vm_compute. reflexivity. Qed.

(** Before [initialize], [this.data] is [null]: the queries of the
    JavaScript validator all start with the same test. *)
Lemma js_queries_guarded name child :
  validateObject VNull name = Throw not_initialized /\
  validateMethod VNull name child = Throw not_initialized /\
  validateKeyword VNull name = Throw not_initialized /\
  getStats VNull = Throw not_initialized.
Proof. repeat split. Qed.

(** Claim C6 fails on the CSS validator.  Before [initialize],
    [validateProperty] throws the "not initialized" error, but
    [validateFunction], which has no such test, runs into [null] and
    throws a [TypeError]. *)
Theorem css_validateFunction_unguarded :
  CSSValidator.validateFunction VNull "rgb" = Throw TypeError /\
  CSSValidator.validateProperty VNull "rgb" = Throw CSSValidator.not_initialized /\
  TypeError <> CSSValidator.not_initialized.
Proof. repeat split. discriminate. Qed.

(** Claim C4 fails for the names every object inherits.  A category that
    lists the object [toString], which the collection of objects does not
    hold, passes the cross-reference check without an error, where the
    absent [Widget] gets its one error: the lookup
    [this.data.objects[objectName]] finds [Object.prototype.toString]. *)
Theorem inherited_name_not_reported :
  fst (JSData.validateConsistency
         (mkValidator (Examples.js_dangling "toString") [] [])) = Ok tt /\
  errors (snd (JSData.validateConsistency
                 (mkValidator (Examples.js_dangling "toString") [] []))) = [] /\
  errors (snd (JSData.validateConsistency
                 (mkValidator (Examples.js_dangling "Widget") [] [])))
  = ["Category Core references non-existent object: Widget"].
Proof. repeat split; vm_compute; reflexivity. Qed.

End QueryFacts.

(** ** The two Levenshtein routines *)

Module LevenshteinFacts.
Import JS JSArray EditDistance EditDistanceFacts MatrixFacts.

(** Claim C10.  The routine of the HTML validator and the routine of the
    CSS validator return the same value on every pair of strings, and this
    value is the classic edit distance of the two strings: some sequence
    of that many insertions, deletions and substitutions turns one into
    the other, and no shorter one does. *)
Theorem levenshtein_routines_agree (str1 str2 : string) :
  HTMLValidator._levenshteinDistance str1 str2
  = CSSValidator.levenshteinDistance str1 str2 /\
  exists n,
    CSSValidator.levenshteinDistance str1 str2 = Ok (Some n) /\
    edit_distance (list_ascii_of_string str1) (list_ascii_of_string str2) n.
Proof.
  split; [reflexivity|].
  exists (dist (list_ascii_of_string str1) (list_ascii_of_string str2)).
  split; [apply levenshteinDistance_dist | apply dist_is_edit_distance].
Qed.

End LevenshteinFacts.

(** ** Lower case in the HTML validator *)

Module CaseFacts.
Import JS HTMLValidator HTMLFacts.

(** Claim C7, as amended.  Element names are lower-cased before every
    lookup (the index is keyed by the names as stored): a query and its
    lower-case form get equal results. *)
Theorem validateElement_lowercase this s :
  validateElement this s = validateElement this (toLowerCase s).
Proof.
  unfold validateElement. rewrite toLowerCase_idempotent. reflexivity.
Qed.

(** Claim C7, as stated, fails: an element stored as [DIV] is indexed
    under [DIV], and neither [DIV] nor [div] resolves to it. *)
Lemma index_keeps_stored_case :
  exists this,
    new (Examples.html_with "DIV") = Ok this /\
    Map_keys (elements this) = [VStr "DIV"] /\
    validateElement this "DIV" = Ok (mkElementResult false VNull []) /\
    validateElement this "div" = Ok (mkElementResult false VNull []).
Proof.
  eexists. split; [vm_compute; reflexivity|].
  repeat split; vm_compute; reflexivity.
Qed.


End CaseFacts.

(** ** What the suggestion engines return *)

Module RankingFacts.
Import JS JSArray OutcomeFacts Suggestions SuggestionFacts.

Lemma findSimilarKeywords_first data query l :
  JSValidator.findSimilarKeywords data query = Ok l ->
  truthy data = true ->
  exists collection names,
    get data "keywords" = Ok collection /\ Object_keys collection = Ok names /\
    first_of 3 (filter (js_qualifies query) names) l.
Proof.
  unfold JSValidator.findSimilarKeywords. intros H Ht. rewrite Ht in H. cbn [negb] in H.
  apply obind_Ok in H. destruct H as (collection & Hc & H).
  apply obind_Ok in H. destruct H as (names & Hn & H).
  injection H as <-. exists collection, names. repeat split; try assumption.
  all: apply similar_names_first.
Qed.

Lemma findSimilarMethods_first object query l :
  JSValidator.findSimilarMethods object query = Ok l ->
  exists methods instanceNames staticMethods staticNames,
    get object "methods" = Ok methods /\ Object_keys methods = Ok instanceNames /\
    get object "staticMethods" = Ok staticMethods /\
    Object_keys staticMethods = Ok staticNames /\
    first_of 3 (filter (js_qualifies query) (instanceNames ++ staticNames)) l.
Proof.
  unfold JSValidator.findSimilarMethods. intro H.
  apply obind_Ok in H. destruct H as (methods & Hm & H).
  apply obind_Ok in H. destruct H as (instanceNames & Hi & H).
  apply obind_Ok in H. destruct H as (staticMethods & Hs & H).
  apply obind_Ok in H. destruct H as (staticNames & Hn & H).
  injection H as <-.
  exists methods, instanceNames, staticMethods, staticNames.
  repeat split; try assumption. all: apply similar_names_first.
Qed.

Lemma findSimilarProperties_ranked data query l :
  CSSValidator.findSimilarProperties data query = Ok l ->
  exists categories groups names all shown,
    get data "categories" = Ok categories /\
    get categories "properties" = Ok groups /\
    Object_keys groups = Ok names /\
    CSSValidator.candidates_of_groups (toLowerCase query) groups names = Ok all /\
    l = map CSSValidator.property shown /\
    first_of 5 (CSSValidator.sort_by_distance all) shown /\
    StronglySorted by_distance shown /\
    (forall d,
       filter (fun c => CSSValidator.distance c =? d) (CSSValidator.sort_by_distance all)
       = filter (fun c => CSSValidator.distance c =? d) all) /\
    (forall c, In c all ->
       CSSValidator.distance c <= 3 /\
       CSSValidator.levenshteinDistance (toLowerCase query)
         (toLowerCase (CSSValidator.property c))
       = Ok (Some (CSSValidator.distance c))).
Proof.
  unfold CSSValidator.findSimilarProperties. intro H.
  apply obind_Ok in H. destruct H as (categories & Hc & H).
  apply obind_Ok in H. destruct H as (groups & Hg & H).
  apply obind_Ok in H. destruct H as (names & Hn & H).
  apply obind_Ok in H. destruct H as (all & Hall & H).
  assert (E : l = map CSSValidator.property
                    (firstn 5 (CSSValidator.sort_by_distance all)))
    by (injection H; intro E; symmetry; exact E).
  clear H. subst l.
  exists categories, groups, names, all, (firstn 5 (CSSValidator.sort_by_distance all)).
  split; [exact Hc|]. split; [exact Hg|]. split; [exact Hn|]. split; [exact Hall|].
  split; [reflexivity|]. split; [apply first_of_firstn|].
  split; [apply firstn_sorted, sort_sorted|].
  split; [intro d; apply sort_stable|].
  apply (candidates_of_groups_sound _ _ _ _ Hall).
Qed.

(** Claim C8, as amended.  The suggestions for an unknown name are at most
    3 for the objects, keywords and methods of the JavaScript validator
    and at most 5 for the elements of the HTML validator and the
    properties of the CSS validator.  The JavaScript and HTML lists are the
    first names, in the order of the collection, that score above the
    threshold; they are not sorted by score.  The CSS list is the first 5
    candidates in ascending order of edit distance, candidates at the same
    distance staying in the order of the collection. *)
Theorem suggestions_first_found :
  (forall data query l,
      truthy data = true -> JSValidator.findSimilarObjects data query = Ok l ->
      exists collection names,
        get data "objects" = Ok collection /\ Object_keys collection = Ok names /\
        first_of 3 (filter (js_qualifies query) names) l) /\
  (forall data query l,
      truthy data = true -> JSValidator.findSimilarKeywords data query = Ok l ->
      exists collection names,
        get data "keywords" = Ok collection /\ Object_keys collection = Ok names /\
        first_of 3 (filter (js_qualifies query) names) l) /\
  (forall object query l,
      JSValidator.findSimilarMethods object query = Ok l ->
      exists methods instanceNames staticMethods staticNames,
        get object "methods" = Ok methods /\ Object_keys methods = Ok instanceNames /\
        get object "staticMethods" = Ok staticMethods /\
        Object_keys staticMethods = Ok staticNames /\
        first_of 3 (filter (js_qualifies query) (instanceNames ++ staticNames)) l) /\
  (forall this query l,
      HTMLValidator._getSuggestions this query = Ok l ->
      exists names,
        HTMLValidator.Map_keys (HTMLValidator.elements this) = map VStr names /\
        first_of 5 (filter (html_qualifies query) names) l) /\
  (forall data query l,
      CSSValidator.findSimilarProperties data query = Ok l ->
      List.length l <= 5 /\
      exists categories groups names all shown,
        get data "categories" = Ok categories /\
        get categories "properties" = Ok groups /\
        Object_keys groups = Ok names /\
        CSSValidator.candidates_of_groups (toLowerCase query) groups names = Ok all /\
        l = map CSSValidator.property shown /\
        first_of 5 (CSSValidator.sort_by_distance all) shown /\
        StronglySorted by_distance shown /\
        (forall d,
           filter (fun c => CSSValidator.distance c =? d)
             (CSSValidator.sort_by_distance all)
           = filter (fun c => CSSValidator.distance c =? d) all) /\
        (forall c, In c all ->
           CSSValidator.distance c <= 3 /\
           CSSValidator.levenshteinDistance (toLowerCase query)
             (toLowerCase (CSSValidator.property c))
           = Ok (Some (CSSValidator.distance c)))).
Proof.
  split; [intros data query l Ht H; apply findSimilarObjects_first; assumption|].
  split; [intros data query l Ht H; apply findSimilarKeywords_first; assumption|].
  split; [intros object query l H; apply findSimilarMethods_first; assumption|].
  split; [intros this query l H; apply getSuggestions_first; assumption|].
  intros data query l H. split.
  - apply findSimilarProperties_sorted in H. apply H.
  - apply findSimilarProperties_ranked, H.
Qed.

(** Two objects resemble [Arrai]; both are suggested, in stored order. *)
Lemma suggestions_first_found_witness :
  truthy Examples.js_two_objects = true /\
  JSValidator.findSimilarObjects Examples.js_two_objects "Arrai"
  = Ok ["Xrray"; "Array"] /\
  exists collection names,
    get Examples.js_two_objects "objects" = Ok collection /\
    Object_keys collection = Ok names /\
    first_of 3 (filter (js_qualifies "Arrai") names) ["Xrray"; "Array"].
Proof.
  assert (H1 : truthy Examples.js_two_objects = true) by reflexivity.
  assert (H2 : JSValidator.findSimilarObjects Examples.js_two_objects "Arrai"
               = Ok ["Xrray"; "Array"]) by (vm_compute; reflexivity).
  split; [exact H1|]. split; [exact H2|].
  exact (proj1 suggestions_first_found Examples.js_two_objects "Arrai" _ H1 H2).
Defined.

(** Claim C8, as stated, fails.  For [Arrai] the JavaScript validator
    suggests [Xrray], which agrees on 3 positions of 5, before [Array],
    which agrees on 4; for [zc] the CSS validator suggests [zb] before
    [za], both at distance 1. *)
Lemma suggestions_not_ranked :
  JSValidator.findSimilarObjects Examples.js_two_objects "Arrai"
  = Ok ["Xrray"; "Array"] /\
  JSValidator.calculateSimilarity "arrai" "xrray" = JSValidator.mkRatio 3 5 /\
  JSValidator.calculateSimilarity "arrai" "array" = JSValidator.mkRatio 4 5 /\
  CSSValidator.findSimilarProperties Examples.css_two_properties "zc"
  = Ok ["zb"; "za"] /\
  CSSValidator.levenshteinDistance "zc" "zb" = Ok (Some 1) /\
  CSSValidator.levenshteinDistance "zc" "za" = Ok (Some 1).
Proof. repeat split; vm_compute; reflexivity. Qed.

End RankingFacts.

(** ** The properties at work on the sample datasets *)

Module Instances.
Import JS Run Totals Consistency Scenario Suggestions.



(** [Array] with the children [map], [flat] and [flatMap]. *)
Lemma validateMethod_array_witness :
  holds_array Examples.js_scenario_flat
    [("map", Examples.method_record "map"); ("flat", Examples.method_record "flat");
     ("flatMap", Examples.method_record "flatMap")]
    [("isArray", Examples.static_record "isArray")] /\
  In "flatMap"
    (JSValidator.similar_names "flatMix"
       (known_children
          [("map", Examples.method_record "map"); ("flat", Examples.method_record "flat");
           ("flatMap", Examples.method_record "flatMap")]
          [("isArray", Examples.static_record "isArray")])).
Proof.
  assert (H : holds_array Examples.js_scenario_flat
                [("map", Examples.method_record "map");
                 ("flat", Examples.method_record "flat");
                 ("flatMap", Examples.method_record "flatMap")]
                [("isArray", Examples.static_record "isArray")]).
  { split; [reflexivity|].
    eexists. eexists. repeat split; vm_compute; reflexivity. }
  split; [exact H|].
  refine (proj1 (proj2 (proj2 (proj2
            (QueryFacts.validateMethod_array _ _ _ H _ eq_refl _ eq_refl eq_refl))))
            ["map"; "flat"] ["isArray"] eq_refl _).
  - eexists. split; reflexivity.
  - eexists. split; reflexivity.
  - vm_compute. lia.
Defined.

End Instances.

(** ** The edit distance as a metric *)

Module MetricFacts.
Import JS JSArray EditDistance EditDistanceFacts MatrixFacts.

Lemma dist_refl s : dist s s = 0.
Proof.
  induction s as [|a s IH]; [reflexivity|].
  rewrite dist_cons_same. exact IH.
Qed.

Lemma edit_zero s t n : edit s t n -> n = 0 -> s = t.
Proof.
  induction 1; intro E; try discriminate; [reflexivity|].
  f_equal. auto.
Qed.

Lemma dist_zero s t : dist s t = 0 <-> s = t.
Proof.
  split.
  - intro E. apply (edit_zero s t 0); [|reflexivity].
    rewrite <- E. apply dist_edit.
  - intros ->. apply dist_refl.
Qed.

Lemma edit_lengths s t n :
  edit s t n -> List.length s <= List.length t + n /\ List.length t <= List.length s + n.
Proof. induction 1; simpl; lia. Qed.

Lemma edit_max s : forall t, exists n,
  n <= Nat.max (List.length s) (List.length t) /\ edit s t n.
Proof.
  induction s as [|a s IH]; intro t.
  - exists (List.length t). split; [simpl; lia | apply edit_nil_l].
  - destruct t as [|b t].
    + exists (List.length (a :: s)). split; [simpl; lia | apply edit_nil_r].
    + destruct (IH t) as (n & Hn & He). exists (S n). split; [simpl; lia|].
      apply edit_substitute, He.
Qed.

Lemma dist_bounds s t :
  dist s t <= Nat.max (List.length s) (List.length t) /\
  List.length s - List.length t <= dist s t /\
  List.length t - List.length s <= dist s t.
Proof.
  split.
  - destruct (edit_max s t) as (n & Hn & He).
    apply dist_least in He. lia.
  - pose proof (edit_lengths _ _ _ (dist_edit s t)). lia.
Qed.

Lemma dist_delete_le a s u : dist (a :: s) u <= S (dist s u).
Proof. apply dist_least, edit_delete, dist_edit. Qed.

Lemma dist_insert_le b s u : dist s (b :: u) <= S (dist s u).
Proof. apply dist_least, edit_insert, dist_edit. Qed.

Lemma dist_substitute_le a b s u : dist (a :: s) (b :: u) <= S (dist s u).
Proof. apply dist_least, edit_substitute, dist_edit. Qed.

Lemma edit_compose s t n :
  edit s t n -> forall u m, edit t u m -> dist s u <= n + m.
Proof.
  induction 1 as [ | a s t n H IH | a b s t n H IH | a s t n H IH | b s t n H IH ].
  - intros u m H. apply dist_least in H. lia.
  - intros u m H2. remember (a :: t) as t' eqn:E.
    induction H2 as [ | c t2 u m H2 _ | c d t2 u m H2 _ | c t2 u m H2 _ | d t2 u m H2 IH2 ];
      try discriminate.
    + injection E as -> ->. rewrite dist_cons_same. apply IH, H2.
    + injection E as -> ->. pose proof (dist_substitute_le a d s u).
      pose proof (IH _ _ H2). lia.
    + injection E as -> ->. pose proof (dist_delete_le a s u).
      pose proof (IH _ _ H2). lia.
    + pose proof (dist_insert_le d (a :: s) u). pose proof (IH2 E). lia.
  - intros u m H2. remember (b :: t) as t' eqn:E.
    induction H2 as [ | c t2 u m H2 _ | c d t2 u m H2 _ | c t2 u m H2 _ | d t2 u m H2 IH2 ];
      try discriminate.
    + injection E as -> ->. pose proof (dist_substitute_le a b s u).
      pose proof (IH _ _ H2). lia.
    + injection E as -> ->. pose proof (dist_substitute_le a d s u).
      pose proof (IH _ _ H2). lia.
    + injection E as -> ->. pose proof (dist_delete_le a s u).
      pose proof (IH _ _ H2). lia.
    + pose proof (dist_insert_le d (a :: s) u). pose proof (IH2 E). lia.
  - intros u m H2. pose proof (dist_delete_le a s u). pose proof (IH _ _ H2). lia.
  - intros u m H2. remember (b :: t) as t' eqn:E.
    induction H2 as [ | c t2 u m H2 _ | c d t2 u m H2 _ | c t2 u m H2 _ | d t2 u m H2 IH2 ];
      try discriminate.
    + injection E as -> ->. pose proof (dist_insert_le b s u).
      pose proof (IH _ _ H2). lia.
    + injection E as -> ->. pose proof (dist_insert_le d s u).
      pose proof (IH _ _ H2). lia.
    + injection E as -> ->. pose proof (IH _ _ H2). lia.
    + pose proof (dist_insert_le d s u). pose proof (IH2 E). lia.
Qed.

Lemma dist_triangle s t u : dist s u <= dist s t + dist t u.
Proof. eapply edit_compose; apply dist_edit. Qed.

Lemma list_ascii_inj s t : list_ascii_of_string s = list_ascii_of_string t -> s = t.
Proof.
  intro E. rewrite <- (string_of_list_ascii_of_string s), <- (string_of_list_ascii_of_string t).
  rewrite E. reflexivity.
Qed.

Lemma html_levenshteinDistance_dist s t :
  HTMLValidator._levenshteinDistance s t
  = Ok (Some (dist (list_ascii_of_string s) (list_ascii_of_string t))).
Proof. exact (levenshteinDistance_dist s t). Qed.

End MetricFacts.

(** ** What the Levenshtein routines guarantee *)

Module LevenshteinMetric.
Import JS JSArray EditDistance EditDistanceFacts MatrixFacts MetricFacts.

(** Property X1.  The distance between two strings is 0 exactly when they are the
    same string ([_levenshteinDistance] of the HTML validator and
    [levenshteinDistance] of the CSS validator). *)
Theorem levenshtein_zero_iff_equal (str1 str2 : string) :
  (HTMLValidator._levenshteinDistance str1 str2 = Ok (Some 0) <-> str1 = str2) /\
  (CSSValidator.levenshteinDistance str1 str2 = Ok (Some 0) <-> str1 = str2).
Proof.
  rewrite html_levenshteinDistance_dist, ?levenshteinDistance_dist.
  assert (H : Ok (Some (dist (list_ascii_of_string str1) (list_ascii_of_string str2)))
              = @Ok cell (Some 0) <-> str1 = str2).
  { split.
    - intro E. apply list_ascii_inj, dist_zero. congruence.
    - intros ->. rewrite dist_refl. reflexivity. }
  split; exact H.
Qed.

(** Property X2.  Swapping the two arguments does not change the distance. *)
Theorem levenshtein_symmetric (str1 str2 : string) :
  HTMLValidator._levenshteinDistance str1 str2
  = HTMLValidator._levenshteinDistance str2 str1 /\
  CSSValidator.levenshteinDistance str1 str2
  = CSSValidator.levenshteinDistance str2 str1.
Proof.
  rewrite !html_levenshteinDistance_dist, ?levenshteinDistance_dist.
  rewrite (dist_sym (list_ascii_of_string str1)). split; reflexivity.
Qed.

(** Property X3.  The routine always returns a number, and going through a third
    string is never shorter: the distance from [a] to [c] is at most the
    distance from [a] to [b] plus the distance from [b] to [c]. *)
Theorem levenshtein_triangle (a b c : string) :
  exists ab bc ac,
    CSSValidator.levenshteinDistance a b = Ok (Some ab) /\
    CSSValidator.levenshteinDistance b c = Ok (Some bc) /\
    CSSValidator.levenshteinDistance a c = Ok (Some ac) /\
    ac <= ab + bc.
Proof.
  exists (dist (list_ascii_of_string a) (list_ascii_of_string b)),
         (dist (list_ascii_of_string b) (list_ascii_of_string c)),
         (dist (list_ascii_of_string a) (list_ascii_of_string c)).
  rewrite !levenshteinDistance_dist.
  repeat split. apply dist_triangle.
Qed.

(** Property X4.  The distance is at least the difference of the two lengths and at
    most the greater length. *)
Theorem levenshtein_bounds (str1 str2 : string) :
  exists d,
    CSSValidator.levenshteinDistance str1 str2 = Ok (Some d) /\
    String.length str1 - String.length str2 <= d /\
    String.length str2 - String.length str1 <= d /\
    d <= Nat.max (String.length str1) (String.length str2).
Proof.
  exists (dist (list_ascii_of_string str1) (list_ascii_of_string str2)).
  rewrite levenshteinDistance_dist. split; [reflexivity|].
  pose proof (dist_bounds (list_ascii_of_string str1) (list_ascii_of_string str2)) as H.
  rewrite !length_list_ascii in H. lia.
Qed.

End LevenshteinMetric.

Module SimilarityFacts.
Import JS JSArray EditDistance EditDistanceFacts MatrixFacts MetricFacts HTMLValidator.

Lemma length_eq_empty s : String.length s = 0 -> s = "".
Proof. destruct s; [reflexivity | discriminate]. Qed.

(** Property X5.  [_calculateSimilarity] always returns a quotient between 0 and 1,
    which is 1 exactly when the two strings are the same. *)
Theorem calculateSimilarity_range (str1 str2 : string) :
  exists r,
    _calculateSimilarity str1 str2 = Ok (Some r) /\
    (0 <= num r <= den r)%Z /\ (0 < den r)%Z /\
    (num r = den r <-> str1 = str2).
Proof.
  unfold _calculateSimilarity.
  destruct (Nat.ltb_spec (String.length str2) (String.length str1)) as [Hlt|Hge].
  - destruct (Nat.eqb_spec (String.length str1) 0) as [E|Hne]; [lia|].
    rewrite html_levenshteinDistance_dist. cbn [obind].
    eexists. split; [reflexivity|]. cbn [num den].
    pose proof (dist_bounds (list_ascii_of_string str1) (list_ascii_of_string str2)) as H.
    rewrite !length_list_ascii in H.
    split; [lia|]. split; [lia|]. split.
    + intro E. apply list_ascii_inj, dist_zero. lia.
    + intros ->. lia.
  - destruct (Nat.eqb_spec (String.length str2) 0) as [E|Hne].
    + eexists. split; [reflexivity|]. cbn [num den].
      split; [lia|]. split; [lia|]. split; [|reflexivity].
      intros _. rewrite (length_eq_empty str2 E).
      apply length_eq_empty. lia.
    + rewrite html_levenshteinDistance_dist. cbn [obind].
      eexists. split; [reflexivity|]. cbn [num den].
      pose proof (dist_bounds (list_ascii_of_string str2) (list_ascii_of_string str1)) as H.
      rewrite !length_list_ascii in H.
      split; [lia|]. split; [lia|]. split.
      * intro E. symmetry. apply list_ascii_inj, dist_zero. lia.
      * intros ->. rewrite dist_refl. lia.
Qed.

(** Property X6.  The similarity of two strings does not depend on their order. *)
Theorem calculateSimilarity_symmetric (str1 str2 : string) :
  _calculateSimilarity str1 str2 = _calculateSimilarity str2 str1.
Proof.
  unfold _calculateSimilarity.
  destruct (Nat.ltb_spec (String.length str2) (String.length str1)) as [Hlt|Hge];
    destruct (Nat.ltb_spec (String.length str1) (String.length str2)) as [Hlt'|Hge'];
    try lia; try reflexivity.
  assert (E : String.length str1 = String.length str2) by lia.
  rewrite E. destruct (String.length str2 =? 0); [reflexivity|].
  rewrite !html_levenshteinDistance_dist.
  rewrite (dist_sym (list_ascii_of_string str1)). reflexivity.
Qed.

End SimilarityFacts.

(** ** The selectors of the CSS validator *)

Module SelectorFacts.
Import JS OutcomeFacts CSSValidator.

Lemma after_prefix_app p l r : after_prefix p l = Some r <-> l = p ++ r.
Proof.
  revert l. induction p as [|a p IH]; intro l; simpl.
  - split; [intros [= ->]; reflexivity | intros ->; reflexivity].
  - destruct l as [|b l]; [split; discriminate|].
    destruct (Ascii.eqb_spec a b) as [->|Hne].
    + rewrite IH. split; [intros ->; reflexivity | intros [= ->]; reflexivity].
    + split; [discriminate | intros [= E _]; congruence].
Qed.

Lemma separator_inside_spec sep l :
  separator_inside sep l = true <->
  exists a b, a <> [] /\ b <> [] /\ l = a ++ sep ++ b.
Proof.
  induction l as [|c l IH]; simpl.
  - split; [discriminate|]. intros (a & b & Ha & _ & E).
    destruct a; [contradiction | discriminate].
  - rewrite orb_true_iff, IH. split.
    + intros [H|(a & b & Ha & Hb & ->)].
      * destruct (after_prefix sep l) as [[|x r]|] eqn:E; try discriminate.
        apply after_prefix_app in E. subst l.
        exists [c], (x :: r). repeat split; discriminate.
      * exists (c :: a), b. repeat split; [discriminate | assumption].
    + intros (a & b & Ha & Hb & E).
      destruct a as [|x a]; [contradiction|]. injection E as <- ->.
      destruct a as [|y a].
      * left. simpl.
        assert (E : after_prefix sep (sep ++ b) = Some b) by (apply after_prefix_app; reflexivity).
        rewrite E. destruct b; [contradiction | reflexivity].
      * right. exists (y :: a), b. repeat split; [discriminate | assumption].
Qed.

(** A text joined by [" > "], [" + "] or [" ~ "] is also joined by a
    space. *)
Lemma joined_by_space sep l :
  joined_by (" " ++ sep) l = true -> joined_by " " l = true.
Proof.
  unfold joined_by. rewrite !andb_true_iff. intros [Hl H]. split; [exact Hl|].
  apply separator_inside_spec in H. destruct H as (a & b & Ha & Hb & ->).
  apply separator_inside_spec.
  exists a, (list_ascii_of_string sep ++ b).
  split; [assumption|]. split.
  - destruct b; [contradiction|]. destruct (list_ascii_of_string sep); discriminate.
  - simpl. reflexivity.
Qed.

Lemma first_pattern_not_combinator l :
  first_pattern selectorPatterns l <> Some "child" /\
  first_pattern selectorPatterns l <> Some "adjacent-sibling" /\
  first_pattern selectorPatterns l <> Some "general-sibling".
Proof.
  unfold selectorPatterns. cbn [first_pattern].
  repeat match goal with
         | |- context [if ?b then Some ?t else _] =>
             lazymatch b with
             | joined_by _ _ => fail
             | _ => destruct b; [repeat split; discriminate|]
             end
         end.
  destruct (joined_by " " l) eqn:E; [repeat split; discriminate|].
  destruct (joined_by " > " l) eqn:E1.
  { apply (joined_by_space "> ") in E1. congruence. }
  destruct (joined_by " + " l) eqn:E2.
  { apply (joined_by_space "+ ") in E2. congruence. }
  destruct (joined_by " ~ " l) eqn:E3.
  { apply (joined_by_space "~ ") in E3. congruence. }
  repeat split; discriminate.
Qed.

Lemma validateSelector_type data selector r :
  validateSelector data selector = Ok r ->
  match first_pattern selectorPatterns (trim (list_ascii_of_string selector)) with
  | Some type => s_valid r = true /\ s_type r = VStr type /\ s_suggestions r = []
  | None => r = mkSelectorResult false selector VNull VNull VNull
                  (findSimilarSelectors selector)
  end.
Proof.
  unfold validateSelector.
  destruct (first_pattern _ _) as [type|].
  - intro H.
    apply obind_Ok in H. destruct H as (categories & _ & H).
    apply obind_Ok in H. destruct H as (groups & _ & H).
    apply obind_Ok in H. destruct H as (names & _ & H).
    apply obind_Ok in H. destruct H as (found & _ & H).
    injection H as <-. auto.
  - intros [= <-]. reflexivity.
Qed.

(** Property X7.  [validateSelector] never reports the types [child],
    [adjacent-sibling] and [general-sibling]: whatever passes their
    patterns passes the pattern of [descendant], which is tried first. *)
Theorem validateSelector_never_combinator data selector r :
  validateSelector data selector = Ok r ->
  s_type r <> VStr "child" /\
  s_type r <> VStr "adjacent-sibling" /\
  s_type r <> VStr "general-sibling".
Proof.
  intro H. apply validateSelector_type in H.
  pose proof (first_pattern_not_combinator (trim (list_ascii_of_string selector))) as Hn.
  destruct (first_pattern _ _) as [type|].
  - destruct H as (_ & -> & _). destruct Hn as (H1 & H2 & H3).
    repeat split; intros [= ->]; auto.
  - subst r. simpl. repeat split; discriminate.
Qed.

(** Property X8.  Whatever has a space inside, once trimmed, and no line break is a
    valid selector. *)
Theorem validateSelector_spaced data selector r a b :
  validateSelector data selector = Ok r ->
  trim (list_ascii_of_string selector) = a ++ " "%char :: b ->
  a <> [] -> b <> [] ->
  existsb is_line_end (trim (list_ascii_of_string selector)) = false ->
  s_valid r = true /\ s_suggestions r = [].
Proof.
  intros H E Ha Hb Hl. apply validateSelector_type in H.
  assert (Hj : joined_by " " (trim (list_ascii_of_string selector)) = true).
  { unfold joined_by. rewrite Hl. cbn [negb andb].
    apply separator_inside_spec. exists a, b. repeat split; assumption. }
  destruct (first_pattern _ _) as [type|] eqn:Ef; [tauto|].
  exfalso. revert Ef. unfold selectorPatterns. cbn [first_pattern].
  repeat match goal with
         | |- context [if ?b then Some ?t else _] =>
             lazymatch b with
             | joined_by " " _ => fail
             | _ => destruct b; [discriminate|]
             end
         end.
  rewrite Hj. discriminate.
Qed.

End SelectorFacts.

(** ** The syntax check of the JavaScript validator *)

Module SyntaxFacts.
Import JS JSQueries Brackets.

Lemma scan_errors code : forall i stack valid errors,
  exists added,
    snd (scan i code stack valid errors) = errors ++ added /\
    (snd (fst (scan i code stack valid errors)) = true -> valid = true /\ added = []) /\
    (valid = true -> added = [] -> snd (fst (scan i code stack valid errors)) = true).
Proof.
  induction code as [|char code IH]; intros i stack valid errors; cbn [scan].
  - exists []. rewrite app_nil_r. cbn. auto.
  - destruct (closing_of char) as [close|]; [apply IH|].
    destruct (is_closing char); [|apply IH].
    destruct stack as [|top stack].
    + destruct (IH (S i) [] false
                  (errors ++ ["Mismatched bracket at position " +++ string_of_nat i]))
        as (added & E & Hv & Hv').
      eexists. rewrite E, <- app_assoc. split; [reflexivity|]. split.
      * intro H. destruct (Hv H). discriminate.
      * intros _ H. discriminate.
    + destruct (Ascii.eqb top char); [apply IH|].
      destruct (IH (S i) stack false
                  (errors ++ ["Mismatched bracket at position " +++ string_of_nat i]))
        as (added & E & Hv & Hv').
      eexists. rewrite E, <- app_assoc. split; [reflexivity|]. split.
      * intro H. destruct (Hv H). discriminate.
      * intros _ H. discriminate.
Qed.

Lemma closing_is_closing opening close : closing_of opening = Some close -> is_closing close = true.
Proof.
  unfold closing_of.
  destruct (Ascii.eqb opening "("); [intros [= <-]; reflexivity|].
  destruct (Ascii.eqb opening "["); [intros [= <-]; reflexivity|].
  destruct (Ascii.eqb opening "{"); [intros [= <-]; reflexivity|discriminate].
Qed.

Lemma closing_not_opening opening close :
  closing_of opening = Some close -> closing_of close = None.
Proof.
  unfold closing_of.
  destruct (Ascii.eqb opening "("); [intros [= <-]; reflexivity|].
  destruct (Ascii.eqb opening "["); [intros [= <-]; reflexivity|].
  destruct (Ascii.eqb opening "{"); [intros [= <-]; reflexivity|discriminate].
Qed.

(** A properly nested text is walked without a change. *)
Lemma scan_balanced s : balanced s -> forall i rest stack valid errors,
  scan i (s ++ rest) stack valid errors
  = scan (i + List.length s) rest stack valid errors.
Proof.
  induction 1 as [ | c s Hc Hn Hs IH | opening close s t Ho Hs IHs Ht IHt ];
    intros i rest stack valid errors.
  - simpl. rewrite Nat.add_0_r. reflexivity.
  - cbn [app scan]. rewrite Hc, Hn, IH. f_equal. simpl. lia.
  - cbn [app scan]. rewrite Ho. rewrite <- app_assoc. rewrite IHs.
    cbn [app scan]. rewrite (closing_not_opening _ _ Ho), (closing_is_closing _ _ Ho).
    rewrite Ascii.eqb_refl. rewrite IHt. f_equal.
    cbn [List.length]. rewrite length_app. cbn [List.length]. lia.
Qed.

Lemma closes_cons_other stack c code :
  closing_of c = None -> is_closing c = false -> closes stack code -> closes stack (c :: code).
Proof.
  intros Hc Hn. destruct stack as [|close stack]; cbn [closes].
  - apply balanced_other; assumption.
  - intros (s & t & -> & Hs & Ht). exists (c :: s), t.
    repeat split; [|assumption]. apply balanced_other; assumption.
Qed.

Lemma closes_cons_open stack opening close code :
  closing_of opening = Some close -> closes (close :: stack) code ->
  closes stack (opening :: code).
Proof.
  intros Ho (s & t & -> & Hs & Ht). destruct stack as [|close' stack]; cbn [closes] in *.
  - apply balanced_pair; assumption.
  - destruct Ht as (s' & t' & -> & Hs' & Ht').
    exists (opening :: s ++ close :: s'), t'. split.
    + cbn [app]. rewrite <- app_assoc. reflexivity.
    + split; [|assumption]. apply balanced_pair; assumption.
Qed.

(** A walk that ends with nothing awaited and no error added has closed
    what was awaited. *)
Lemma scan_closes code : forall i stack valid errors,
  fst (fst (scan i code stack valid errors)) = [] ->
  snd (scan i code stack valid errors) = errors ->
  closes stack code.
Proof.
  induction code as [|char code IH]; intros i stack valid errors; cbn [scan].
  - cbn. intros -> _. constructor.
  - destruct (closing_of char) as [close|] eqn:Ec.
    { intros H1 H2. eapply closes_cons_open; [exact Ec|]. eapply IH; eassumption. }
    destruct (is_closing char) eqn:En.
    2:{ intros H1 H2. apply closes_cons_other; [assumption..|]. eapply IH; eassumption. }
    destruct stack as [|top stack].
    + intros _ H2.
      destruct (scan_errors code (S i) [] false
                  (errors ++ ["Mismatched bracket at position " +++ string_of_nat i]))
        as (added & E & _).
      rewrite E, <- app_assoc in H2.
      rewrite <- (app_nil_r errors) in H2 at 2. apply app_inv_head in H2. discriminate.
    + destruct (Ascii.eqb_spec top char) as [->|Hne].
      * intros H1 H2. cbn [closes]. exists [], code.
        repeat split; [constructor|]. eapply IH; eassumption.
      * intros _ H2.
        destruct (scan_errors code (S i) stack false
                    (errors ++ ["Mismatched bracket at position " +++ string_of_nat i]))
          as (added & E & _).
        rewrite E, <- app_assoc in H2.
        rewrite <- (app_nil_r errors) in H2 at 2. apply app_inv_head in H2. discriminate.
Qed.

Lemma length_0_nil {A} (l : list A) : (0 <? List.length l) = false -> l = [].
Proof. destruct l; [reflexivity | discriminate]. Qed.

(** Property X9.  [validateSyntax] reports the code valid exactly when its round,
    square and curly brackets are properly nested, and exactly when it
    reports no error. *)
Theorem validateSyntax_balanced (code : string) :
  (sx_valid (validateSyntax code) = true <-> balanced (list_ascii_of_string code)) /\
  (sx_valid (validateSyntax code) = true <-> sx_errors (validateSyntax code) = []).
Proof.
  unfold validateSyntax.
  destruct (scan_errors (list_ascii_of_string code) 0 [] true []) as (added & E & Hv & Hv').
  destruct (scan 0 (list_ascii_of_string code) [] true []) as [[stack valid] errors] eqn:Es.
  cbn [fst snd] in *. cbn [app] in E. subst errors.
  destruct (0 <? List.length stack) eqn:El; cbn [sx_valid sx_errors].
  - split; split; try discriminate.
    + intro Hb. pose proof (scan_balanced _ Hb 0 [] [] true []) as Hs.
      rewrite app_nil_r, Es in Hs. cbn [scan] in Hs. injection Hs as -> _ _. discriminate.
    + intro H. destruct added; discriminate.
  - apply length_0_nil in El. subst stack. split.
    + split.
      * intro H. destruct (Hv H) as [_ ->].
        apply (scan_closes (list_ascii_of_string code) 0 [] true []); rewrite Es; reflexivity.
      * intro Hb. pose proof (scan_balanced _ Hb 0 [] [] true []) as Hs.
        rewrite app_nil_r, Es in Hs. cbn [scan] in Hs. injection Hs as -> ->. reflexivity.
    + split.
      * intro H. apply Hv, H.
      * intro H. apply Hv'; [reflexivity | exact H].
Qed.

End SyntaxFacts.

(** ** The queries of the JavaScript validator, loaded or not *)

Module GuardFacts.
Import JS OutcomeFacts JSValidator JSQueries Exceptions.

Lemma plain_Ok {A} (a : A) : plain (Ok a).
Proof. intros msg; discriminate. Qed.

Lemma plain_TypeError {A} : plain (@Throw A TypeError).
Proof. intros msg; discriminate. Qed.

Lemma plain_Unmodelled {A} : plain (@Unmodelled A).
Proof. intros msg; discriminate. Qed.

Lemma plain_obind {A B} (m : outcome A) (f : A -> outcome B) :
  plain m -> (forall a, plain (f a)) -> plain (obind m f).
Proof.
  intros Hm Hf msg. destruct m as [a|e|]; cbn [obind].
  - apply Hf.
  - intro E. injection E as ->. apply (Hm msg). reflexivity.
  - discriminate.
Qed.

Lemma plain_if {A} (b : bool) (x y : outcome A) : plain x -> plain y -> plain (if b then x else y).
Proof. destruct b; auto. Qed.

Lemma plain_inherited v k : plain (inherited v k).
Proof.
  intros msg. unfold inherited.
  destruct v; repeat match goal with |- context [if ?b then _ else _] => destruct b end;
    discriminate.
Qed.

Lemma plain_get v k : plain (get v k).
Proof.
  unfold get. apply plain_if; [apply plain_TypeError|].
  destruct (assoc k (own_entries v)); [apply plain_Ok | apply plain_inherited].
Qed.

Lemma plain_Object_keys v : plain (Object_keys v).
Proof. unfold Object_keys. apply plain_if; [apply plain_TypeError | apply plain_Ok]. Qed.

Lemma plain_Object_values v : plain (Object_values v).
Proof. unfold Object_values. apply plain_if; [apply plain_TypeError | apply plain_Ok]. Qed.

Lemma plain_omap {A B} (f : A -> outcome B) l : (forall a, plain (f a)) -> plain (omap f l).
Proof.
  intro Hf. induction l as [|x l IH]; cbn [omap]; [apply plain_Ok|].
  apply plain_obind; [apply Hf | intro]. apply plain_obind; [exact IH | intro; apply plain_Ok].
Qed.

Create HintDb plain discriminated.
#[local] Hint Resolve plain_Ok plain_TypeError plain_Unmodelled plain_get plain_Object_keys
  plain_Object_values plain_inherited : plain.
#[local] Hint Extern 2 (plain (obind _ _)) => apply plain_obind; [|intro] : plain.
#[local] Hint Extern 2 (plain (if _ then _ else _)) => apply plain_if : plain.
#[local] Hint Extern 3 (plain (match ?x with _ => _ end)) => destruct x : plain.

Lemma plain_findSimilarObjects data name : plain (findSimilarObjects data name).
Proof. unfold findSimilarObjects. auto 10 with plain. Qed.

Lemma plain_findSimilarKeywords data name : plain (findSimilarKeywords data name).
Proof. unfold findSimilarKeywords. auto 10 with plain. Qed.

Lemma plain_findSimilarMethods object name : plain (findSimilarMethods object name).
Proof. unfold findSimilarMethods. auto 10 with plain. Qed.

Lemma plain_lookup_method object name : plain (lookup_method object name).
Proof. unfold lookup_method. auto 10 with plain. Qed.

#[local] Hint Resolve plain_findSimilarObjects plain_findSimilarKeywords
  plain_findSimilarMethods plain_lookup_method : plain.

Lemma plain_keys_count v : plain (keys_count v).
Proof. unfold keys_count. auto 10 with plain. Qed.

Lemma plain_values_array v : plain (values_array v).
Proof. unfold values_array. auto 10 with plain. Qed.

Lemma plain_keys_array v : plain (keys_array v).
Proof. unfold keys_array. auto 10 with plain. Qed.

Lemma plain_lower_of v : plain (lower_of v).
Proof. unfold lower_of. destruct v; auto with plain. Qed.

#[local] Hint Resolve plain_keys_count plain_values_array plain_keys_array plain_lower_of
  : plain.

Lemma plain_mentions x term : plain (mentions x term).
Proof. unfold mentions. auto 12 with plain. Qed.

#[local] Hint Resolve plain_mentions : plain.

Lemma plain_hits l term literal : (forall x, plain (literal x)) -> plain (hits l term literal).
Proof.
  intro Hl. induction l as [|x l IH]; cbn [hits]; auto 12 with plain.
Qed.

Lemma plain_search_objects objects term : plain (search_objects objects term).
Proof.
  induction objects as [|object objects IH]; cbn [search_objects]; [auto with plain|].
  apply plain_obind; [apply plain_hits; intro; auto 12 with plain | intro].
  apply plain_obind; [auto 12 with plain | intro].
  apply plain_obind; [auto 12 with plain | intro].
  apply plain_obind; [apply plain_hits; intro; auto 12 with plain | intro].
  apply plain_obind; [auto 12 with plain | intro].
  apply plain_obind; [apply plain_hits; intro; auto 12 with plain | intro].
  apply plain_obind; [exact IH | intros [[os ms] ps]; auto with plain].
Qed.

Ltac guard_iff :=
  let H := fresh "H" in
  let Et := fresh "Et" in
  split;
  [ intro H; match goal with |- truthy ?d = false =>
      destruct (truthy d) eqn:Et; [exfalso; revert H; cbn [negb] | reflexivity] end
  | intros ->; reflexivity ].

(** Property X10.  A query of the JavaScript validator throws the "not initialized"
    error exactly when [this.data] holds nothing (it is [null] before
    [initialize]; a false, zero or empty document counts as nothing):
    with a document in place it runs, and whatever it throws then is a
    [TypeError], never that error. *)
Theorem js_not_initialized_iff data name child :
  (validateObject data name = Throw not_initialized <-> truthy data = false) /\
  (validateMethod data name child = Throw not_initialized <-> truthy data = false) /\
  (validateKeyword data name = Throw not_initialized <-> truthy data = false) /\
  (getObjectInfo data name = Throw not_initialized <-> truthy data = false) /\
  (getMethodInfo data name child = Throw not_initialized <-> truthy data = false) /\
  (getCategories data = Throw not_initialized <-> truthy data = false) /\
  (search data name = Throw not_initialized <-> truthy data = false) /\
  (getStats data = Throw not_initialized <-> truthy data = false).
Proof.
  unfold not_initialized.
  repeat match goal with |- _ /\ _ => split end.
  - unfold validateObject. guard_iff.
    match goal with |- ?o = _ -> False => assert (Hp : plain o) by auto 12 with plain end.
    apply Hp.
  - unfold validateMethod. guard_iff.
    match goal with |- ?o = _ -> False => assert (Hp : plain o) by auto 14 with plain end.
    apply Hp.
  - unfold validateKeyword. guard_iff.
    match goal with |- ?o = _ -> False => assert (Hp : plain o) by auto 12 with plain end.
    apply Hp.
  - unfold getObjectInfo. guard_iff.
    match goal with |- ?o = _ -> False => assert (Hp : plain o) by auto 20 with plain end.
    apply Hp.
  - unfold getMethodInfo. guard_iff.
    match goal with |- ?o = _ -> False => assert (Hp : plain o) by auto 14 with plain end.
    apply Hp.
  - unfold getCategories. guard_iff.
    match goal with |- ?o = _ -> False =>
      assert (Hp : plain o)
        by (apply plain_obind; [auto with plain | intro];
            apply plain_obind; [auto with plain | intro];
            apply plain_omap; intro; auto 14 with plain) end.
    apply Hp.
  - unfold search. guard_iff.
    match goal with |- ?o = _ -> False =>
      assert (Hp : plain o)
        by (apply plain_obind; [auto with plain | intro];
            apply plain_obind; [apply plain_search_objects | intros [[os ms] ps]];
            apply plain_obind; [auto with plain | intro];
            apply plain_obind; [apply plain_hits; intro; auto 12 with plain | intro];
            auto with plain) end.
    apply Hp.
  - unfold getStats. guard_iff.
    match goal with |- ?o = _ -> False => assert (Hp : plain o) by auto with plain end.
    apply Hp.
Qed.

(** Property X11.  The information lookups return [null] for exactly the names the
    existence checks reject. *)
Theorem info_null_iff_not_exists data objectName methodName :
  (forall r, validateObject data objectName = Ok r ->
     (o_exists r = false <-> getObjectInfo data objectName = Ok VNull)) /\
  (forall r, validateMethod data objectName methodName = Ok r ->
     (m_exists r = false <-> getMethodInfo data objectName methodName = Ok VNull)).
Proof.
  split.
  - intro r. unfold validateObject, getObjectInfo.
    destruct (truthy data); cbn [negb]; [|discriminate].
    intro H. apply obind_Ok in H. destruct H as (collection & Hc & H).
    apply obind_Ok in H. destruct H as (object & Ho & H).
    apply obind_Ok in H. destruct H as (suggestion & _ & H).
    injection H as <-. rewrite Hc. cbn [obind]. rewrite Ho. cbn [obind o_exists].
    destruct (truthy object); cbn [negb]; [|tauto].
    split; [discriminate|].
    intro H.
    repeat (apply obind_Ok in H; destruct H as (? & _ & H)).
    discriminate.
  - intro r. unfold validateMethod, getMethodInfo.
    destruct (truthy data); cbn [negb]; [|discriminate].
    intro H. apply obind_Ok in H. destruct H as (collection & Hc & H).
    apply obind_Ok in H. destruct H as (object & Ho & H).
    rewrite Hc. cbn [obind]. rewrite Ho. cbn [obind].
    destruct (truthy object); cbn [negb] in *.
    + apply obind_Ok in H. destruct H as (method & Hm & H).
      apply obind_Ok in H. destruct H as (staticMethods & _ & H).
      apply obind_Ok in H. destruct H as (static & _ & H).
      apply obind_Ok in H. destruct H as (suggestion & _ & H).
      injection H as <-. rewrite Hm. cbn [obind m_exists].
      destruct (truthy method); cbn [negb]; [|tauto].
      split; [discriminate|].
      intro H.
      repeat (apply obind_Ok in H; destruct H as (? & _ & H)).
      discriminate.
    + apply obind_Ok in H. destruct H as (suggestion & _ & H).
      injection H as <-. cbn [m_exists]. tauto.
Qed.

Lemma matches_sym s : forall t, matches s t = matches t s.
Proof.
  induction s as [|a s IH]; intros [|b t]; cbn [matches]; try reflexivity.
  rewrite IH, (Ascii.eqb_sym a b). reflexivity.
Qed.

Lemma matches_le s : forall t,
  matches s t <= Nat.min (String.length s) (String.length t).
Proof.
  induction s as [|a s IH]; intros [|b t]; cbn [matches String.length]; try lia.
  specialize (IH t). destruct (Ascii.eqb a b); lia.
Qed.

Lemma matches_full s : forall t,
  matches s t = Nat.max (String.length s) (String.length t) -> s = t.
Proof.
  induction s as [|a s IH]; intros [|b t]; cbn [matches String.length];
    try reflexivity; try discriminate.
  pose proof (matches_le s t) as Hle.
  destruct (Ascii.eqb_spec a b) as [->|]; [|lia].
  intro E. f_equal. apply IH. lia.
Qed.

Lemma matches_refl s : matches s s = String.length s.
Proof.
  induction s as [|a s IH]; cbn [matches String.length]; [reflexivity|].
  rewrite Ascii.eqb_refl, IH. reflexivity.
Qed.

(** Property X12.  The similarity of the JavaScript validator is a quotient between 0
    and 1 that does not depend on the order of the two strings and is 1
    exactly when they are the same. *)
Theorem js_calculateSimilarity_range (str1 str2 : string) :
  calculateSimilarity str1 str2 = calculateSimilarity str2 str1 /\
  (0 <= num (calculateSimilarity str1 str2) <= den (calculateSimilarity str1 str2))%Z /\
  (0 < den (calculateSimilarity str1 str2))%Z /\
  (num (calculateSimilarity str1 str2) = den (calculateSimilarity str1 str2)
   <-> str1 = str2).
Proof.
  unfold calculateSimilarity.
  rewrite (Nat.max_comm (String.length str2)), (matches_sym str2).
  split; [reflexivity|].
  pose proof (matches_le str1 str2) as Hle.
  destruct (Nat.eqb_spec (Nat.max (String.length str1) (String.length str2)) 0) as [E|Hne];
    cbn [num den].
  - split; [lia|]. split; [lia|]. split; [|reflexivity]. intros _.
    destruct str1; [|cbn [String.length] in E; lia].
    destruct str2; [reflexivity | cbn [String.length] in E; lia].
  - split; [lia|]. split; [lia|]. split.
    + intro H. apply matches_full. lia.
    + intros ->. rewrite matches_refl, Nat.max_id. reflexivity.
Qed.

End GuardFacts.

(** ** The index of the HTML validator *)

Module IndexFacts.
Import JS JSArray HTMLValidator HTMLIndex OutcomeFacts HTMLFacts HTMLQueries Index.

Lemma Map_get_set {V} (m : list (value * V)) k v s :
  Map_get (Map_set m k v) (VStr s)
  = if same_key k (VStr s) then Some v else Map_get m (VStr s).
Proof.
  induction m as [|[k0 v0] m IH]; cbn [Map_set Map_get].
  - destruct (same_key k (VStr s)); reflexivity.
  - destruct (same_key k0 k) eqn:E0; cbn [Map_get].
    + apply same_key_eq in E0. subst k0.
      destruct (same_key k (VStr s)); reflexivity.
    + rewrite IH. destruct (same_key k0 (VStr s)) eqn:E1; [|reflexivity].
      destruct (same_key k (VStr s)) eqn:E2; [|reflexivity].
      apply same_key_str in E1, E2. subst. simpl in E0.
      rewrite String.eqb_refl in E0. discriminate.
Qed.

Lemma Map_set_keys {V} (m : list (value * V)) k v k' v' :
  In (k', v') (Map_set m k v) -> k' = k \/ exists v0, In (k', v0) m.
Proof.
  induction m as [|[k0 v0] m IH]; cbn [Map_set].
  - intros [E|[]]. injection E as <- _. left. reflexivity.
  - destruct (same_key k0 k) eqn:E.
    + intros [E'|H].
      * injection E' as <- _. right. exists v0. left. reflexivity.
      * right. exists v'. right. exact H.
    + intros [E'|H].
      * injection E' as <- _. right. exists v0. left. reflexivity.
      * destruct (IH H) as [->|(v1 & H1)]; [left; reflexivity|].
        right. exists v1. right. exact H1.
Qed.

Lemma Map_set_distinct {V} (m : list (value * V)) k v :
  distinct_keys m -> distinct_keys (Map_set m k v).
Proof.
  induction m as [|[k0 v0] m IH]; cbn [Map_set distinct_keys].
  - intros _. split; [intros k' v' [] | exact I].
  - intros [Hk Hm]. destruct (same_key k0 k) eqn:E; cbn [distinct_keys].
    + split; assumption.
    + split; [|apply IH, Hm].
      intros k' v' Hin. apply Map_set_keys in Hin.
      destruct Hin as [->|(v1 & H1)]; [exact E | eapply Hk, H1].
Qed.


Lemma index_step_elements this element this' :
  index_step this element = Ok this' ->
  exists name, get element "name" = Ok name /\
               elements this' = Map_set (elements this) name element.
Proof.
  unfold index_step. intro H.
  apply obind_Ok in H. destruct H as (name & Hname & H).
  apply obind_Ok in H. destruct H as (attrs & Hattrs & H).
  exists name. split; [exact Hname|].
  destruct (truthy attrs).
  - apply obind_Ok in H. destruct H as (attrItems & _ & H).
    pose (this0 := mkValidator (htmlData this) (Map_set (elements this) name element)
                     (attributes this)).
    refine (proj1 (forEach_invariant _ (fun t => elements t = elements this0)
                     (fun _ => True) _ _ _ _ H eq_refl)).
    clear. intros t attr t' Hb Ht. split; [|exact I].
    apply obind_Ok in Hb. destruct Hb as (attrName & _ & Hb).
    apply obind_Ok in Hb. destruct Hb as (elementName & _ & Hb).
    injection Hb as <-. exact Ht.
  - injection H as <-. reflexivity.
Qed.

Lemma find_app {A} (p : A -> bool) l1 l2 :
  find p (l1 ++ l2) = match find p l1 with Some x => Some x | None => find p l2 end.
Proof.
  induction l1 as [|x l1 IH]; simpl; [reflexivity|].
  destruct (p x); [reflexivity | exact IH].
Qed.

Lemma index_loop items : forall this this' s,
  forEach index_step this items = Ok this' ->
  distinct_keys (elements this) ->
  distinct_keys (elements this') /\
  Map_get (elements this') (VStr s)
  = match last_named s items with
    | Some e => Some e
    | None => Map_get (elements this) (VStr s)
    end.
Proof.
  induction items as [|e items IH]; intros this this' s H Hd; cbn [forEach] in H.
  - injection H as <-. split; [exact Hd | reflexivity].
  - apply obind_Ok in H. destruct H as (this1 & H1 & H).
    apply index_step_elements in H1. destruct H1 as (name & Hname & E1).
    assert (Hd1 : distinct_keys (elements this1))
      by (rewrite E1; apply Map_set_distinct, Hd).
    destruct (IH _ _ s H Hd1) as [Hd' Hg]. split; [exact Hd'|].
    rewrite Hg. unfold last_named. cbn [rev]. rewrite find_app.
    destruct (find (named s) (rev items)); [reflexivity|].
    rewrite E1, Map_get_set. cbn [find]. unfold named. rewrite Hname.
    destruct name; cbn [same_key strict_eq_str]; try reflexivity.
    destruct (String.eqb _ _); reflexivity.
Qed.

Lemma new_loop htmlData this items :
  new htmlData = Ok this -> get htmlData "elements" = Ok (VArr items) ->
  forEach index_step (mkValidator htmlData [] []) items = Ok this.
Proof.
  unfold new, _initializeData. cbn [HTMLValidator.htmlData]. intros H Hget.
  rewrite Hget in H.
  destruct (truthy htmlData) eqn:Et.
  - cbn [obind truthy array_items] in H. exact H.
  - exfalso. destruct htmlData as [ | | [] | n | s | | | ]; try discriminate.
    destruct s; [|discriminate]. discriminate.
Qed.


Lemma named_get s e : named s e = true -> get e "name" = Ok (VStr s).
Proof.
  unfold named. destruct (get e "name") as [n| |]; try discriminate.
  destruct n; try discriminate. simpl. intro H. apply String.eqb_eq in H. congruence.
Qed.

(** Property X13.  The index answers for the dataset: a name is valid exactly when some
    element of the dataset is stored under its lower-case form, and the
    element that is returned is the last such element. *)
Theorem index_round_trip htmlData this items elementName :
  new htmlData = Ok this ->
  get htmlData "elements" = Ok (VArr items) ->
  match last_named (toLowerCase elementName) items with
  | Some e =>
      In e items /\ get e "name" = Ok (VStr (toLowerCase elementName)) /\
      validateElement this elementName = Ok (mkElementResult true e []) /\
      getElementInfo this elementName = e
  | None =>
      (forall e, In e items -> get e "name" <> Ok (VStr (toLowerCase elementName))) /\
      getElementInfo this elementName = VNull /\
      forall r, validateElement this elementName = Ok r ->
                isValid r = false /\ element r = VNull
  end.
Proof.
  intros Hnew Hget. pose proof (new_loop _ _ _ Hnew Hget) as Hloop.
  destruct (index_loop items _ _ (toLowerCase elementName) Hloop I) as [_ Hg].
  cbn [elements Map_get] in Hg.
  unfold validateElement, getElementInfo, elements_get. rewrite Hg.
  destruct (last_named (toLowerCase elementName) items) as [e|] eqn:El.
  - unfold last_named in El. apply find_some in El. destruct El as [Hin Hn].
    apply in_rev in Hin. apply named_get in Hn.
    pose proof (named_truthy _ _ Hn) as Ht. unfold or_else. rewrite Ht. cbn [obind].
    auto.
  - split; [|split; [reflexivity|]].
    + intros e Hin Hn. unfold last_named in El.
      assert (Hf : named (toLowerCase elementName) e = false)
        by (apply (find_none _ _ El e); apply in_rev; rewrite rev_involutive; exact Hin).
      unfold named in Hf. rewrite Hn in Hf. simpl in Hf.
      rewrite String.eqb_refl in Hf. discriminate.
    + cbn [truthy]. intros r H. apply obind_Ok in H. destruct H as (l & _ & H).
      injection H as <-. split; reflexivity.
Qed.




End IndexFacts.

(** ** Rules and documents of the CSS validator *)

Module TrimFacts.
Import JS CSSValidator CSSRules RuleShape.

Lemma drop_spaces_spec l :
  exists ws, l = ws ++ drop_spaces l /\ forallb is_space ws = true /\
             match drop_spaces l with
             | c :: _ => is_space c = false
             | [] => True
             end.
Proof.
  induction l as [|c l (ws & E & Hws & Hd)]; cbn [drop_spaces].
  - exists []. auto.
  - destruct (is_space c) eqn:Ec.
    + exists (c :: ws). cbn [app forallb]. rewrite Ec, Hws. split; [f_equal; exact E | auto].
    + exists []. cbn [app forallb]. auto.
Qed.

(** A text is its trimmed form between two runs of white space. *)
Lemma trim_spec l :
  exists ws1 ws2,
    l = ws1 ++ trim l ++ ws2 /\
    forallb is_space ws1 = true /\ forallb is_space ws2 = true /\
    match trim l with
    | c :: _ => is_space c = false /\ is_space (last (trim l) " "%char) = false
    | [] => True
    end.
Proof.
  unfold trim.
  destruct (drop_spaces_spec l) as (ws1 & E1 & H1 & Hd1).
  destruct (drop_spaces_spec (rev (drop_spaces l))) as (ws2 & E2 & H2 & Hd2).
  exists ws1, (rev ws2). split; [|split; [exact H1|split]].
  - rewrite E1 at 1. f_equal.
    rewrite <- rev_app_distr, <- E2, rev_involutive. reflexivity.
  - rewrite forallb_forall in *. intros x Hx. apply H2. apply in_rev. exact Hx.
  - set (d := drop_spaces (rev (drop_spaces l))) in *.
    destruct (rev d) as [|c t] eqn:Er; [exact I|].
    assert (Ed : d = rev (c :: t)) by (rewrite <- Er, rev_involutive; reflexivity).
    split.
    + (* the head of [rev d] is the last character of [drop_spaces l] *)
      destruct (drop_spaces l) as [|x dl] eqn:Edl.
      * cbn [rev] in E2. destruct d; [discriminate Er|]. destruct ws2; discriminate E2.
      * assert (Hrev : rev (x :: dl) = ws2 ++ d) by exact E2.
        apply (f_equal (@rev ascii)) in Hrev. rewrite rev_involutive, rev_app_distr, Er in Hrev.
        injection Hrev as -> _. exact Hd1.
    + rewrite Ed in Hd2. cbn [rev] in Hd2.
      destruct (rev t ++ [c]) as [|y r] eqn:Ert; [destruct (rev t); discriminate|].
      assert (El : last (c :: t) " "%char = y).
      { rewrite <- (rev_involutive (c :: t)). cbn [rev]. rewrite Ert.
        cbn [rev]. apply last_last. }
      rewrite El. exact Hd2.
Qed.

Lemma drop_spaces_fixed c l : is_space c = false -> drop_spaces (c :: l) = c :: l.
Proof. intro H. cbn [drop_spaces]. rewrite H. reflexivity. Qed.

(** A text with no white space at either end is its own trimmed form. *)
Lemma trim_fixed l :
  match l with
  | c :: _ => is_space c = false /\ is_space (last l " "%char) = false
  | [] => True
  end -> trim l = l.
Proof.
  destruct l as [|c l]; [reflexivity|]. intros [Hc Hl]. unfold trim.
  rewrite (drop_spaces_fixed _ _ Hc).
  destruct (rev (c :: l)) as [|y r] eqn:Er.
  - cbn [rev] in Er. destruct (rev l); discriminate.
  - assert (El : last (c :: l) " "%char = y).
    { rewrite <- (rev_involutive (c :: l)), Er. cbn [rev]. apply last_last. }
    rewrite El in Hl. rewrite (drop_spaces_fixed _ _ Hl), <- Er.
    apply rev_involutive.
Qed.

Lemma trim_idempotent l : trim (trim l) = trim l.
Proof.
  destruct (trim_spec l) as (ws1 & ws2 & _ & _ & _ & H). apply trim_fixed, H.
Qed.

Lemma occurrences_app c l1 l2 :
  occurrences c (l1 ++ l2) = occurrences c l1 + occurrences c l2.
Proof. apply count_occ_app. Qed.

Lemma occurrences_white c ws :
  is_space c = false -> forallb is_space ws = true -> occurrences c ws = 0.
Proof.
  intros Hc Hws. apply count_occ_not_In. intro Hin.
  rewrite forallb_forall in Hws. rewrite (Hws _ Hin) in Hc. discriminate.
Qed.

Lemma occurrences_trim c l : is_space c = false -> occurrences c (trim l) = occurrences c l.
Proof.
  intro Hc. destruct (trim_spec l) as (ws1 & ws2 & E & H1 & H2 & _).
  rewrite E at 2. rewrite !occurrences_app.
  rewrite (occurrences_white c ws1 Hc H1), (occurrences_white c ws2 Hc H2). lia.
Qed.

Lemma last_trim l c :
  is_space c = false -> last l " "%char = c -> l <> [] ->
  last (trim l) " "%char = c /\ trim l <> [].
Proof.
  intros Hc Hl Hne. destruct (trim_spec l) as (ws1 & ws2 & E & H1 & H2 & _).
  assert (Hw2 : ws2 = []).
  { destruct ws2 as [|w ws2] using rev_ind; [reflexivity|].
    exfalso. rewrite E, !app_assoc, last_last in Hl. subst w.
    rewrite forallb_app in H2. cbn in H2. rewrite Hc in H2.
    rewrite andb_comm in H2. discriminate. }
  subst ws2. rewrite app_nil_r in E.
  destruct (trim l) as [|x t] eqn:Et.
  - exfalso. rewrite app_nil_r in E. subst l.
    destruct ws1 as [|w ws1] using rev_ind; [contradiction|].
    rewrite last_last in Hl. subst w.
    rewrite forallb_app in H1. cbn in H1. rewrite Hc in H1.
    rewrite andb_comm in H1. discriminate.
  - split; [|discriminate]. rewrite <- Hl, E.
    clear. induction ws1 as [|w ws1 IH]; [reflexivity|].
    cbn [app]. rewrite IH. destruct (ws1 ++ x :: t) eqn:E; [|reflexivity].
    destruct ws1; discriminate.
Qed.

End TrimFacts.

Module RuleFacts.
Import JS OutcomeFacts CSSValidator CSSRules RuleShape TrimFacts.

Lemma last_snoc (l : text) c d : last (l ++ [c]) d = c.
Proof. apply last_last. Qed.

(** What the loop of [extractCSSRules] keeps true: the count is the
    excess of opening over closing braces in the rule being collected,
    and the rules found are well formed. *)
Lemma collect_invariant l : forall braceCount currentRule rules,
  braceCount = (Z.of_nat (occurrences "{"%char currentRule)
                - Z.of_nat (occurrences "}"%char currentRule))%Z ->
  Forall well_braced rules ->
  Forall well_braced (collect l braceCount currentRule rules).
Proof.
  induction l as [|char l IH]; intros braceCount currentRule rules Hc Hr; cbn [collect].
  - exact Hr.
  - destruct (Ascii.eqb_spec char "{"%char) as [->|Hno].
    + apply IH; [|exact Hr]. rewrite !occurrences_app. cbn. lia.
    + destruct (Ascii.eqb_spec char "}"%char) as [->|Hnc].
      * destruct ((braceCount - 1 =? 0)%Z
                  && negb (0 =? List.length (trim (currentRule ++ ["}"%char])))) eqn:Et.
        -- apply andb_true_iff in Et. destruct Et as [Ez _]. apply Z.eqb_eq in Ez.
           apply IH; [cbn; lia|].
           apply Forall_app. split; [exact Hr|]. constructor; [|constructor].
           destruct (last_trim (currentRule ++ ["}"%char]) "}"%char eq_refl
                       (last_snoc _ _ _)) as [Hl Hne];
             [destruct currentRule; discriminate|].
           split; [exact Hne|]. split; [apply trim_idempotent|]. split; [exact Hl|].
           rewrite !occurrences_trim by reflexivity.
           rewrite !occurrences_app. cbn. lia.
        -- apply IH; [|exact Hr]. rewrite !occurrences_app. cbn. lia.
      * apply IH; [|exact Hr]. rewrite !occurrences_app. cbn.
        destruct (ascii_dec char "{"%char); [contradiction|].
        destruct (ascii_dec char "}"%char); [contradiction|]. lia.
Qed.

Lemma collect_no_close l : forall braceCount currentRule rules,
  occurrences "}"%char l = 0 -> collect l braceCount currentRule rules = rules.
Proof.
  induction l as [|char l IH]; intros braceCount currentRule rules H; cbn [collect];
    [reflexivity|].
  unfold occurrences in H. cbn [count_occ] in H.
  destruct (ascii_dec char "}"%char) as [->|Hne]; [discriminate|].
  destruct (Ascii.eqb_spec char "{"%char); [apply IH, H|].
  destruct (Ascii.eqb_spec char "}"%char); [contradiction | apply IH, H].
Qed.

Lemma strip_comments_bounded n : forall l inside c,
  List.length l <= n -> In c (strip_comments inside l) -> In c l.
Proof.
  induction n as [|n IH]; intros l inside c Hn.
  - destruct l; [intros [] | cbn in Hn; lia].
  - destruct l as [|x l]; [intros []|]. cbn [List.length] in Hn.
    cbn [strip_comments]. destruct inside.
    + destruct l as [|y l']; [intros []|]. cbn [List.length] in Hn.
      destruct (Ascii.eqb x "*"%char && Ascii.eqb y "/"%char).
      * intro H. right. right. apply (IH l') in H; [exact H | lia].
      * intro H. right. apply (IH (y :: l')) in H; [exact H | cbn; lia].
    + destruct l as [|y l']; [intro H; exact H|]. cbn [List.length] in Hn.
      destruct (Ascii.eqb x "/"%char && Ascii.eqb y "*"%char && has_close l').
      * intro H. right. right. apply (IH l') in H; [exact H | lia].
      * intros [<-|H]; [left; reflexivity|].
        right. apply (IH (y :: l')) in H; [exact H | cbn; lia].
Qed.

Lemma strip_comments_subset l inside c : In c (strip_comments inside l) -> In c l.
Proof. apply (strip_comments_bounded (List.length l)). lia. Qed.

(** Property X15.  Every rule that [extractCSSRules] returns is well formed: it is not
    empty, has no white space at either end, ends with a closing brace
    and has as many opening as closing braces, at least one of each. *)
Theorem extractCSSRules_well_braced (cssContent rule : text) :
  In rule (extractCSSRules cssContent) ->
  well_braced rule /\ 1 <= occurrences "{"%char rule.
Proof.
  unfold extractCSSRules. intro H. apply filter_In in H. destruct H as [H _].
  pose proof (collect_invariant (strip_comments false cssContent) 0 [] [] eq_refl
                (Forall_nil _)) as Hall.
  rewrite Forall_forall in Hall. specialize (Hall _ H).
  split; [exact Hall|].
  destruct Hall as (Hne & _ & Hl & Hc). rewrite Hc.
  destruct rule as [|c rule] using rev_ind; [contradiction|].
  rewrite last_last in Hl. subst c. rewrite occurrences_app. cbn. lia.
Qed.

Lemma split_length c l : List.length (split c l) = S (occurrences c l).
Proof.
  induction l as [|x l IH]; [reflexivity|].
  cbn [split]. unfold occurrences in *. cbn [count_occ].
  destruct (Ascii.eqb_spec x c) as [->|Hne].
  - destruct (ascii_dec c c); [|contradiction]. cbn [List.length]. rewrite IH. reflexivity.
  - destruct (ascii_dec x c); [contradiction|].
    destruct (split c l); [discriminate|]. exact IH.
Qed.

Lemma each_declaration_errors data decls : forall result o result',
  each_declaration data decls result = (o, result') ->
  exists added,
    r_errors result' = r_errors result ++ added /\
    r_valid result' = r_valid result /\
    forall e, In e added -> exists d, e = Text ("Invalid declaration: " +++ d).
Proof.
  induction decls as [|decl decls IH]; intros result o result' H; cbn [each_declaration] in H.
  - injection H as <- <-. exists []. rewrite app_nil_r. repeat split. intros e [].
  - destruct (cut ":"%char decl) as [[before after]|].
    + destruct (validateProperty data (to_string (trim before))) as [pv|e|].
      * apply IH in H. exact H.
      * injection H as <- <-. exists []. rewrite app_nil_r. repeat split. intros e' [].
      * injection H as <- <-. exists []. rewrite app_nil_r. repeat split. intros e' [].
    + apply IH in H. cbn [r_errors r_valid] in H. destruct H as (added & E & Hv & Ha).
      eexists. rewrite E, <- app_assoc. split; [reflexivity|]. split; [exact Hv|].
      intros e [<-|Hin]; [eauto | apply Ha, Hin].
Qed.

(** Property X16.  [validateRule] answers [Invalid CSS rule format], and nothing else,
    exactly for the rules that, once trimmed, do not have exactly one
    opening brace; it does so without a look at the dataset. *)
Theorem validateRule_format data (cssRule : text) :
  (occurrences "{"%char (trim cssRule) <> 1 ->
   validateRule data cssRule
   = Ok (mkRuleResult false [Text "Invalid CSS rule format"] [] None [])) /\
  (occurrences "{"%char (trim cssRule) = 1 ->
   forall result, validateRule data cssRule = Ok result ->
     ~ In (Text "Invalid CSS rule format") (r_errors result)).
Proof.
  unfold validateRule.
  pose proof (split_length "{"%char (trim cssRule)) as Hlen.
  destruct (split "{"%char (trim cssRule)) as [|first [|second [|third rest]]];
    cbn [List.length] in Hlen.
  - discriminate.
  - split; [reflexivity | intro E; lia].
  - split; [intro Hne; lia|]. intros _ result.
    unfold rule_body.
    destruct (validateSelector data (to_string (trim first))) as [selector|e|].
    + set (r0 := mkRuleResult _ _ _ _ _).
      destruct (0 <? List.length (trim (remove_first "}"%char second))).
      * destruct (each_declaration data _ r0) as [o r1] eqn:Ed.
        apply each_declaration_errors in Ed. destruct Ed as (added & E & _ & Ha).
        cbn [r_errors app] in E.
        destruct o as [[]|e|]; [| |discriminate]; intros [= <-]; cbn [r_errors]; rewrite E.
        -- intro Hin. destruct (Ha _ Hin) as (d & Hd). discriminate.
        -- intro Hin. apply in_app_or in Hin. destruct Hin as [Hin|[Hin|[]]];
             [destruct (Ha _ Hin) as (d & Hd) |]; discriminate.
      * intros [= <-]. cbn. tauto.
    + intros [= <-]. cbn. intros [H|[]]. discriminate.
    + discriminate.
  - split; [reflexivity | intro E; lia].
Qed.

End RuleFacts.

Module DocumentFacts.
Import JS OutcomeFacts CSSValidator CSSRules RuleShape TrimFacts RuleFacts.

Lemma validateRule_valid data cssRule result :
  validateRule data cssRule = Ok result -> r_errors result = [] -> r_valid result = true.
Proof.
  unfold validateRule.
  destruct (split "{"%char (trim cssRule)) as [|first [|second [|third rest]]];
    try (intros [= <-]; discriminate).
  unfold rule_body.
  destruct (validateSelector data (to_string (trim first))) as [selector|e|].
  - set (r0 := mkRuleResult _ _ _ _ _).
    destruct (0 <? List.length (trim (remove_first "}"%char second))).
    + destruct (each_declaration data _ r0) as [o r1] eqn:Ed.
      apply each_declaration_errors in Ed. destruct Ed as (added & _ & Hv & _).
      destruct o as [[]|e|]; [| |discriminate]; intros [= <-]; cbn [r_errors r_valid].
      * intros _. exact Hv.
      * intro H. destruct (r_errors r1); discriminate.
    + intros [= <-] _. reflexivity.
  - intros [= <-]. discriminate.
  - discriminate.
Qed.

Lemma set_add_length x set :
  List.length (set_add x set) <= S (List.length set).
Proof.
  unfold set_add. destruct (mem x set); [lia|]. rewrite length_app. cbn. lia.
Qed.

Lemma count_declarations_sound decls : forall stats,
  sound stats ->
  sound (fold_left count_declaration decls stats) /\
  totalRules (fold_left count_declaration decls stats) = totalRules stats /\
  validRules (fold_left count_declaration decls stats) = validRules stats.
Proof.
  induction decls as [|d decls IH]; intros stats Hs; cbn [fold_left]; [auto|].
  destruct (IH (count_declaration stats d)) as (H1 & H2 & H3).
  - destruct Hs as (A & B & C & D). unfold sound, count_declaration. cbn.
    pose proof (set_add_length (d_property d) (uniqueProperties stats)).
    destruct (d_propertyValid d); repeat split; lia.
  - split; [exact H1|]. split; [rewrite H2 | rewrite H3]; reflexivity.
Qed.

Lemma count_rule_sound stats r :
  sound stats ->
  sound (count_rule stats r) /\
  totalRules (count_rule stats r) = S (totalRules stats) /\
  validRules (count_rule stats r)
  = validRules stats + (if counted r then 1 else 0).
Proof.
  intro Hs. unfold count_rule.
  match goal with |- context [fold_left _ _ ?s] => set (stats1 := s) end.
  destruct (count_declarations_sound (r_declarations r) stats1) as (H1 & H2 & H3).
  - destruct Hs as (A & B & C & D). unfold sound, stats1. cbn.
    assert (Hsel : List.length
              (match r_selector r with
               | Some selector =>
                   if negb (s_selector selector =? "")%string
                   then set_add (s_selector selector) (uniqueSelectors stats)
                   else uniqueSelectors stats
               | None => uniqueSelectors stats
               end) <= S (List.length (uniqueSelectors stats))).
    { destruct (r_selector r) as [sel|]; [|lia].
      destruct (negb _); [apply set_add_length | lia]. }
    destruct (r_valid r && (List.length (r_errors r) =? 0)); repeat split; lia.
  - split; [exact H1|]. rewrite H2, H3. unfold stats1, counted. cbn.
    destruct (r_valid r && (List.length (r_errors r) =? 0)); split; lia.
Qed.

Lemma each_rule_spec data rules : forall index done stats done' stats',
  each_rule data rules index done stats = Ok (done', stats') ->
  sound stats ->
  exists results,
    List.length results = List.length rules /\
    map snd done' = map snd done ++ results /\
    Forall (fun r => r_errors r = [] -> r_valid r = true) results /\
    sound stats' /\
    totalRules stats' = totalRules stats + List.length results /\
    validRules stats' = validRules stats + List.length (filter counted results).
Proof.
  induction rules as [|rule rules IH]; intros index done stats done' stats' H Hs;
    cbn [each_rule] in H.
  - injection H as <- <-. exists []. rewrite app_nil_r. cbn [List.length filter].
    split; [reflexivity|]. split; [reflexivity|]. split; [constructor|].
    split; [exact Hs|]. split; lia.
  - apply obind_Ok in H. destruct H as (r & Hr & H).
    destruct (count_rule_sound stats r Hs) as (Hs1 & Ht1 & Hv1).
    destruct (IH _ _ _ _ _ H Hs1) as (results & Hlen & Hd & Hall & Hs' & Ht & Hv).
    exists (r :: results). cbn [List.length filter]. split; [lia|]. split.
    + rewrite Hd, map_app, <- app_assoc. reflexivity.
    + split; [constructor; [apply (validateRule_valid _ _ _ Hr) | exact Hall]|].
      split; [exact Hs'|]. rewrite Ht, Hv, Ht1, Hv1.
      destruct (counted r); cbn [List.length]; split; lia.
Qed.

Lemma flat_map_snd {A B C} (f : B -> list C) (l : list (A * B)) :
  flat_map (fun r => f (snd r)) l = flat_map f (map snd l).
Proof. induction l as [|x l IH]; cbn; [reflexivity | rewrite IH; reflexivity]. Qed.

Lemma flat_map_nil_iff {A B} (f : A -> list B) l :
  flat_map f l = [] <-> Forall (fun x => f x = []) l.
Proof.
  induction l as [|x l IH]; cbn; [split; auto|].
  split.
  - intro H. apply app_eq_nil in H. destruct H as [Hx Hl]. constructor; [exact Hx | apply IH, Hl].
  - intro H. inversion H as [|? ? Hx Hl]; subst. rewrite Hx. apply IH, Hl.
Qed.

Lemma filter_all_length {A} (p : A -> bool) l :
  List.length (filter p l) = List.length l <-> Forall (fun x => p x = true) l.
Proof.
  induction l as [|x l IH]; cbn [filter List.length]; [split; auto|].
  pose proof (filter_length_le p l) as Hle.
  destruct (p x) eqn:Ex; cbn [List.length].
  - split.
    + intro H. constructor; [exact Ex | apply IH; lia].
    + intro H. inversion H; subst. f_equal. apply IH. assumption.
  - split; [lia|]. intro H. inversion H; subst. congruence.
Qed.

(** Property X17.  The result of [validateCSS]: the document is valid exactly when no
    rule has an error, which is exactly when every rule counts as valid;
    every extracted rule is counted, and no count of valid or distinct
    items exceeds the total it is taken from. *)
Theorem validateCSS_statistics data (cssContent : text) r :
  validateCSS data cssContent = Ok r ->
  (c_valid r = true <-> c_errors r = []) /\
  (c_valid r = true <-> c_validRules r = c_totalRules r) /\
  c_totalRules r = List.length (extractCSSRules cssContent) /\
  List.length (c_rules r) = c_totalRules r /\
  c_validRules r <= c_totalRules r /\
  c_validProperties r <= c_totalProperties r /\
  c_uniqueProperties r <= c_totalProperties r /\
  c_uniqueSelectors r <= c_totalRules r.
Proof.
  unfold validateCSS. intro H.
  apply obind_Ok in H. destruct H as ([done stats] & Hloop & H). injection H as <-.
  cbn [c_valid c_errors c_validRules c_totalRules c_rules c_validProperties
       c_totalProperties c_uniqueProperties c_uniqueSelectors].
  assert (Hs0 : sound (mkStatistics 0 0 0 0 [] [])) by (unfold sound; cbn; lia).
  destruct (each_rule_spec _ _ _ _ _ _ _ Hloop Hs0)
    as (results & Hlen & Hd & Hall & (A & B & C & D) & Ht & Hv).
  cbn [map app totalRules validRules] in Hd, Ht, Hv.
  assert (Hvalid : (List.length (flat_map (fun r => r_errors (snd r)) done) =? 0) = true
                   <-> flat_map (fun r => r_errors (snd r)) done = []).
  { rewrite Nat.eqb_eq. split; [apply length_zero_iff_nil | intros ->; reflexivity]. }
  split; [exact Hvalid|]. split.
  - rewrite Hvalid, flat_map_snd, Hd, flat_map_nil_iff, Hv, Ht.
    cbn [Nat.add]. rewrite filter_all_length.
    split; intro HF; rewrite Forall_forall in *; intros x Hx.
    + unfold counted. rewrite (Hall x Hx (HF x Hx)), (HF x Hx). reflexivity.
    + specialize (HF x Hx). unfold counted in HF. apply andb_true_iff in HF.
      destruct HF as [_ HF]. apply Nat.eqb_eq, length_zero_iff_nil in HF. exact HF.
  - split; [lia|]. split; [|lia].
    rewrite <- (length_map snd), Hd. lia.
Qed.

End DocumentFacts.

(** ** The properties at work on the sample data *)

Module MoreInstances.
Import JS.

(** A selector with a child combinator is reported as [descendant]. *)
Lemma validateSelector_never_combinator_witness :
  CSSValidator.validateSelector Examples.css_two_properties "div > p"
  = Ok (CSSValidator.mkSelectorResult true "div > p" (VStr "descendant") VNull VNull [])
  /\ VStr "descendant" <> VStr "child"
  /\ VStr "descendant" <> VStr "adjacent-sibling"
  /\ VStr "descendant" <> VStr "general-sibling".
Proof.
  assert (H : CSSValidator.validateSelector Examples.css_two_properties "div > p"
              = Ok (CSSValidator.mkSelectorResult true "div > p" (VStr "descendant")
                      VNull VNull []))
    by (vm_compute; reflexivity).
  split; [exact H|].
  exact (SelectorFacts.validateSelector_never_combinator _ _ _ H).
Defined.

(** Two combinators in a row are accepted. *)
Lemma validateSelector_spaced_witness :
  CSSValidator.validateSelector Examples.css_two_properties "div > > p"
  = Ok (CSSValidator.mkSelectorResult true "div > > p" (VStr "descendant") VNull VNull [])
  /\ true = true /\ @nil string = [].
Proof.
  assert (H : CSSValidator.validateSelector Examples.css_two_properties "div > > p"
              = Ok (CSSValidator.mkSelectorResult true "div > > p" (VStr "descendant")
                      VNull VNull []))
    by (vm_compute; reflexivity).
  split; [exact H|].
  refine (SelectorFacts.validateSelector_spaced _ _ _
            (list_ascii_of_string "div") (list_ascii_of_string "> > p") H _ _ _ _).
  - vm_compute. reflexivity.
  - discriminate.
  - discriminate.
  - vm_compute. reflexivity.
Defined.

(** [DIV] resolves to the second record stored as [div]. *)
Lemma index_round_trip_witness :
  HTMLValidator.new Samples.html_page = Ok Samples.html_page_validator /\
  In Samples.html_block_again
     [Samples.html_block; Samples.html_inline; Samples.html_block_again] /\
  get Samples.html_block_again "name" = Ok (VStr "div") /\
  HTMLValidator.validateElement Samples.html_page_validator "DIV"
  = Ok (HTMLValidator.mkElementResult true Samples.html_block_again []) /\
  HTMLQueries.getElementInfo Samples.html_page_validator "DIV" = Samples.html_block_again.
Proof.
  assert (H1 : HTMLValidator.new Samples.html_page = Ok Samples.html_page_validator)
    by (vm_compute; reflexivity).
  split; [exact H1|].
  exact (IndexFacts.index_round_trip Samples.html_page Samples.html_page_validator
           [Samples.html_block; Samples.html_inline; Samples.html_block_again] "DIV"
           H1 eq_refl).
Defined.


(** The nested block of the sample sheet is one rule with two opening
    braces. *)
Lemma extractCSSRules_well_braced_witness :
  In (list_ascii_of_string "@media { a { zb: 3 } }")
     (CSSRules.extractCSSRules Samples.style_sheet) /\
  RuleShape.well_braced (list_ascii_of_string "@media { a { zb: 3 } }") /\
  1 <= RuleShape.occurrences "{"%char (list_ascii_of_string "@media { a { zb: 3 } }").
Proof.
  assert (H : In (list_ascii_of_string "@media { a { zb: 3 } }")
                (CSSRules.extractCSSRules Samples.style_sheet))
    by (vm_compute; right; right; left; reflexivity).
  split; [exact H|].
  exact (RuleFacts.extractCSSRules_well_braced _ _ H).
Defined.

(** The sample sheet: three rules, two of them valid, the nested block
    rejected. *)
Lemma validateCSS_statistics_witness :
  exists r,
    CSSRules.validateCSS Examples.css_two_properties Samples.style_sheet = Ok r /\
    CSSRules.c_totalRules r = 3 /\ CSSRules.c_validRules r = 2 /\
    CSSRules.c_valid r = false /\
    (CSSRules.c_valid r = true <-> CSSRules.c_validRules r = CSSRules.c_totalRules r).
Proof.
  destruct (CSSRules.validateCSS Examples.css_two_properties Samples.style_sheet)
    as [r| |] eqn:E; try (vm_compute in E; discriminate).
  exists r. split; [reflexivity|].
  pose proof (DocumentFacts.validateCSS_statistics _ _ _ E) as H.
  assert (Hr : Ok r = CSSRules.validateCSS Examples.css_two_properties Samples.style_sheet)
    by (symmetry; exact E).
  vm_compute in Hr. injection Hr as ->.
  split; [reflexivity|]. split; [reflexivity|]. split; [reflexivity|].
  exact (proj1 (proj2 H)).
Defined.

End MoreInstances.

(** ** What a dataset that passes the validation looks like *)

Module AssuranceFacts.
Import JS Run Growth Totals Consistency OutcomeFacts RunFacts JSData HTMLFacts
  MetadataFacts ConsistencyFacts Assurance.

Lemma ensures_weaken {A} (m : M A) (Q Q' : value -> A -> Prop) :
  ensures m Q -> (forall d a, Q d a -> Q' d a) -> ensures m Q'.
Proof.
  intros H HQ st a st' Hr. destruct (H _ _ _ Hr) as (added & G & Ha).
  exists added. split; [exact G | intro E; apply HQ, Ha, E].
Qed.

Lemma ensures_quiet {A} (m : M A) : quiet silent m -> ensures m (fun _ _ => True).
Proof.
  intros H st a st' Hr. destruct (H _ _ _ Hr) as (added & G & _).
  exists added. split; [exact G | auto].
Qed.

Lemma ensures_ret {A} (a : A) (Q : value -> A -> Prop) :
  (forall d, Q d a) -> ensures (ret a) Q.
Proof.
  intros HQ st b st' [= <- <-]. exists []. split; [apply grows_refl | intros _; apply HQ].
Qed.

Lemma ensures_push_error msg (Q : value -> unit -> Prop) : ensures (push_error msg) Q.
Proof.
  intros st a st' [= <- <-]. exists [msg]. split; [split; reflexivity | discriminate].
Qed.

Lemma ensures_bind {A B} (m : M A) (f : A -> M B) Q1 (R : value -> B -> Prop) :
  ensures m Q1 ->
  (forall a, ensures (f a) (fun d b => Q1 d a -> R d b)) ->
  ensures (bind m f) R.
Proof.
  intros Hm Hf st b st' H. apply bind_Ok in H. destruct H as (a & st1 & H1 & H2).
  destruct (Hm _ _ _ H1) as (l1 & G1 & Q1a). destruct (Hf a _ _ _ H2) as (l2 & G2 & Q2a).
  exists (l1 ++ l2). split; [eapply grows_trans; eassumption|].
  intro E. apply app_eq_nil in E. destruct E as [-> ->].
  destruct G1 as [D1 _]. rewrite D1 in Q2a. apply Q2a; [reflexivity | apply Q1a; reflexivity].
Qed.

(** The common shapes of a step. *)
Lemma ensures_skip {A B} (m : M A) (f : A -> M B) (R : value -> B -> Prop) :
  quiet silent m -> (forall a, ensures (f a) R) -> ensures (bind m f) R.
Proof.
  intros Hm Hf. eapply ensures_bind; [apply ensures_quiet, Hm|].
  intro a. eapply ensures_weaken; [apply Hf | auto].
Qed.

Lemma ensures_read {A B} (o : outcome A) (f : A -> M B) (R : value -> B -> Prop) :
  (forall a, o = Ok a -> ensures (f a) R) -> ensures (bind (lift o) f) R.
Proof.
  intros Hf st b st' H. apply bind_Ok in H. destruct H as (a & st1 & H1 & H2).
  apply lift_Ok in H1. destruct H1 as [E ->]. exact (Hf a E _ _ _ H2).
Qed.

Lemma ensures_data {B} (f : value -> M B) (R : value -> B -> Prop) :
  (forall d0, ensures (f d0) (fun d b => d = d0 -> R d b)) ->
  ensures (bind this_data f) R.
Proof.
  intros Hf st b st' H. apply bind_Ok in H. destruct H as (a & st1 & H1 & H2).
  injection H1 as <- <-. destruct (Hf _ _ _ _ H2) as (added & G & Q).
  exists added. split; [exact G | intro E; apply Q; [exact E | reflexivity]].
Qed.

Lemma ensures_then {A B} (m : M A) (f : A -> M B) Q1 Q2 (R : value -> B -> Prop) :
  ensures m Q1 -> (forall a, ensures (f a) Q2) ->
  (forall d a b, Q1 d a -> Q2 d b -> R d b) ->
  ensures (bind m f) R.
Proof.
  intros Hm Hf HR. eapply ensures_bind; [exact Hm|].
  intro a. eapply ensures_weaken; [apply Hf|]. intros d b H2 H1. eapply HR; eassumption.
Qed.

Lemma ensures_last {A B} (m : M A) (f : A -> M B) Q1 (R : value -> B -> Prop) :
  ensures m Q1 -> (forall a, quiet silent (f a)) ->
  (forall d a b, Q1 d a -> R d b) ->
  ensures (bind m f) R.
Proof.
  intros Hm Hf HR. eapply ensures_then; [exact Hm | intro a; apply ensures_quiet, Hf|].
  intros d a b H1 _. eapply HR, H1.
Qed.

Lemma ensures_unless (b : bool) (m : M unit) :
  ensures m (fun _ _ => False) -> ensures (when b m) (fun _ _ => b = false).
Proof.
  intro H. destruct b; cbn [when].
  - eapply ensures_weaken; [exact H | contradiction].
  - apply ensures_ret. reflexivity.
Qed.

Lemma ensures_report {A} (o : outcome A) (f : A -> string) :
  ensures (bind (lift o) (fun a => push_error (f a))) (fun _ _ => False).
Proof. apply ensures_read. intros a _. apply ensures_push_error. Qed.

Lemma ensures_forEach {A} (f : A -> M unit) (Q : A -> value -> Prop) l :
  (forall x, In x l -> ensures (f x) (fun d _ => Q x d)) ->
  ensures (forEach f l) (fun d _ => forall x, In x l -> Q x d).
Proof.
  induction l as [|x l IH]; intro Hf; cbn [forEach].
  - apply ensures_ret. intros d y [].
  - eapply ensures_then.
    + apply (Hf x). left. reflexivity.
    + intros _. apply IH. intros y Hy. apply Hf. right. exact Hy.
    + cbv beta. intros d a b Hx Hl y [<-|Hy]; [exact Hx | apply Hl, Hy].
Qed.

Lemma ensures_foldM {A S} (f : S -> A -> M S) (Q : A -> value -> Prop) l :
  (forall s x, In x l -> ensures (f s x) (fun d _ => Q x d)) ->
  forall s, ensures (foldM f s l) (fun d _ => forall x, In x l -> Q x d).
Proof.
  induction l as [|x l IH]; intros Hf s; cbn [foldM].
  - apply ensures_ret. intros d y [].
  - eapply ensures_then.
    + apply (Hf s x). left. reflexivity.
    + intros s'. apply IH. intros s0 y Hy. apply Hf. right. exact Hy.
    + cbv beta. intros d a b Hx Hl y [<-|Hy]; [exact Hx | apply Hl, Hy].
Qed.

(** Checks that only add to the lists. *)
Ltac mono :=
  repeat first
    [ apply quiet_ret | apply quiet_lift | apply quiet_this_data
    | apply quiet_push_warning
    | apply quiet_push_error; reflexivity
    | apply quiet_when | apply quiet_if
    | apply quiet_bind; [|intro]
    | apply quiet_forEach; intro
    | apply quiet_foldM; intros
    | progress cbv beta
    | match goal with |- quiet _ (let '(_, _) := ?x in _) => destruct x end
    | progress unfold check_member, short_description, dangling_category, check_total,
        count_methods, check_references, check_duplicates, check_empty ].

Lemma strict_eq_str_eq v s : strict_eq_str v s = true -> v = VStr s.
Proof.
  destruct v; try discriminate. simpl. intro H. apply String.eqb_eq in H. congruence.
Qed.

Lemma strict_eq_num_eq v n : strict_eq_num v n = true -> v = VNum n.
Proof.
  destruct v; try discriminate. simpl. intro H. apply Z.eqb_eq in H. congruence.
Qed.

Lemma ensures_when (b : bool) (m : M unit) (Q : value -> unit -> Prop) :
  ensures m Q -> ensures (when b m) (fun d u => b = true -> Q d u).
Proof.
  intro H. destruct b; cbn [when].
  - eapply ensures_weaken; [exact H | auto].
  - apply ensures_ret. discriminate.
Qed.

(** ** What each check of the JavaScript data validator ensures *)

Lemma check_member_ensures objectName kind mismatch methodName method :
  ensures (check_member objectName kind mismatch methodName method)
    (fun _ _ => member_ok methodName method).
Proof.
  unfold check_member, member_ok.
  apply ensures_read. intros name Hname.
  destruct (truthy name) eqn:Et; cbn [negb].
  - apply (ensures_bind _ _
             (fun _ missing => exists description,
                get method "description" = Ok description /\
                missing = negb (truthy description))).
    { apply ensures_read. intros description Hd. apply ensures_ret. eauto. }
    intros missing.
    eapply ensures_bind; [apply ensures_unless, ensures_push_error|]. intros ?.
    apply ensures_read. intros name' Hname'.
    eapply ensures_weaken; [apply ensures_unless, ensures_report|].
    cbv beta. intros _ _ E Hmiss (description & Hd & ->).
    apply negb_false_iff, strict_eq_str_eq in E.
    apply negb_false_iff in Hmiss. split; [congruence | eauto].
  - apply (ensures_bind _ _ (fun _ missing => missing = true));
      [apply ensures_ret; reflexivity|].
    intros missing.
    eapply ensures_bind; [apply ensures_unless, ensures_push_error|]. intros ?.
    eapply ensures_weaken; [apply ensures_quiet; mono|].
    cbv beta. intros _ _ _ Hmiss ->. discriminate.
Qed.

Lemma falsy_no_entries v : truthy v = false -> own_entries v = [].
Proof.
  destruct v as [ | | b | n | s | | | ]; try discriminate; try reflexivity.
  simpl. destruct s; [reflexivity | discriminate].
Qed.

(** The loop over the methods, static methods or properties of one
    object. *)
Lemma members_ensures object field v (f : string * value -> M unit) :
  get object field = Ok v ->
  (forall k record, ensures (f (k, record)) (fun _ _ => member_ok k record)) ->
  ensures (when (truthy v)
             (bind (lift (get object field)) (fun v' =>
              bind (lift (Object_entries v')) (fun ms => forEach f ms))))
    (fun _ _ => forall k record, In (k, record) (children object field) ->
                                 member_ok k record).
Proof.
  intros Hv Hf. unfold children. rewrite Hv.
  apply (ensures_weaken _
           (fun _ _ => truthy v = true ->
              forall x, In x (own_entries v) -> member_ok (fst x) (snd x))).
  - apply ensures_when.
    apply ensures_read. intros v' Hv'. assert (v' = v) as -> by congruence.
    apply ensures_read. intros ms Hms.
    assert (ms = own_entries v) as ->.
    { unfold Object_entries in Hms. destruct (nullish v); [discriminate|]. congruence. }
    apply (ensures_forEach _ (fun x _ => member_ok (fst x) (snd x))).
    intros [k record] _. apply Hf.
  - cbv beta. intros d u H k record Hin.
    destruct (truthy v) eqn:Et.
    + apply (H eq_refl (k, record) Hin).
    + rewrite (falsy_no_entries _ Et) in Hin. destruct Hin.
Qed.

Lemma static_member_ensures objectName methodName method :
  ensures (bind (check_member objectName "static method" "Static method" methodName method)
             (fun _ =>
              bind (lift (get method "static")) (fun flag =>
              when (negb (truthy flag))
                (push_warning ("Static method " +++ objectName +++ "." +++ methodName
                               +++ " should have static: true")))))
    (fun _ _ => member_ok methodName method).
Proof.
  eapply ensures_last; [apply check_member_ensures | intros _; mono | auto].
Qed.

Lemma validateCategories_ensures :
  ensures validateCategories
    (fun d _ => exists categories, get d "categories" = Ok categories /\ keyed categories).
Proof.
  unfold validateCategories.
  apply ensures_data. intro d0.
  apply ensures_read. intros cats Hcats.
  apply ensures_read. intros entries Hentries.
  eapply ensures_weaken.
  - apply (ensures_forEach _
             (fun x _ => get (snd x) "name" = Ok (VStr (fst x)))).
    intros [categoryName category] _. cbn [fst snd].
    apply ensures_read. intros name Hname.
    apply ensures_skip; [mono|]. intros _.
    apply ensures_read. intros name' Hname'.
    eapply ensures_last.
    + apply ensures_unless. apply ensures_report.
    + intros _. mono.
    + cbv beta. intros _ _ _ E. apply negb_false_iff, strict_eq_str_eq in E.
      congruence.
  - cbv beta. intros d _ H ->. exists cats. split; [exact Hcats|].
    unfold Object_entries in Hentries. destruct (nullish cats); [discriminate|].
    injection Hentries as <-. intros k x Hin. apply (H (k, x) Hin).
Qed.

Lemma validateObjects_ensures :
  ensures validateObjects
    (fun d _ => exists objects, get d "objects" = Ok objects /\ keyed objects /\
       forall k object, In (k, object) (own_entries objects) -> members_ok object).
Proof.
  unfold validateObjects.
  apply ensures_data. intro d0.
  apply ensures_read. intros objs Hobjs.
  apply ensures_read. intros entries Hentries.
  eapply ensures_weaken.
  - apply (ensures_forEach _
             (fun x _ => get (snd x) "name" = Ok (VStr (fst x)) /\ members_ok (snd x))).
    intros [objectName object] _. cbn [fst snd].
    apply ensures_skip; [mono|]. intros _.
    apply ensures_read. intros name Hname.
    eapply ensures_bind; [apply ensures_unless, ensures_report|]. intros ?.
    apply ensures_skip; [mono|]. intros _.
    apply ensures_skip; [mono|]. intros short.
    apply ensures_skip; [mono|]. intros _.
    apply ensures_read. intros methods Hmethods.
    eapply ensures_bind.
    { apply (members_ensures object "methods" methods
               (fun x => let '(methodName, method) := x in
                         check_member objectName "method" "Method" methodName method)
               Hmethods).
      intros k record. apply check_member_ensures. }
    intros ?.
    apply ensures_read. intros staticMethods Hstatic.
    eapply ensures_bind.
    { apply (members_ensures object "staticMethods" staticMethods
               (fun x => let '(methodName, method) := x in
                  bind (check_member objectName "static method" "Static method"
                          methodName method)
                    (fun _ =>
                     bind (lift (get method "static")) (fun flag =>
                     when (negb (truthy flag))
                       (push_warning ("Static method " +++ objectName +++ "."
                                      +++ methodName +++ " should have static: true")))))
               Hstatic).
      intros k record. apply static_member_ensures. }
    intros ?.
    apply ensures_read. intros properties Hproperties.
    eapply ensures_last.
    { apply (members_ensures object "properties" properties
               (fun x => let '(propName, property) := x in
                         check_member objectName "property" "Property" propName property)
               Hproperties).
      intros k record. apply check_member_ensures. }
    { intros _. mono. }
    cbv beta. intros _ _ _ Hp Hs Hm E. apply negb_false_iff, strict_eq_str_eq in E.
    split; [congruence|].
    intros field Hfield. cbn [In] in Hfield.
    destruct Hfield as [<-|[<-|[<-|[]]]]; assumption.
  - cbv beta. intros d _ H ->. exists objs. split; [exact Hobjs|].
    unfold Object_entries in Hentries. destruct (nullish objs); [discriminate|].
    injection Hentries as <-.
    split; intros k x Hin; apply (H (k, x) Hin).
Qed.

Lemma validateKeywords_ensures :
  ensures validateKeywords
    (fun d _ => exists keywords, get d "keywords" = Ok keywords /\ keyed keywords).
Proof.
  unfold validateKeywords.
  apply ensures_data. intro d0.
  apply ensures_read. intros kws Hkws.
  apply ensures_read. intros entries Hentries.
  eapply ensures_weaken.
  - apply (ensures_forEach _
             (fun x _ => get (snd x) "name" = Ok (VStr (fst x)))).
    intros [keywordName keyword] _. cbn [fst snd].
    apply ensures_skip; [mono|]. intros _.
    apply ensures_read. intros name Hname.
    eapply ensures_last.
    + apply ensures_unless. apply ensures_report.
    + intros _. mono.
    + cbv beta. intros _ _ _ E. apply negb_false_iff, strict_eq_str_eq in E.
      congruence.
  - cbv beta. intros d _ H ->. exists kws. split; [exact Hkws|].
    unfold Object_entries in Hentries. destruct (nullish kws); [discriminate|].
    injection Hentries as <-. intros k x Hin. apply (H (k, x) Hin).
Qed.

Lemma check_total_ensures metadata field label actual :
  ensures (check_total metadata field label actual)
    (fun _ _ => counts metadata field actual).
Proof.
  unfold check_total, counts.
  apply ensures_read. intros stored Hstored.
  eapply ensures_weaken.
  - apply ensures_unless.
    apply ensures_read. intros stored' _. apply ensures_report.
  - cbv beta. intros _ _ E. apply negb_false_iff, strict_eq_num_eq in E. congruence.
Qed.

Lemma count_methods_ensures objs :
  ensures (count_methods objs)
    (fun _ n => exists entries, Object_values objs = Ok entries /\ n = method_total entries).
Proof.
  intros st n st' H. apply count_methods_total in H. destruct H as (-> & entries & He & ->).
  exists []. split; [apply grows_refl | eauto].
Qed.

Lemma keys_length v ks : Object_keys v = Ok ks -> List.length ks = List.length (own_entries v).
Proof.
  unfold Object_keys. destruct (nullish v); [discriminate|].
  intros [= <-]. apply length_map.
Qed.

Section Metadata.

Variable Date_parse_isNaN : string -> bool.

Lemma validateMetadata_ensures :
  ensures (validateMetadata Date_parse_isNaN)
    (fun d _ => exists categories objects keywords metadata,
       get d "categories" = Ok categories /\
       get d "objects" = Ok objects /\
       get d "keywords" = Ok keywords /\
       get d "metadata" = Ok metadata /\
       counts metadata "totalCategories" (List.length (own_entries categories)) /\
       counts metadata "totalObjects" (List.length (own_entries objects)) /\
       counts metadata "totalKeywords" (List.length (own_entries keywords)) /\
       counts metadata "totalMethods" (method_total (map snd (own_entries objects)))).
Proof.
  unfold validateMetadata.
  apply ensures_data. intro d0.
  apply ensures_read. intros metadata Hmeta.
  apply ensures_skip; [mono|]. intros _.
  apply ensures_read. intros cats Hcats.
  apply ensures_read. intros catKeys HcatKeys.
  apply ensures_read. intros objs Hobjs.
  apply ensures_read. intros objKeys HobjKeys.
  apply ensures_read. intros kws Hkws.
  apply ensures_read. intros kwKeys HkwKeys.
  eapply ensures_bind; [apply check_total_ensures|]. intros ?.
  eapply ensures_bind; [apply check_total_ensures|]. intros ?.
  eapply ensures_bind; [apply check_total_ensures|]. intros ?.
  apply ensures_read. intros objs' Hobjs'.
  eapply ensures_bind; [apply count_methods_ensures|]. intros actualMethods.
  eapply ensures_last; [apply check_total_ensures | intros _; mono|].
  cbv beta. intros d ? ? Hm (entries & Hentries & ->) Hk Ho Hc ->.
  exists cats, objs, kws, metadata.
  rewrite (keys_length _ _ HcatKeys) in Hc. rewrite (keys_length _ _ HobjKeys) in Ho.
  rewrite (keys_length _ _ HkwKeys) in Hk.
  assert (objs' = objs) as -> by congruence.
  unfold Object_values in Hentries. destruct (nullish objs); [discriminate|].
  injection Hentries as <-.
  repeat (split; [assumption|]). exact Hm.
Qed.

End Metadata.

Lemma met_before_nil l : forall seen,
  met_before seen l = [] -> forall x, In x l -> ~ In x seen.
Proof.
  induction l as [|y l IH]; intros seen H x Hx; [destruct Hx|].
  cbn [met_before] in H. destruct (mem y seen) eqn:E; [discriminate|].
  destruct Hx as [<-|Hx].
  - intro Hin. apply mem_In in Hin. congruence.
  - intro Hin. apply (IH _ H x Hx). apply in_or_app. left. exact Hin.
Qed.

Lemma check_duplicates_ensures objectName object :
  ensures (check_duplicates objectName object) (fun _ _ => disjoint_methods object).
Proof.
  unfold check_duplicates.
  apply ensures_read. intros methods Hm.
  apply ensures_read. intros instanceNames Hi.
  apply ensures_read. intros staticMethods Hsm.
  apply ensures_read. intros staticNames Hs.
  rewrite (keys_child_names _ _ _ _ Hm Hi), (keys_child_names _ _ _ _ Hsm Hs).
  eapply ensures_weaken; [apply ensures_unless, ensures_push_error|].
  cbv beta. intros _ _ E n Hn Hs'.
  rewrite duplicates_of_met_before, met_before_app in E. cbn [app] in E.
  destruct (met_before [] (child_names object "methods")) as [|] eqn:E1.
  2:{ destruct (met_before _ (child_names object "staticMethods")); discriminate. }
  cbn [app] in E.
  destruct (met_before _ (child_names object "staticMethods")) as [|] eqn:E2;
    [|discriminate].
  exact (met_before_nil _ _ E2 n Hs' Hn).
Qed.

Lemma validateConsistency_ensures :
  ensures validateConsistency
    (fun d _ => exists objects, get d "objects" = Ok objects /\
       forall k object, In (k, object) (own_entries objects) -> disjoint_methods object).
Proof.
  unfold validateConsistency.
  apply ensures_data. intro d0.
  apply ensures_skip; [mono|]. intros cats.
  apply ensures_skip; [mono|]. intros categories.
  apply ensures_skip; [mono|]. intros _.
  apply ensures_read. intros objs Hobjs.
  apply ensures_read. intros objects Hobjects.
  eapply ensures_last.
  - apply (ensures_forEach _ (fun x _ => disjoint_methods (snd x))).
    intros [objectName object] _. cbn [fst snd]. apply check_duplicates_ensures.
  - intros _. mono.
  - cbv beta. intros d _ _ H ->. exists objs. split; [exact Hobjs|].
    unfold Object_entries in Hobjects. destruct (nullish objs); [discriminate|].
    injection Hobjects as <-. intros k x Hin. apply (H (k, x) Hin).
Qed.

Lemma typeof_ensures (v : value) (msg : string) :
  ensures (when (negb (String.eqb (typeof v) "object")) (push_error msg))
    (fun _ _ => typeof v = "object").
Proof.
  eapply ensures_weaken; [apply ensures_unless, ensures_push_error|].
  cbv beta. intros _ _ E. apply negb_false_iff, String.eqb_eq in E. exact E.
Qed.

Lemma validateStructure_ensures :
  ensures validateStructure
    (fun d _ => forall field, In field ["categories"; "objects"; "keywords"; "metadata"] ->
       exists v, get d field = Ok v /\ is_collection v).
Proof.
  unfold validateStructure.
  apply ensures_data. intro d0.
  eapply ensures_bind.
  { apply (ensures_forEach _
             (fun field _ => exists v, get d0 field = Ok v /\ truthy v = true)).
    intros field _. apply ensures_read. intros v Hv.
    eapply ensures_weaken; [apply ensures_unless, ensures_push_error|].
    cbv beta. intros _ _ E. apply negb_false_iff in E. eauto. }
  intros ?.
  apply ensures_read. intros c Hc.
  eapply ensures_bind; [apply typeof_ensures|]. intros ?.
  apply ensures_read. intros o Ho.
  eapply ensures_bind; [apply typeof_ensures|]. intros ?.
  apply ensures_read. intros k Hk.
  eapply ensures_bind; [apply typeof_ensures|]. intros ?.
  apply ensures_read. intros m Hm.
  eapply ensures_weaken; [apply typeof_ensures|].
  cbv beta. intros d ? Tm Tk To Tc Hall -> field Hfield.
  destruct (Hall field Hfield) as (v & Hv & Ht).
  exists v. split; [exact Hv|]. split; [exact Ht|].
  cbn [In] in Hfield. destruct Hfield as [<-|[<-|[<-|[<-|[]]]]]; congruence.
Qed.

Lemma reportResults_quiet : quiet silent reportResults.
Proof.
  unfold reportResults. mono.
  intros st0 r st1 H. exists []. split; [|reflexivity].
  destruct (0 <? List.length (errors st0)); injection H as <- <-; apply grows_refl.
Qed.

(** Property X18.  A JavaScript dataset that passes the validation is consistent: its
    categories, objects and keywords are stored under their own names, the
    four totals of its metadata are the numbers of categories, objects,
    keywords and methods it holds, and no object has a name both as a
    method and as a static method. *)
Theorem validate_sound Date_parse_isNaN d st :
  validate Date_parse_isNaN d = (Ok Completed, st) -> consistent d.
Proof.
  intro H. pose proof (ResultFacts.validate_status _ _ _ _ H) as Hs.
  assert (He : errors st = []) by (apply Hs; reflexivity).
  revert H. unfold validate.
  match goal with |- ?m _ = _ -> _ =>
    assert (Hen : ensures m (fun d _ => consistent d)) end.
  { eapply ensures_bind; [apply validateStructure_ensures|]. intros ?.
    eapply ensures_bind; [apply validateCategories_ensures|]. intros ?.
    eapply ensures_bind; [apply validateObjects_ensures|]. intros ?.
    eapply ensures_bind; [apply validateKeywords_ensures|]. intros ?.
    eapply ensures_bind; [apply validateMetadata_ensures|]. intros ?.
    eapply ensures_last; [apply validateConsistency_ensures
                         | intros _; apply reportResults_quiet|].
    cbv beta.
    intros d0 _ _ (objs & Hobjs & Hdisj)
           (cats & objs' & kws & meta & Hc & Ho & Hk & Hm & T1 & T2 & T3 & T4)
           (kws' & Hk' & Kk) (objs'' & Ho'' & Ko & Mo) (cats' & Hc' & Kc) Hst.
    assert (objs' = objs) as -> by congruence.
    assert (objs'' = objs) as -> by congruence.
    assert (kws' = kws) as -> by congruence.
    assert (cats' = cats) as -> by congruence.
    exists cats, objs, kws, meta. repeat (split; [assumption|]).
    assert (Hcol : forall field v,
              In field ["categories"; "objects"; "keywords"; "metadata"] ->
              get d0 field = Ok v -> is_collection v).
    { intros field v Hf Hv. destruct (Hst field Hf) as (v' & Hv' & Hcol). congruence. }
    split; [apply (Hcol "categories"); [cbn; tauto | assumption]|].
    split; [apply (Hcol "objects"); [cbn; tauto | assumption]|].
    split; [apply (Hcol "keywords"); [cbn; tauto | assumption]|].
    split; [apply (Hcol "metadata"); [cbn; tauto | assumption]|].
    repeat (split; [assumption|]).
    intros k object Hin. split; [eapply Mo | eapply Hdisj]; exact Hin. }
  intro H. destruct (Hen _ _ _ H) as (added & [_ G] & Q).
  cbn [errors app] in G. rewrite He in G. apply Q. symmetry. exact G.
Qed.

(** ** What the checks of the CSS data validator ensure *)

Ltac css_mono :=
  repeat first
    [ apply quiet_ret | apply quiet_lift | apply quiet_this_data
    | apply quiet_push_warning
    | apply quiet_push_error; reflexivity
    | apply quiet_when | apply quiet_if
    | apply quiet_bind; [|intro]
    | apply quiet_forEach; intro
    | apply quiet_foldM; intros
    | progress cbv beta
    | progress unfold CSSData.check_count, CSSData.check_items ].

Lemma css_item_ensures label second compareName props propName count :
  ensures
    (bind (lift (get props propName)) (fun prop =>
     bind (lift (get prop "name")) (fun name =>
     bind (if negb (truthy name) then ret true
           else bind (lift (get prop second)) (fun s => ret (negb (truthy s))))
       (fun missing =>
     bind (when missing
             (push_error (label +++ " " +++ propName +++ " missing required fields")))
       (fun _ =>
     bind (when compareName
             (bind (lift (get prop "name")) (fun name =>
              when (negb (strict_eq_str name propName))
                (bind (lift (toStr name)) (fun shown =>
                 push_warning (label +++ " name mismatch: " +++ propName +++ " vs "
                               +++ shown))))))
       (fun _ => ret (S count)))))))
    (fun _ _ => exists item, get props propName = Ok item /\
                  present item "name" /\ present item second).
Proof.
  apply ensures_read. intros prop Hprop.
  apply ensures_read. intros name Hname.
  destruct (truthy name) eqn:Et; cbn [negb].
  - apply (ensures_bind _ _
             (fun _ missing => exists s, get prop second = Ok s /\ missing = negb (truthy s))).
    { apply ensures_read. intros s Hs. apply ensures_ret. eauto. }
    intros missing.
    eapply ensures_last; [apply ensures_unless, ensures_push_error | intros _; css_mono|].
    cbv beta. intros _ _ _ Hmiss (s & Hs & ->). apply negb_false_iff in Hmiss.
    exists prop. unfold present. eauto 10.
  - apply (ensures_bind _ _ (fun _ missing => missing = true));
      [apply ensures_ret; reflexivity|].
    intros missing.
    eapply ensures_last; [apply ensures_unless, ensures_push_error | intros _; css_mono|].
    cbv beta. intros _ _ _ Hmiss ->. discriminate.
Qed.

Lemma check_items_ensures groups label second compareName :
  ensures (CSSData.check_items groups label second compareName)
    (fun _ _ => forall item, grouped groups item ->
                  present item "name" /\ present item second).
Proof.
  unfold CSSData.check_items.
  apply ensures_read. intros categories Hcats.
  eapply ensures_weaken.
  - apply (ensures_foldM _
             (fun category _ =>
                forall group name item,
                  get groups category = Ok group ->
                  In name (map fst (own_entries group)) ->
                  get group name = Ok item ->
                  present item "name" /\ present item second)).
    intros count category _.
    apply ensures_read. intros props Hprops.
    apply ensures_read. intros names Hnames.
    eapply ensures_weaken.
    + apply (ensures_foldM _
               (fun propName _ => exists item, get props propName = Ok item /\
                                    present item "name" /\ present item second)).
      intros count' propName _. apply css_item_ensures.
    + cbv beta. intros _ _ H group name item Hg Hin Hitem.
      assert (group = props) as -> by congruence.
      unfold Object_keys in Hnames. destruct (nullish props); [discriminate|].
      injection Hnames as <-.
      destruct (H name Hin) as (item' & Hitem' & Hp). congruence.
  - cbv beta. intros _ _ H item (category & group & name & Hc & Hg & Hn & Hi).
    unfold Object_keys in Hcats. destruct (nullish groups); [discriminate|].
    injection Hcats as <-. exact (H category Hc group name item Hg Hn Hi).
Qed.

Lemma typeof_number v : typeof v = "number" -> exists n, v = VNum n.
Proof.
  destruct v as [ | | b | n | s | | | k ]; try discriminate; [eauto|].
  simpl. destruct (String.eqb k "__proto__"); discriminate.
Qed.

Lemma checks_ensures :
  ensures CSSData.checks (fun d _ => css_consistent d).
Proof.
  unfold CSSData.checks.
  apply ensures_data. intro d0.
  eapply ensures_bind.
  { apply (ensures_forEach _ (fun section _ => present d0 section)).
    intros section _. apply ensures_read. intros v Hv.
    eapply ensures_weaken; [apply ensures_unless, ensures_push_error|].
    cbv beta. intros _ _ E. apply negb_false_iff in E. exists v. auto. }
  intros ?.
  apply ensures_read. intros categories Hcategories.
  eapply ensures_bind.
  { apply ensures_when.
    eapply ensures_bind.
    { apply (ensures_forEach _ (fun category _ => present categories category)).
      intros category _. apply ensures_read. intros categories' Hc'.
      assert (categories' = categories) as -> by congruence.
      apply ensures_read. intros v Hv.
      eapply ensures_weaken; [apply ensures_unless, ensures_push_error|].
      cbv beta. intros _ _ E. apply negb_false_iff in E. exists v. auto. }
    intros ?.
    apply ensures_read. intros categories' Hc'.
    assert (categories' = categories) as -> by congruence.
    apply ensures_read. intros properties Hproperties.
    eapply ensures_bind.
    { apply ensures_when.
      eapply ensures_last; [apply (check_items_ensures properties "Property" "syntax" true)
                           | intros ?; css_mono
                           | intros ? ? ? H; exact H]. }
    intros ?.
    apply ensures_read. intros categories'' Hc''.
    assert (categories'' = categories) as -> by congruence.
    apply ensures_read. intros types Htypes.
    apply (ensures_weaken _
             (fun _ _ => truthy types = true ->
                forall item, grouped types item ->
                  present item "name" /\ present item "definition")).
    { apply ensures_when.
      eapply ensures_last; [apply (check_items_ensures types "Type" "definition" false)
                           | intros ?; css_mono
                           | intros ? ? ? H; exact H]. }
    cbv beta. intros d u Ht Hp Hall.
    exact (conj Hall (conj (ex_intro _ properties (conj Hproperties Hp))
                           (ex_intro _ types (conj Htypes Ht)))). }
  intros ?.
  apply ensures_read. intros statistics Hstatistics.
  eapply ensures_last.
  { apply ensures_when.
    apply (ensures_forEach _
             (fun stat _ => exists n, get statistics stat = Ok (VNum n))).
    intros stat _. apply ensures_read. intros v Hv.
    eapply ensures_weaken; [apply ensures_unless, ensures_push_error|].
    cbv beta. intros _ _ E. apply negb_false_iff, String.eqb_eq, typeof_number in E.
    destruct E as (n & ->). eauto. }
  { intros ?. css_mono.
    intros st0 r st1 H. injection H as <- <-. exists []. split; [apply grows_refl | reflexivity]. }
  cbv beta. intros d ? ? Hstats Hcats Hsections ->.
  assert (Hc : truthy categories = true).
  { destruct (Hsections "categories") as (v & Hv & Ht); [cbn; tauto|]. congruence. }
  assert (Hs : truthy statistics = true).
  { destruct (Hsections "statistics") as (v & Hv & Ht); [cbn; tauto|]. congruence. }
  destruct (Hcats Hc) as (Hgroups & (properties & Hproperties & Hp) & (types & Htypes & Ht)).
  assert (Hpt : truthy properties = true).
  { destruct (Hgroups "properties") as (v & Hv & Hvt); [cbn; tauto|]. congruence. }
  assert (Htt : truthy types = true).
  { destruct (Hgroups "types") as (v & Hv & Hvt); [cbn; tauto|]. congruence. }
  exists categories, statistics, properties, types.
  split; [apply Hsections; cbn; tauto|].
  repeat (split; [assumption|]).
  split; [apply Hgroups; cbn; tauto|].
  split; [apply Hgroups; cbn; tauto|].
  split; [apply Hgroups; cbn; tauto|].
  split; [apply Hp, Hpt|]. split; [apply Ht, Htt|].
  apply Hstats, Hs.
Qed.

(** Property X19.  A CSS dataset that [validateCSSData] accepts is well formed: its three
    sections and five categories are there, every property has a name and
    a syntax, every type a name and a definition, and the five statistics
    are numbers. *)
Theorem validateCSSData_sound d :
  CSSData.validateCSSData d = Ok true -> css_consistent d.
Proof.
  unfold CSSData.validateCSSData. intro H.
  destruct (CSSData.checks (mkValidator d [] [])) as [[b| |] st] eqn:E;
    cbn [fst] in H; try discriminate.
  injection H as ->.
  pose proof (ResultFacts.checks_result _ _ _ E) as Hr.
  destruct (checks_ensures _ _ _ E) as (added & [_ G] & Q).
  cbn [errors app] in G. apply Q.
  rewrite (proj1 Hr eq_refl) in G. symmetry. exact G.
Qed.

End AssuranceFacts.

(** ** The attributes of the HTML validator *)

Module AttributeFacts.
Import JS JSArray HTMLValidator HTMLIndex OutcomeFacts HTMLFacts Index.



End AttributeFacts.

(** ** Nested blocks in a style sheet *)

Module NestedFacts.
Import JS OutcomeFacts CSSValidator CSSRules RuleShape TrimFacts RuleFacts DocumentFacts.

Lemma each_rule_results data rules : forall index done stats done' stats',
  each_rule data rules index done stats = Ok (done', stats') ->
  (forall r, In r (map snd done) -> In r (map snd done')) /\
  forall rule, In rule rules ->
    exists result, validateRule data rule = Ok result /\ In result (map snd done').
Proof.
  induction rules as [|rule rules IH]; intros index done stats done' stats' H;
    cbn [each_rule] in H.
  - injection H as <- <-. split; [auto | intros rule []].
  - apply obind_Ok in H. destruct H as (r & Hr & H).
    destruct (IH _ _ _ _ _ H) as [Hkeep Hall]. split.
    + intros x Hx. apply Hkeep. rewrite map_app. apply in_or_app. left. exact Hx.
    + intros x [<-|Hx]; [|apply Hall, Hx].
      exists r. split; [exact Hr|]. apply Hkeep. rewrite map_app.
      apply in_or_app. right. left. reflexivity.
Qed.

Lemma extracted_trimmed (cssContent rule : text) :
  In rule (extractCSSRules cssContent) -> trim rule = rule.
Proof.
  unfold extractCSSRules. intro H. apply filter_In in H. destruct H as [H _].
  pose proof (collect_invariant (strip_comments false cssContent) 0 [] [] eq_refl
                (Forall_nil _)) as Hall.
  rewrite Forall_forall in Hall. destruct (Hall _ H) as (_ & Htrim & _). exact Htrim.
Qed.

Lemma validateRule_braces data (cssRule : text) :
  2 <= occurrences "{"%char (trim cssRule) ->
  validateRule data cssRule
  = Ok (mkRuleResult false [Text "Invalid CSS rule format"] [] None []).
Proof.
  intro Hn. unfold validateRule.
  pose proof (split_length "{"%char (trim cssRule)) as Hlen.
  destruct (split "{"%char (trim cssRule)) as [|first [|second [|third rest]]];
    cbn [List.length] in Hlen; try reflexivity; lia.
Qed.

(** Property X21.  A style sheet with a nested block is never valid: a rule with more
    than one opening brace, such as a media query with rules inside, is
    answered with [Invalid CSS rule format]. *)
Theorem validateCSS_nested data (cssContent : text) r rule :
  validateCSS data cssContent = Ok r ->
  In rule (extractCSSRules cssContent) ->
  2 <= occurrences "{"%char rule ->
  c_valid r = false /\ In (Text "Invalid CSS rule format") (c_errors r).
Proof.
  intros H Hin Hn. unfold validateCSS in H.
  apply obind_Ok in H. destruct H as ([done stats] & Hloop & H). injection H as <-.
  cbn [c_errors c_valid].
  assert (Hfmt : In (Text "Invalid CSS rule format")
                   (flat_map (fun r => r_errors (snd r)) done)).
  { destruct (each_rule_results _ _ _ _ _ _ _ Hloop) as [_ Hall].
    destruct (Hall rule Hin) as (result & Hres & Hdone).
    rewrite validateRule_braces in Hres
      by (rewrite (extracted_trimmed _ _ Hin); exact Hn).
    injection Hres as <-.
    apply in_map_iff in Hdone. destruct Hdone as (entry & Hentry & Hdone).
    apply in_flat_map. exists entry. split; [exact Hdone|].
    rewrite Hentry. left. reflexivity. }
  split; [|exact Hfmt].
  destruct (flat_map _ done); [destruct Hfmt | reflexivity].
Qed.

End NestedFacts.

(** ** A name in the wrong case *)

Module ExactFacts.
Import JS JSArray OutcomeFacts EditDistance EditDistanceFacts MatrixFacts MetricFacts
  Suggestions SuggestionFacts CSSValidator.

Lemma candidates_of_group_complete q cat names cs :
  candidates_of_group q cat names = Ok cs ->
  forall k, In k names -> toLowerCase k = q ->
    exists c, In c cs /\ property c = k /\ distance c = 0.
Proof.
  revert cs. induction names as [|n names IH]; cbn [candidates_of_group]; intros cs H k Hk Hq.
  - destruct Hk.
  - apply obind_Ok in H. destruct H as (d & Hd & H).
    apply obind_Ok in H. destruct H as (rest & Hrest & H). injection H as <-.
    destruct Hk as [->|Hk].
    + rewrite Hq, levenshteinDistance_dist, dist_refl in Hd. injection Hd as <-.
      cbn. eexists. split; [left; reflexivity | auto].
    + destruct (IH _ Hrest k Hk Hq) as (c & Hc & Hp).
      exists c. split; [|exact Hp].
      destruct d as [d|]; [|exact Hc]. destruct (d <=? 3); [right|]; exact Hc.
Qed.

Lemma candidates_of_groups_complete q groups cats cs :
  candidates_of_groups q groups cats = Ok cs ->
  forall category group k,
    In category cats -> get groups category = Ok group ->
    In k (map fst (own_entries group)) -> toLowerCase k = q ->
    exists c, In c cs /\ distance c = 0.
Proof.
  revert cs. induction cats as [|cat cats IH]; cbn [candidates_of_groups];
    intros cs H category group k Hc Hg Hk Hq.
  - destruct Hc.
  - apply obind_Ok in H. destruct H as (props & Hprops & H).
    apply obind_Ok in H. destruct H as (names & Hnames & H).
    apply obind_Ok in H. destruct H as (here & Hhere & H).
    apply obind_Ok in H. destruct H as (rest & Hrest & H). injection H as <-.
    destruct Hc as [->|Hc].
    + assert (props = group) as -> by congruence.
      unfold Object_keys in Hnames. destruct (nullish group); [discriminate|].
      injection Hnames as <-.
      destruct (candidates_of_group_complete _ _ _ _ Hhere k Hk Hq) as (c & Hin & _ & Hd).
      exists c. split; [apply in_or_app; left; exact Hin | exact Hd].
    + destruct (IH _ Hrest category group k Hc Hg Hk Hq) as (c & Hin & Hd).
      exists c. split; [apply in_or_app; right; exact Hin | exact Hd].
Qed.

Lemma sorted_head_least l c :
  In c l -> exists h t, sort_by_distance l = h :: t /\ distance h <= distance c.
Proof.
  intro Hin. pose proof (sort_sorted l) as Hs.
  assert (Hin' : In c (sort_by_distance l))
    by (apply (Permutation_in _ (Permutation_sym (sort_perm l))), Hin).
  destruct (sort_by_distance l) as [|h t]; [destruct Hin'|].
  exists h, t. split; [reflexivity|].
  destruct Hin' as [->|Hin']; [lia|].
  inversion Hs as [|? ? _ Hall]; subst. rewrite Forall_forall in Hall.
  apply (Hall c Hin').
Qed.

(** Property X22.  When the given name is, up to the case of its letters, the name of a
    property of the dataset, the first suggestion of
    [findSimilarProperties] is such a name: it equals the given one up to
    case. *)
Theorem findSimilarProperties_exact_first data propertyName l categories groups category
    group k :
  findSimilarProperties data propertyName = Ok l ->
  get data "categories" = Ok categories ->
  get categories "properties" = Ok groups ->
  In category (map fst (own_entries groups)) ->
  get groups category = Ok group ->
  In k (map fst (own_entries group)) ->
  toLowerCase k = toLowerCase propertyName ->
  exists first rest,
    l = first :: rest /\ toLowerCase first = toLowerCase propertyName.
Proof.
  intros H Hc Hg Hcat Hgroup Hk Hq. unfold findSimilarProperties in H.
  rewrite Hc in H. cbn [obind] in H. rewrite Hg in H. cbn [obind] in H.
  apply obind_Ok in H. destruct H as (names & Hnames & H).
  apply obind_Ok in H. destruct H as (all & Hall & H).
  assert (E : l = map property (firstn 5 (sort_by_distance all)))
    by (injection H; intro E; symmetry; exact E).
  clear H. subst l.
  unfold Object_keys in Hnames. destruct (nullish groups); [discriminate|].
  injection Hnames as <-.
  destruct (candidates_of_groups_complete _ _ _ _ Hall category group k Hcat Hgroup Hk Hq)
    as (c & Hin & Hd).
  destruct (sorted_head_least _ _ Hin) as (h & t & Es & Hle).
  rewrite Es. cbn [firstn map]. eexists. eexists. split; [reflexivity|].
  assert (Hh : In h all).
  { apply (Permutation_in _ (sort_perm all)). rewrite Es. left. reflexivity. }
  destruct (candidates_of_groups_sound _ _ _ _ Hall h Hh) as [_ Hlev].
  rewrite levenshteinDistance_dist in Hlev. injection Hlev as Hlev.
  assert (Hz : dist (list_ascii_of_string (toLowerCase propertyName))
                 (list_ascii_of_string (toLowerCase (property h))) = 0) by lia.
  apply dist_zero, list_ascii_inj in Hz. symmetry. exact Hz.
Qed.

End ExactFacts.

Module FurtherInstances.
Import JS.

(** The sample JavaScript dataset passes the validation, so it is
    consistent. *)
Lemma validate_sound_witness :
  fst (JSData.validate Examples.every_date_parses Examples.js_scenario)
  = Ok JSData.Completed /\
  Assurance.consistent Examples.js_scenario.
Proof.
  split; [vm_compute; reflexivity|].
  eapply (AssuranceFacts.validate_sound Examples.every_date_parses Examples.js_scenario).
  vm_compute. reflexivity.
Defined.

(** The sample CSS dataset is accepted, so it is well formed. *)
Lemma validateCSSData_sound_witness :
  CSSData.validateCSSData Examples.css_two_properties = Ok true /\
  Assurance.css_consistent Examples.css_two_properties.
Proof.
  assert (H : CSSData.validateCSSData Examples.css_two_properties = Ok true)
    by (vm_compute; reflexivity).
  split; [exact H|].
  exact (AssuranceFacts.validateCSSData_sound _ H).
Defined.


(** The media query of the sample sheet makes the sheet invalid. *)
Lemma validateCSS_nested_witness :
  exists r,
    CSSRules.validateCSS Examples.css_two_properties Samples.style_sheet = Ok r /\
    In (list_ascii_of_string "@media { a { zb: 3 } }")
       (CSSRules.extractCSSRules Samples.style_sheet) /\
    2 <= RuleShape.occurrences "{"%char (list_ascii_of_string "@media { a { zb: 3 } }") /\
    CSSRules.c_valid r = false /\
    In (CSSRules.Text "Invalid CSS rule format") (CSSRules.c_errors r).
Proof.
  destruct (CSSRules.validateCSS Examples.css_two_properties Samples.style_sheet)
    as [r| |] eqn:E; try (vm_compute in E; discriminate).
  exists r. split; [reflexivity|].
  assert (H1 : In (list_ascii_of_string "@media { a { zb: 3 } }")
                 (CSSRules.extractCSSRules Samples.style_sheet))
    by (vm_compute; right; right; left; reflexivity).
  assert (H2 : 2 <= RuleShape.occurrences "{"%char
                      (list_ascii_of_string "@media { a { zb: 3 } }"))
    by (vm_compute; lia).
  split; [exact H1|]. split; [exact H2|].
  exact (NestedFacts.validateCSS_nested _ _ _ _ E H1 H2).
Defined.

(** [ZB] is not a property of the sample dataset; [zb] is suggested
    first. *)
Lemma findSimilarProperties_exact_first_witness :
  CSSValidator.findSimilarProperties Examples.css_two_properties "ZB" = Ok ["zb"; "za"] /\
  exists first rest,
    ["zb"; "za"] = first :: rest /\ toLowerCase first = toLowerCase "ZB".
Proof.
  assert (H : CSSValidator.findSimilarProperties Examples.css_two_properties "ZB"
              = Ok ["zb"; "za"]) by (vm_compute; reflexivity).
  split; [exact H|].
  refine (ExactFacts.findSimilarProperties_exact_first Examples.css_two_properties "ZB" _
            _ _ "layout" _ "zb" H eq_refl eq_refl _ eq_refl _ _).
  - left. reflexivity.
  - left. reflexivity.
  - reflexivity.
Defined.

End FurtherInstances.
